(** * MonAI agent SDK: the orchestration core, embedded and verified

    A shallow embedding of [src/ai/MonAIAgent.ts], [src/tools/tools.ts],
    [src/tools/token/getBalance.ts], [src/tools/token/getTokenBalance.ts],
    the [TOKEN] table and [utils/helpers.ts].

    - JavaScript values are an inductive type with the language's
      [String(..)] and truthiness written out.
    - A rejected promise / thrown exception is a [Throw]; an [await]ed call
      is a function on the explicit state.
    - The hosted assistant runtime (the OpenAI client) is an interface,
      [RemoteRuntime]; the libraries the code calls but does not define
      (JSON, viem, the process environment) are the interface [Platform].
    - Every remote call, log line and timer wait is appended to a trace of
      [Event]s, so that "how many operations were issued" is a statement
      about a list.
    - The two [while] loops take fuel; [OutOfFuel] is reported apart from
      an exception and cannot be caught.

    Assumptions of the model.  Strings are sequences of ASCII characters.
    [TOKEN] is read by its own keys only, as the code does.  The registry
    keeps the prototype of an object literal (no tool is registered under
    [__proto__]), so the dispatcher's lookup answers its entries and the
    members of [Object.prototype].  A tool handler always settles, and the handlers of one round do not depend on
    the order in which they run. *)

From Stdlib Require Import String Ascii List ZArith Bool Lia DecimalString.
From Stdlib Require QArith.QArith_base.
Import ListNotations.
Open Scope string_scope.
Open Scope list_scope.
Set Warnings "-register-all".

(* ================================================================= *)
(** ** JavaScript values *)

(** IEEE doubles are not represented: the numeric values that occur in the
    modelled code are [bigint]s (balances) and integer decimals. *)
Inductive JsValue : Type :=
| JsUndefined
| JsNull
| JsBool (b : bool)
| JsBigInt (n : Z)
| JsString (s : string)
| JsArray (elems : list JsValue)
| JsObject (props : list (string * JsValue)).

(** The double quote character, for messages that quote a name. *)
Definition dquote : string := String "034"%char EmptyString.

Definition is_empty (s : string) : bool :=
  match s with EmptyString => true | String _ _ => false end.

(** [Array.prototype.join]. *)
Fixpoint join (sep : string) (l : list string) : string :=
  match l with
  | [] => EmptyString
  | [x] => x
  | x :: rest => x ++ sep ++ join sep rest
  end.

(** [String(v)], which is also what a template literal applies. *)
Fixpoint JS_String (v : JsValue) : string :=
  match v with
  | JsUndefined => "undefined"
  | JsNull => "null"
  | JsBool true => "true"
  | JsBool false => "false"
  | JsBigInt n => NilZero.string_of_int (Z.to_int n)
  | JsString s => s
  | JsArray elems =>
      join ","
        ((fix each (l : list JsValue) : list string :=
            match l with
            | [] => []
            | JsUndefined :: rest => EmptyString :: each rest
            | JsNull :: rest => EmptyString :: each rest
            | x :: rest => JS_String x :: each rest
            end) elems)
  | JsObject _ => "[object Object]"
  end.

(** Truthiness, as [!v], [v || w] and [if (v)] read it. *)
Definition ToBoolean (v : JsValue) : bool :=
  match v with
  | JsUndefined | JsNull => false
  | JsBool b => b
  | JsBigInt n => negb (n =? 0)%Z
  | JsString s => negb (is_empty s)
  | JsArray _ | JsObject _ => true
  end.

(** [v || w]. *)
Definition js_or (v w : JsValue) : JsValue := if ToBoolean v then v else w.

(** [String.prototype.toLowerCase] on the ASCII letters. *)
Definition ascii_toLowerCase (c : ascii) : ascii :=
  let n := nat_of_ascii c in
  if (65 <=? n)%nat && (n <=? 90)%nat then ascii_of_nat (n + 32) else c.

Fixpoint toLowerCase (s : string) : string :=
  match s with
  | EmptyString => EmptyString
  | String c rest => String (ascii_toLowerCase c) (toLowerCase rest)
  end.

(* ================================================================= *)
(** ** Exceptions and settled promises *)

(** What a [throw] carries: an [Error] instance (with its [name] and
    [message]) or any other value. *)
Inductive Thrown : Type :=
| ErrorObject (name message : string)
| ThrownValue (v : JsValue).

(** [new Error(msg)], [TypeError], [SyntaxError]. *)
Definition Error (msg : string) : Thrown := ErrorObject "Error" msg.
Definition TypeError (msg : string) : Thrown := ErrorObject "TypeError" msg.

(** [`${error}`]: [Error.prototype.toString] for an error object. *)
Definition Thrown_toString (e : Thrown) : string :=
  match e with
  | ErrorObject name message =>
      if is_empty name then message
      else if is_empty message then name
      else name ++ ": " ++ message
  | ThrownValue v => JS_String v
  end.

(** [error instanceof Error ? error.message : String(error)]. *)
Definition errorMessage (e : Thrown) : string :=
  match e with
  | ErrorObject _ message => message
  | ThrownValue v => JS_String v
  end.

(** How an awaited call of a collaborator settles. *)
Inductive Completion (A : Type) : Type :=
| Normal (a : A)
| Throw (e : Thrown).
Arguments Normal {A} a.
Arguments Throw {A} e.

(** Property read [v.key] / destructuring [{key} = v] for the keys the
    handlers read ([wallet], [tokenName]): own properties of an object,
    [undefined] on the other non-nullish values. *)
Fixpoint assoc {A : Type} (key : string) (l : list (string * A)) : option A :=
  match l with
  | [] => None
  | (k, v) :: rest => if String.eqb k key then Some v else assoc key rest
  end.

Definition Get (v : JsValue) (key : string) : JsValue :=
  match v with
  | JsObject props =>
      match assoc key props with Some x => x | None => JsUndefined end
  | _ => JsUndefined
  end.

Definition is_nullish (v : JsValue) : bool :=
  match v with JsUndefined | JsNull => true | _ => false end.

(* ================================================================= *)
(** ** Logger ([utils/logger.ts]) *)

Inductive LogLevel : Type := LvlError | LvlWarn | LvlInfo | LvlHttp | LvlDebug.

Record LogEntry : Type := mkLog { level : LogLevel; message : string }.

(* ================================================================= *)
(** ** Wallet context and constants *)

Module Account.
Record t : Type := mk { address : string }.
End Account.

Module WalletClient.
Record t : Type := mk { account : option Account.t }.
End WalletClient.

(** [walletClient?.account?.address]. *)
Definition accountAddress (walletClient : option WalletClient.t) : JsValue :=
  match walletClient with
  | Some wc =>
      match WalletClient.account wc with
      | Some acct => JsString (Account.address acct)
      | None => JsUndefined
      end
  | None => JsUndefined
  end.

(** [constants/index.ts]: the token table, in declaration order. *)
Definition TOKEN : list (string * string) :=
  [ ("WMON", "0x760AfE86e5de5fa0Ee542fc7B7B713e1c5425701");
    ("MONAI", "0x7348fac1b35be27b0b636f0881afc9449ec54ba5") ].

Definition Object_keys {A : Type} (o : list (string * A)) : list string :=
  map fst o.

Definition Object_values {A : Type} (o : list (string * A)) : list A :=
  map snd o.

(** viem's [zeroAddress]. *)
Definition zeroAddress : string := "0x0000000000000000000000000000000000000000".

(** The two ABI constants the handlers pass to [readContract]. *)
Inductive Abi : Type := ERC20 | erc20Abi.

(** [tokenDecimalsCache : Map<string, number>]. *)
Definition Cache : Type := list (string * Z).

Definition Map_has (m : Cache) (k : string) : bool :=
  match assoc k m with Some _ => true | None => false end.

Fixpoint Map_set (m : Cache) (k : string) (v : Z) : Cache :=
  match m with
  | [] => [(k, v)]
  | (k', v') :: rest =>
      if String.eqb k' k then (k', v) :: rest else (k', v') :: Map_set rest k v
  end.

(* ================================================================= *)
(** ** The platform: libraries and environment the code calls *)

(** The run, its status and its pending tool calls, as the OpenAI client
    types them ([openai/resources/beta/threads/runs]). *)
Inductive RunStatus : Type :=
| queued | in_progress | requires_action | cancelling | cancelled
| failed | completed | incomplete | expired.

Module ToolCall.
(** [RequiredActionFunctionToolCall]: [id], [function.name],
    [function.arguments]. *)
Record t : Type := mk { id : string; name : string; arguments : string }.
End ToolCall.

Module RequiredAction.
(** [type] is kept as the string the code compares;
    [submit_tool_outputs?.tool_calls] may be missing. *)
Record t : Type := mk { type : string; tool_calls : option (list ToolCall.t) }.
End RequiredAction.

Module Run.
Record t : Type :=
  mk { id : string; status : RunStatus; required_action : option RequiredAction.t }.
End Run.

Class Platform : Type := {
  (** [JSON.parse]; a malformed payload throws a [SyntaxError]. *)
  JSON_parse : string -> Completion JsValue;
  (** [JSON.stringify(run, null, 2)]. *)
  JSON_stringify : Run.t -> string;
  (** [process.env.PRIVATE_KEY]. *)
  PRIVATE_KEY : option string;
  (** viem's [privateKeyToAccount]. *)
  privateKeyToAccount : string -> Completion Account.t;
  (** [publicClient.getBalance({ address })]. *)
  getBalance : JsValue -> Completion Z;
  (** [publicClient.readContract({ address, abi, functionName, args })]. *)
  readContract : string -> Abi -> string -> list JsValue -> Completion Z;
  (** viem's pure formatters. *)
  formatEther : Z -> string;
  formatUnits : Z -> Z -> string
}.

(* ================================================================= *)
(** ** Tool handlers

    A handler is a function of the parsed arguments, the wallet context
    and the session's tool configuration.  It may read and update the
    module-level decimals cache, writes log lines, and settles with a
    value or a thrown error. *)

Definition ToolEnv : Type := list (string * JsValue).

Record HandlerResult : Type := mkResult {
  outcome : Completion JsValue;
  cache_after : Cache;
  logged : list LogEntry
}.

Definition Handler : Type :=
  JsValue -> option WalletClient.t -> ToolEnv -> Cache -> HandlerResult.

(** The body of a handler is written in a small state-and-exception monad
    over the cache and the lines logged so far. *)
Definition H (A : Type) : Type :=
  Cache * list LogEntry -> Completion A * (Cache * list LogEntry).

Definition h_ret {A} (a : A) : H A := fun s => (Normal a, s).

Definition h_throw {A} (e : Thrown) : H A := fun s => (Throw e, s).

Definition h_bind {A B} (m : H A) (k : A -> H B) : H B :=
  fun s =>
    match m s with
    | (Normal a, s') => k a s'
    | (Throw e, s') => (Throw e, s')
    end.

(** [try { body } catch (error) { handler error }]. *)
Definition h_try {A} (body : H A) (handler : Thrown -> H A) : H A :=
  fun s =>
    match body s with
    | (Normal a, s') => (Normal a, s')
    | (Throw e, s') => handler e s'
    end.

Definition h_await {A} (c : Completion A) : H A := fun s => (c, s).

Definition h_log (lvl : LogLevel) (msg : string) : H unit :=
  fun '(cache, lines) => (Normal tt, (cache, lines ++ [mkLog lvl msg])).

Definition h_cache : H Cache := fun '(cache, lines) => (Normal cache, (cache, lines)).

Definition h_cache_set (k : string) (v : Z) : H unit :=
  fun '(cache, lines) => (Normal tt, (Map_set cache k v, lines)).

Declare Scope handler_scope.
Delimit Scope handler_scope with H.
Notation "x <- m ;; k" := (h_bind m (fun x => k))
  (at level 61, m at next level, right associativity) : handler_scope.
Notation "m ;; k" := (h_bind m (fun _ => k))
  (at level 61, right associativity) : handler_scope.

Definition run_handler (body : H JsValue) (cache : Cache) : HandlerResult :=
  let '(o, (cache', lines)) := body (cache, []) in
  mkResult o cache' lines.

(** [tools/tools.ts]: the declared definition of a tool. *)
Module ToolDefinition.
Record t : Type := mk {
  name : string;
  description : string;
  properties : list (string * JsValue);
  required : list string
}.
End ToolDefinition.

Module Tool.
Record t : Type := mk { definition : ToolDefinition.t; handler : Handler }.
End Tool.

Section Handlers.
Context `{Platform}.
Local Open Scope handler_scope.

(** [utils/helpers.ts], [fetchTokenDecimals]. *)
Definition fetchTokenDecimals (token : string) : H Z :=
  if is_empty token || String.eqb token zeroAddress then h_ret 18%Z
  else
    cache <- h_cache ;;
    (if negb (Map_has cache token) then
       h_try
         (tokenDecimals <- h_await (readContract token erc20Abi "decimals" []) ;;
          h_cache_set token tokenDecimals)
         (fun error =>
            h_log LvlError
              ("[ERROR] Failed to fetch decimals for token " ++ token ++ ": "
               ++ Thrown_toString error) ;;
            h_cache_set token 18%Z)
     else h_ret tt) ;;
    cache <- h_cache ;;
    (* [tokenDecimalsCache.get(token)!]: the key was set on every path above *)
    match assoc token cache with
    | Some d => h_ret d
    | None => h_throw (TypeError "tokenDecimalsCache.get returned undefined")
    end.

(** [fetchTokenDecimalsAndFormatAmount]. *)
Definition fetchTokenDecimalsAndFormatAmount (token : string) (amount : Z) : H string :=
  tokenDecimals <- fetchTokenDecimals token ;;
  h_ret (formatUnits amount tokenDecimals).

(** [getBalance.ts]: the native-balance handler. *)
Definition getBalance_handler : Handler :=
  fun args walletClient _ =>
    run_handler
      (h_try
         ((if is_nullish args then
             h_throw (TypeError ("Cannot read properties of " ++ JS_String args
                                 ++ " (reading 'wallet')"))
           else h_ret tt) ;;
          let address := js_or (Get args "wallet") (accountAddress walletClient) in
          (if negb (ToBoolean address) then
             h_throw (Error "No wallet address provided and no wallet client account available")
           else h_ret tt) ;;
          h_log LvlInfo ("Getting native token balance for " ++ JS_String address) ;;
          balance <- h_await (getBalance address) ;;
          let formattedBalance := formatEther balance in
          h_log LvlDebug ("Balance: " ++ formattedBalance) ;;
          h_ret (JsString formattedBalance))
         (fun error =>
            h_log LvlError ("Failed to get balance: " ++ Thrown_toString error) ;;
            h_throw (Error ("Failed to get balance: " ++ Thrown_toString error)))).

Definition getBalanceTool : Tool.t :=
  Tool.mk
    (ToolDefinition.mk "get_balance"
       "Get the native token balance of a wallet. If wallet is not provided, it will use the current wallet provider"
       [("wallet",
         JsObject
           [("type", JsString "string");
            ("pattern", JsString "^0x[a-fA-F0-9]{40}$");
            ("description",
             JsString "The wallet address to get the balance of. Default is current wallet provider")])]
       [])
    getBalance_handler.

(** [getTokenBalance.ts], lines 74-87: the token name is looked up among
    the keys of [TOKEN], comparing lower-cased names.  The comparison
    calls [tokenName.toLowerCase()], which is a [TypeError] on a value
    that is not a string. *)
Definition tokenName_toLowerCase (tokenName : JsValue) : Completion string :=
  match tokenName with
  | JsString s => Normal (toLowerCase s)
  | _ => Throw (TypeError "tokenName.toLowerCase is not a function")
  end.

Fixpoint find_key (tokenName : JsValue) (keys : list string)
  : Completion (option string) :=
  match keys with
  | [] => Normal None
  | key :: rest =>
      match tokenName_toLowerCase tokenName with
      | Throw e => Throw e
      | Normal lowered =>
          if String.eqb (toLowerCase key) lowered then Normal (Some key)
          else find_key tokenName rest
      end
  end.

Definition notFoundMessage (tokenName : JsValue) : string :=
  "Token " ++ dquote ++ JS_String tokenName ++ dquote
  ++ " not found. Available tokens: " ++ join ", " (Object_keys TOKEN).

Definition resolveToken (tokenName : JsValue) : Completion (string * string) :=
  match find_key tokenName (Object_keys TOKEN) with
  | Throw e => Throw e
  | Normal None => Throw (Error (notFoundMessage tokenName))
  | Normal (Some foundTokenName) =>
      match assoc foundTokenName TOKEN with
      | Some tokenAddress =>
          if is_empty tokenAddress then
            Throw (Error ("Token " ++ dquote ++ foundTokenName ++ dquote
                          ++ " address not found"))
          else Normal (foundTokenName, tokenAddress)
      | None =>
          Throw (Error ("Token " ++ dquote ++ foundTokenName ++ dquote
                        ++ " address not found"))
      end
  end.

(** Lines 89-107: read the raw balance of [address] from the token
    contract and format it with the token's decimals. *)
Definition readTokenBalance (foundTokenName tokenAddress : string) (address : JsValue)
  : H JsValue :=
  h_log LvlDebug ("Using token address: " ++ tokenAddress) ;;
  rawTokenBalance <- h_await (readContract tokenAddress ERC20 "balanceOf" [address]) ;;
  formattedTokenBalance <- fetchTokenDecimalsAndFormatAmount tokenAddress rawTokenBalance ;;
  h_log LvlDebug (foundTokenName ++ " balance: " ++ formattedTokenBalance) ;;
  h_ret (JsString formattedTokenBalance).

(** Lines 108-111, the [catch] of the handler: log, and rethrow with a
    prefix. *)
Definition rethrow_token_failure (error : Thrown) : H JsValue :=
  h_log LvlError ("Failed to get token balance: " ++ Thrown_toString error) ;;
  h_throw (Error ("Failed to get token balance: " ++ Thrown_toString error)).

(** [getTokenBalance.ts]: the ERC20-balance handler. *)
Definition getTokenBalance_handler : Handler :=
  fun args walletClient _ =>
    run_handler
      (h_try
         ((if is_nullish args then
             h_throw (TypeError ("Cannot destructure property 'wallet' of 'args' as it is "
                                 ++ JS_String args ++ "."))
           else h_ret tt) ;;
          let wallet := Get args "wallet" in
          let tokenName := Get args "tokenName" in
          let address := js_or wallet (accountAddress walletClient) in
          (if negb (ToBoolean address) then
             h_throw (Error "No wallet address provided and no wallet client account available")
           else h_ret tt) ;;
          (if negb (ToBoolean tokenName) then h_throw (Error "Token name is required")
           else h_ret tt) ;;
          h_log LvlInfo ("Getting " ++ JS_String tokenName ++ " balance for "
                         ++ JS_String address) ;;
          found <- h_await (resolveToken tokenName) ;;
          readTokenBalance (fst found) (snd found) address)
         rethrow_token_failure).

Definition getTokenBalanceTool : Tool.t :=
  Tool.mk
    (ToolDefinition.mk "get_token_balance"
       "Get the balance of an ERC20 token for a wallet"
       [("wallet",
         JsObject
           [("type", JsString "string");
            ("pattern", JsString "^0x[a-fA-F0-9]{40}$");
            ("description",
             JsString "The wallet address to get the balance of. If wallet is not provided, it will use the current wallet provider")]);
        ("tokenName",
         JsObject
           [("type", JsString "string");
            ("description",
             JsString ("The name of the token to get the balance for (e.g., "
                       ++ dquote ++ "WMON" ++ dquote ++ ", "
                       ++ dquote ++ "MONAI" ++ dquote ++ ")"));
            ("enum", JsArray (map JsString (Object_keys TOKEN)))])]
       ["tokenName"])
    getTokenBalance_handler.

(** [utils/helpers.ts], [createViemWalletClient]. *)
Definition createViemWalletClient : Completion WalletClient.t :=
  match PRIVATE_KEY with
  | None => Throw (Error "PRIVATE_KEY environment variable is not set.")
  | Some key =>
      if is_empty key then Throw (Error "PRIVATE_KEY environment variable is not set.")
      else
        match privateKeyToAccount key with
        | Normal account => Normal (WalletClient.mk (Some account))
        | Throw e => Throw e
        end
  end.

(** [tools/tools.ts]: the registry is an object used as a map from tool
    name to tool; it is kept in insertion order, which is the order of
    [Object.values].  The list holds the own entries; what the object
    inherits is [Object_prototype_keys] below. *)
Definition Registry : Type := list (string * Tool.t).

Definition toolRegistry0 : Registry :=
  [ ("get_balance", getBalanceTool); ("get_token_balance", getTokenBalanceTool) ].

Fixpoint registerTool (registry : Registry) (name : string) (tool : Tool.t) : Registry :=
  match registry with
  | [] => [(name, tool)]
  | (k, t) :: rest =>
      if String.eqb k name then (k, tool) :: rest
      else (k, t) :: registerTool rest name tool
  end.

Definition getTool (registry : Registry) (name : string) : option Tool.t :=
  assoc name registry.

(** The registry is an object literal, so besides its own entries it
    answers the property names of [Object.prototype]. *)
Definition Object_prototype_keys : list string :=
  [ "constructor"; "__defineGetter__"; "__defineSetter__"; "hasOwnProperty";
    "__lookupGetter__"; "__lookupSetter__"; "isPrototypeOf"; "propertyIsEnumerable";
    "toString"; "valueOf"; "__proto__"; "toLocaleString" ].

(** What [tools[name]] evaluates to: the tool of an own entry; else a
    member inherited from [Object.prototype] (a built-in function or, for
    [__proto__], the prototype itself), which is truthy and has no
    [handler]; else [undefined]. *)
Inductive Property : Type :=
| OwnTool (toolConfig : Tool.t)
| PrototypeMember
| Undefined.

Definition Registry_get (tools : Registry) (name : string) : Property :=
  match assoc name tools with
  | Some toolConfig => OwnTool toolConfig
  | None =>
      if existsb (String.eqb name) Object_prototype_keys then PrototypeMember
      else Undefined
  end.

End Handlers.

(* ================================================================= *)
(** ** The remote assistant runtime *)

Module Assistant.
Record t : Type := mk { id : string }.
End Assistant.

Module Thread.
Record t : Type := mk { id : string }.
End Thread.

Inductive Role : Type := RoleUser | RoleAssistant.

(** [MessageContent]: the code looks at [type] and, for a text block, at
    [text.value]. *)
Inductive ContentBlock : Type :=
| TextContentBlock (value : string)
| ImageFileContentBlock (file_id : string)
| ImageURLContentBlock (url : string)
| RefusalContentBlock (refusal : string).

Definition ContentBlock_type (b : ContentBlock) : string :=
  match b with
  | TextContentBlock _ => "text"
  | ImageFileContentBlock _ => "image_file"
  | ImageURLContentBlock _ => "image_url"
  | RefusalContentBlock _ => "refusal"
  end.

Module Message.
Record t : Type := mk { role : Role; content : list ContentBlock }.
End Message.

Module ToolOutput.
Record t : Type := mk { tool_call_id : string; output : string }.
End ToolOutput.

Module AssistantCreateParams.
Record t : Type := mk {
  model : string;
  temperature : QArith_base.Q;
  name : string;
  instructions : string;
  tools : list ToolDefinition.t
}.
End AssistantCreateParams.

(** The operations of [openAIClient.beta] the agent calls.  Each one acts
    on the runtime's own state [R] and settles with a value or an error;
    [messages_list] answers [data], most recent message first. *)
Class RemoteRuntime (R : Type) : Type := {
  assistants_create : AssistantCreateParams.t -> R -> Completion Assistant.t * R;
  assistants_retrieve : string -> R -> Completion Assistant.t * R;
  threads_create : R -> Completion Thread.t * R;
  threads_retrieve : string -> R -> Completion Thread.t * R;
  messages_create : string -> Role -> string -> R -> Completion unit * R;
  messages_list : string -> R -> Completion (list Message.t) * R;
  runs_create : string -> string -> R -> Completion Run.t * R;
  runs_retrieve : string -> string -> R -> Completion Run.t * R;
  runs_submitToolOutputsAndPoll :
    string -> string -> list ToolOutput.t -> R -> Completion Run.t * R
}.

Inductive RemoteOp : Type :=
| AssistantsCreate (params : AssistantCreateParams.t)
| AssistantsRetrieve (assistantId : string)
| ThreadsCreate
| ThreadsRetrieve (threadID : string)
| MessagesCreate (threadId : string) (role : Role) (content : string)
| MessagesList (threadId : string)
| RunsCreate (threadId assistant_id : string)
| RunsRetrieve (threadId runId : string)
| RunsSubmitToolOutputsAndPoll (threadId runId : string) (tool_outputs : list ToolOutput.t).

(** What the agent does that is visible outside it, in program order. *)
Inductive Event : Type :=
| EvLog (entry : LogEntry)
| EvRemote (op : RemoteOp)
| EvSleep (ms : Z).

(* ================================================================= *)
(** ** Session state and the process around it *)

(** [MonAIAgentConfig]; [openAIConfig] only configures the client handle. *)
Module Config.
Record t : Type := mk {
  walletClient : option WalletClient.t;
  toolEnvConfigs : option ToolEnv;
  prompts : option string;
  assistantId : option string;
  threadId : option string
}.
End Config.

(** The fields of [class MonAIAgent]; [openAIClient] is the [remote] of
    the world below. *)
Record MonAIAgent : Type := mkAgent {
  assistant : option Assistant.t;
  thread : option Thread.t;
  threadID : string;
  walletClient : WalletClient.t;
  toolEnvConfigs : ToolEnv;
  isInitialized : bool;
  assistantId : string;
  prompts : string
}.

(** [x || ''] on an optional string. *)
Definition or_empty (x : option string) : string :=
  match x with Some s => s | None => EmptyString end.

Definition set_assistant (x : option Assistant.t) (a : MonAIAgent) : MonAIAgent :=
  mkAgent x (thread a) (threadID a) (walletClient a) (toolEnvConfigs a)
          (isInitialized a) (assistantId a) (prompts a).

Definition set_assistantId (x : string) (a : MonAIAgent) : MonAIAgent :=
  mkAgent (assistant a) (thread a) (threadID a) (walletClient a) (toolEnvConfigs a)
          (isInitialized a) x (prompts a).

Definition set_thread (x : option Thread.t) (a : MonAIAgent) : MonAIAgent :=
  mkAgent (assistant a) x (threadID a) (walletClient a) (toolEnvConfigs a)
          (isInitialized a) (assistantId a) (prompts a).

Definition set_isInitialized (x : bool) (a : MonAIAgent) : MonAIAgent :=
  mkAgent (assistant a) (thread a) (threadID a) (walletClient a) (toolEnvConfigs a)
          x (assistantId a) (prompts a).

(** How a method of the agent ends. *)
Inductive Res (A : Type) : Type :=
| Ret (a : A)
| Raise (e : Thrown)
| OutOfFuel.
Arguments Ret {A} a.
Arguments Raise {A} e.
Arguments OutOfFuel {A}.

(** The process: the remote runtime, the two module-level tables and the
    trace. *)
Record World (R : Type) : Type := mkWorld {
  remote : R;
  toolRegistry : Registry;
  tokenDecimalsCache : Cache;
  events : list Event
}.
Arguments mkWorld {R} _ _ _ _.
Arguments remote {R} _.
Arguments toolRegistry {R} _.
Arguments tokenDecimalsCache {R} _.
Arguments events {R} _.

Definition emit {R : Type} (e : Event) (w : World R) : World R :=
  mkWorld (remote w) (toolRegistry w) (tokenDecimalsCache w) (events w ++ [e]).

Definition log_to {R : Type} (lvl : LogLevel) (msg : string) (w : World R) : World R :=
  emit (EvLog (mkLog lvl msg)) w.

Section Monad.
Context {R : Type} `{RemoteRuntime R} `{Platform}.

(** [new MonAIAgent(config)]. *)
Definition constructor (config : Config.t) : Completion MonAIAgent :=
  match
    match Config.walletClient config with
    | Some wc => Normal wc
    | None => createViemWalletClient
    end
  with
  | Throw e => Throw e
  | Normal wc =>
      Normal
        (mkAgent None None
           (or_empty (Config.threadId config))
           wc
           (match Config.toolEnvConfigs config with Some c => c | None => [] end)
           false
           (or_empty (Config.assistantId config))
           (or_empty (Config.prompts config)))
  end.

(** Methods run on the session and the world. *)
Definition St : Type := MonAIAgent * World R.
Definition M (A : Type) : Type := St -> Res A * St.

Definition ret {A} (a : A) : M A := fun s => (Ret a, s).
Definition raise {A} (e : Thrown) : M A := fun s => (Raise e, s).
Definition out_of_fuel {A} : M A := fun s => (OutOfFuel, s).

Definition bind {A B} (m : M A) (k : A -> M B) : M B :=
  fun s =>
    match m s with
    | (Ret a, s') => k a s'
    | (Raise e, s') => (Raise e, s')
    | (OutOfFuel, s') => (OutOfFuel, s')
    end.

(** [try { body } catch (error) { handler error }]. *)
Definition try_catch {A} (body : M A) (handler : Thrown -> M A) : M A :=
  fun s =>
    match body s with
    | (Raise e, s') => handler e s'
    | other => other
    end.

Definition this : M MonAIAgent := fun '(a, w) => (Ret a, (a, w)).

Definition assign (f : MonAIAgent -> MonAIAgent) : M unit :=
  fun '(a, w) => (Ret tt, (f a, w)).

Definition log (lvl : LogLevel) (msg : string) : M unit :=
  fun '(a, w) => (Ret tt, (a, log_to lvl msg w)).

(** [await new Promise(resolve => setTimeout(resolve, ms))]. *)
Definition sleep (ms : Z) : M unit :=
  fun '(a, w) => (Ret tt, (a, emit (EvSleep ms) w)).

(** [await this.openAIClient.beta. ...]: the operation is recorded, the
    runtime moves on, and a rejection is thrown here. *)
Definition await {A} (op : RemoteOp) (call : R -> Completion A * R) : M A :=
  fun '(a, w) =>
    let '(c, r') := call (remote w) in
    let w' := mkWorld r' (toolRegistry w) (tokenDecimalsCache w)
                      (events w ++ [EvRemote op]) in
    match c with
    | Normal x => (Ret x, (a, w'))
    | Throw e => (Raise e, (a, w'))
    end.

(** [initTools()]. *)
Definition initTools : M Registry := fun '(a, w) => (Ret (toolRegistry w), (a, w)).

End Monad.

Declare Scope agent_scope.
Delimit Scope agent_scope with M.
Notation "x <- m ;; k" := (bind m (fun x => k))
  (at level 61, m at next level, right associativity) : agent_scope.
Notation "m ;; k" := (bind m (fun _ => k))
  (at level 61, right associativity) : agent_scope.

(* ================================================================= *)
(** ** [class MonAIAgent]: the methods *)

(** How one callback of [Promise.allSettled] settles. *)
Inductive Settled : Type :=
| Fulfilled (value : option ToolOutput.t)
| Rejected (reason : Thrown).

Section Agent.
Context {R : Type} `{RemoteRuntime R} `{Platform}.
Local Open Scope agent_scope.

(** [createAssistant]. *)
Definition createAssistant : M Assistant.t :=
  tools <- initTools ;;
  a <- this ;;
  let params :=
    AssistantCreateParams.mk "gpt-4" (QArith_base.Qmake 3 10) "MonAI Assistant"
      (prompts a) (map Tool.definition (Object_values tools)) in
  await (AssistantsCreate params) (assistants_create params).

(** [retrieveAssistant]. *)
Definition retrieveAssistant : M Assistant.t :=
  a <- this ;;
  await (AssistantsRetrieve (assistantId a)) (assistants_retrieve (assistantId a)).

(** [createThread(message?)]. *)
Definition createThread (message : option string) : M Thread.t :=
  thread <- await ThreadsCreate threads_create ;;
  (match message with
   | Some text =>
       if is_empty text then ret tt
       else await (MessagesCreate (Thread.id thread) RoleUser text)
                  (messages_create (Thread.id thread) RoleUser text)
   | None => ret tt
   end) ;;
  ret thread.

(** [retrieveThread(threadID)]. *)
Definition retrieveThread (threadID : string) : M Thread.t :=
  await (ThreadsRetrieve threadID) (threads_retrieve threadID).

(** [initialize], lines 49-60: create or retrieve the assistant. *)
Definition initialize_assistant : M unit :=
  a <- this ;;
  match assistant a with
  | None =>
      try_catch
        (x <- retrieveAssistant ;; assign (set_assistant (Some x)))
        (fun _ =>
           x <- createAssistant ;;
           assign (set_assistant (Some x)) ;;
           assign (set_assistantId (Assistant.id x)))
  | Some _ =>
      x <- createAssistant ;;
      assign (set_assistant (Some x)) ;;
      assign (set_assistantId (Assistant.id x))
  end.

(** [initialize], lines 62-67: create or retrieve the thread. *)
Definition initialize_thread : M unit :=
  a <- this ;;
  if is_empty (threadID a) then
    x <- createThread None ;; assign (set_thread (Some x))
  else
    x <- retrieveThread (threadID a) ;; assign (set_thread (Some x)).

(** [initialize]. *)
Definition initialize : M unit :=
  a <- this ;;
  if isInitialized a then log LvlInfo "Agent already initialized"
  else
    initialize_assistant ;;
    initialize_thread ;;
    assign (set_isInitialized true).

(** [createRun], the polling loop of lines 156-159. *)
Fixpoint pollRun (fuel : nat) (run : Run.t) : M Run.t :=
  match Run.status run with
  | in_progress | queued =>
      match fuel with
      | O => out_of_fuel
      | S fuel' =>
          sleep 1000 ;;
          a <- this ;;
          run' <- await (RunsRetrieve (threadID a) (Run.id run))
                        (runs_retrieve (threadID a) (Run.id run)) ;;
          pollRun fuel' run'
      end
  | _ => ret run
  end.

(** [createRun]. *)
Definition createRun (fuel : nat) : M Run.t :=
  a <- this ;;
  log LvlInfo ("Running for thread " ++ threadID a ++ " with assistant " ++ assistantId a) ;;
  run <- await (RunsCreate (threadID a) (assistantId a))
               (runs_create (threadID a) (assistantId a)) ;;
  pollRun fuel run.

(** [handleRunToolCalls], lines 175-196: the callback mapped over the
    pending calls.  It reads the session and acts on the cache and the
    trace only. *)
Definition toolCallback (a : MonAIAgent) (tools : Registry) (tool : ToolCall.t)
    (w : World R) : Settled * World R :=
  match Registry_get tools (ToolCall.name tool) with
  | Undefined =>
      (Fulfilled None,
       log_to LvlError ("Tool " ++ ToolCall.name tool ++ " not found") w)
  | PrototypeMember =>
      (* [toolConfig] is truthy; after the arguments are parsed, the call of
         [toolConfig.handler], which is [undefined], throws inside the [try] *)
      match JSON_parse (ToolCall.arguments tool) with
      | Throw error =>
          (Fulfilled (Some (ToolOutput.mk (ToolCall.id tool)
                                          ("Error: " ++ errorMessage error))), w)
      | Normal args =>
          (Fulfilled
             (Some (ToolOutput.mk (ToolCall.id tool)
                      ("Error: "
                       ++ errorMessage (TypeError "toolConfig.handler is not a function")))),
           w)
      end
  | OwnTool toolConfig =>
      match JSON_parse (ToolCall.arguments tool) with
      | Throw error =>
          (Fulfilled (Some (ToolOutput.mk (ToolCall.id tool)
                                          ("Error: " ++ errorMessage error))), w)
      | Normal args =>
          let r := Tool.handler toolConfig args (Some (walletClient a))
                                (toolEnvConfigs a) (tokenDecimalsCache w) in
          let w' := mkWorld (remote w) (toolRegistry w) (cache_after r)
                            (events w ++ map EvLog (logged r)) in
          match outcome r with
          | Normal output =>
              (Fulfilled (Some (ToolOutput.mk (ToolCall.id tool) (JS_String output))), w')
          | Throw error =>
              (Fulfilled (Some (ToolOutput.mk (ToolCall.id tool)
                                              ("Error: " ++ errorMessage error))), w')
          end
      end
  end.

(** [Promise.allSettled(toolCalls.map(callback))]: one result per call, in
    the order of the calls.  The handlers are run one after the other in
    that order; they are expected not to depend on it. *)
Fixpoint allSettled (a : MonAIAgent) (tools : Registry) (toolCalls : list ToolCall.t)
    (w : World R) : list Settled * World R :=
  match toolCalls with
  | [] => ([], w)
  | tool :: rest =>
      let '(result, w1) := toolCallback a tools tool w in
      let '(results, w2) := allSettled a tools rest w1 in
      (result :: results, w2)
  end.

(** Lines 199-205: the loop that fills [toolOutputs]. *)
Fixpoint collectOutputs (results : list Settled) (w : World R)
    : list ToolOutput.t * World R :=
  match results with
  | [] => ([], w)
  | Fulfilled (Some value) :: rest =>
      let '(toolOutputs, w') := collectOutputs rest w in
      (value :: toolOutputs, w')
  | Fulfilled None :: rest => collectOutputs rest w
  | Rejected reason :: rest =>
      collectOutputs rest
        (log_to LvlError ("Tool call failed: " ++ Thrown_toString reason) w)
  end.

(** Lines 171-205 together: the outputs of one dispatch round. *)
Definition dispatchRound (a : MonAIAgent) (toolCalls : list ToolCall.t) (w : World R)
    : list ToolOutput.t * World R :=
  let '(results, w1) := allSettled a (toolRegistry w) toolCalls w in
  collectOutputs results w1.

(** [run.required_action?.submit_tool_outputs?.tool_calls]. *)
Definition pending_tool_calls (run : Run.t) : option (list ToolCall.t) :=
  match Run.required_action run with
  | Some action => RequiredAction.tool_calls action
  | None => None
  end.

(** [handleRunToolCalls]. *)
Definition handleRunToolCalls (run : Run.t) (thread : Thread.t) : M Run.t :=
  match pending_tool_calls run with
  | None | Some [] => ret run
  | Some toolCalls =>
      fun '(a, w) =>
        let '(toolOutputs, w') := dispatchRound a toolCalls w in
        match toolOutputs with
        | [] =>
            (log LvlInfo ("No valid tool outputs to submit for run " ++ Run.id run) ;;
             ret run) (a, w')
        | _ =>
            await (RunsSubmitToolOutputsAndPoll (Thread.id thread) (Run.id run) toolOutputs)
                  (runs_submitToolOutputsAndPoll (Thread.id thread) (Run.id run) toolOutputs)
                  (a, w')
        end
  end.

(** The condition of the [while] of [performRun]. *)
Definition awaits_tool_outputs (run : Run.t) : bool :=
  match Run.status run, Run.required_action run with
  | requires_action, Some action =>
      String.eqb (RequiredAction.type action) "submit_tool_outputs"
  | _, _ => false
  end.

(** [performRun], the loop of lines 226-231. *)
Fixpoint driveRun (fuel : nat) (currentRun : Run.t) (thread : Thread.t) : M Run.t :=
  if awaits_tool_outputs currentRun then
    match fuel with
    | O => out_of_fuel
    | S fuel' =>
        next <- handleRunToolCalls currentRun thread ;;
        driveRun fuel' next thread
    end
  else ret currentRun.

(** [performRun]; the result is the leading content block or [null]. *)
Definition performRun (fuel : nat) (run : Run.t) (thread : Thread.t)
    : M (option ContentBlock) :=
  currentRun <- driveRun fuel run thread ;;
  log LvlInfo (JSON_stringify currentRun) ;;
  match Run.status currentRun with
  | completed =>
      messages <- await (MessagesList (Thread.id thread)) (messages_list (Thread.id thread)) ;;
      match messages with
      | [] => raise (TypeError "Cannot read properties of undefined (reading 'role')")
      | lastMessage :: _ =>
          match Message.role lastMessage with
          | RoleAssistant =>
              match Message.content lastMessage with
              | [] => raise (TypeError "Cannot read properties of undefined (reading 'type')")
              | block :: _ =>
                  if String.eqb (ContentBlock_type block) "text" then ret (Some block)
                  else ret None
              end
          | RoleUser => ret None
          end
      end
  | _ => ret None
  end.

(** [sendMessage]. *)
Definition sendMessage (fuel : nat) (message : string) : M string :=
  a <- this ;;
  (if negb (isInitialized a) then initialize else ret tt) ;;
  a <- this ;;
  match assistant a, thread a with
  | Some _, Some thread =>
      log LvlInfo ("Sending message: " ++ message ++ " for wallet "
                   ++ JS_String (accountAddress (Some (walletClient a)))) ;;
      await (MessagesCreate (Thread.id thread) RoleUser message)
            (messages_create (Thread.id thread) RoleUser message) ;;
      run <- createRun fuel ;;
      result <- performRun fuel run thread ;;
      match result with
      | Some (TextContentBlock value) => ret value
      | Some _ =>
          log LvlInfo "[object Object]" ;;
          raise (Error "Unexpected response format")
      | None =>
          log LvlInfo "null" ;;
          raise (Error "Unexpected response format")
      end
  | _, _ => raise (Error "MonAIAgent not initialized properly")
  end.

(** The public getters. *)
Definition getAssistant (a : MonAIAgent) : option Assistant.t := assistant a.
Definition getThread (a : MonAIAgent) : option Thread.t := thread a.
Definition getWalletClient (a : MonAIAgent) : WalletClient.t := walletClient a.
Definition getAssistantId (a : MonAIAgent) : string := assistantId a.
Definition isAgentInitialized (a : MonAIAgent) : bool := isInitialized a.

End Agent.

(* ================================================================= *)
(** ** Vocabulary of the properties *)

(** The tool name of a call is present in the registry: it is the name of
    one of its entries.  This is not the test the dispatcher makes, which
    is [resolves]. *)
Definition registered (tools : Registry) (tool : ToolCall.t) : bool :=
  match assoc (ToolCall.name tool) tools with Some _ => true | None => false end.

(** The test of [handleRunToolCalls], line 177: [tools[tool.function.name]]
    is truthy. *)
Definition resolves (tools : Registry) (tool : ToolCall.t) : bool :=
  match Registry_get tools (ToolCall.name tool) with
  | Undefined => false
  | _ => true
  end.

(** The remote operations of a trace, in order. *)
Fixpoint remote_ops (evs : list Event) : list RemoteOp :=
  match evs with
  | [] => []
  | EvRemote op :: rest => op :: remote_ops rest
  | _ :: rest => remote_ops rest
  end.

Definition is_thread_op (op : RemoteOp) : bool :=
  match op with ThreadsCreate | ThreadsRetrieve _ => true | _ => false end.

(** The thread creations and retrievals of a trace. *)
Definition thread_ops (evs : list Event) : list RemoteOp :=
  filter is_thread_op (remote_ops evs).

(** Two names that differ only by the case of their letters. *)
Definition same_ignoring_case (s t : string) : Prop := toLowerCase s = toLowerCase t.

(** The outputs [handleRunToolCalls] collects for a run in a world. *)
Definition collected_outputs {R : Type} `{Platform} (a : MonAIAgent) (run : Run.t)
    (w : World R) : list ToolOutput.t :=
  match pending_tool_calls run with
  | Some toolCalls => fst (dispatchRound a toolCalls w)
  | None => []
  end.

(** The values of the fulfilled results that carry one, in order. *)
Fixpoint fulfilled_values (results : list Settled) : list ToolOutput.t :=
  match results with
  | [] => []
  | Fulfilled (Some value) :: rest => value :: fulfilled_values rest
  | _ :: rest => fulfilled_values rest
  end.

(** [w'] continues [w] without touching the remote runtime or the
    registry: the trace only grew, and by no remote operation. *)
Definition quiet {R : Type} (w w' : World R) : Prop :=
  remote w' = remote w
  /\ toolRegistry w' = toolRegistry w
  /\ (exists more, events w' = events w ++ more /\ remote_ops more = []).

(** A method keeps a property of the session, however it ends. *)
Definition preserves {R A : Type} (P : MonAIAgent -> Prop) (m : @M R A) : Prop :=
  forall (a : MonAIAgent) (w : World R), P a -> P (fst (snd (m (a, w)))).

(* ================================================================= *)
(** ** A scripted runtime and a small platform, to run the code on *)

Module Scripted.

(** The runtime answers run requests from a script and knows a fixed set
    of assistants and the messages of its one thread. *)
Record t : Type := mk {
  assistants : list string;
  runs : list Run.t;
  messages : list Message.t
}.

Definition next_run (r : t) : Completion Run.t * t :=
  match runs r with
  | [] => (Throw (Error "404 No run found"), r)
  | run :: rest => (Normal run, mk (assistants r) rest (messages r))
  end.

Definition retrieve_assistant (id : string) (r : t) : Completion Assistant.t * t :=
  if existsb (String.eqb id) (assistants r) then (Normal (Assistant.mk id), r)
  else (Throw (Error "404 No assistant found"), r).

Definition retrieve_thread (id : string) (r : t) : Completion Thread.t * t :=
  if is_empty id then (Throw (Error "404 Invalid URL"), r)
  else (Normal (Thread.mk id), r).

#[local] Instance runtime : RemoteRuntime t := {
  assistants_create := fun _ r => (Normal (Assistant.mk "asst_1"), r);
  assistants_retrieve := retrieve_assistant;
  threads_create := fun r => (Normal (Thread.mk "thread_1"), r);
  threads_retrieve := retrieve_thread;
  messages_create := fun _ _ _ r => (Normal tt, r);
  messages_list := fun _ r => (Normal (messages r), r);
  runs_create := fun _ _ r => next_run r;
  runs_retrieve := fun _ _ r => next_run r;
  runs_submitToolOutputsAndPoll := fun _ _ _ r => next_run r
}.

(** The payloads the scenarios send, as JSON text. *)
Definition json_tokenName (name : string) : string :=
  "{" ++ dquote ++ "tokenName" ++ dquote ++ ":" ++ dquote ++ name ++ dquote ++ "}".

Definition parse (text : string) : Completion JsValue :=
  if String.eqb text "{}" then Normal (JsObject [])
  else if String.eqb text (json_tokenName "unknown") then
    Normal (JsObject [("tokenName", JsString "unknown")])
  else if String.eqb text (json_tokenName "wmon") then
    Normal (JsObject [("tokenName", JsString "wmon")])
  else Throw (ErrorObject "SyntaxError" "Unexpected end of JSON input").

#[local] Instance platform : Platform := {
  JSON_parse := parse;
  JSON_stringify := fun run => ("{ id: " ++ Run.id run ++ " }")%string;
  PRIVATE_KEY := None;
  privateKeyToAccount := fun _ => Throw (Error "invalid private key");
  getBalance := fun _ => Normal 1500000000000000000%Z;
  readContract := fun _ _ functionName _ =>
    if String.eqb functionName "decimals" then Normal 18%Z else Normal 2500000000000000000%Z;
  formatEther := fun wei => (JS_String (JsBigInt wei) ++ " wei")%string;
  formatUnits := fun amount decimals =>
    (JS_String (JsBigInt amount) ++ "e-" ++ JS_String (JsBigInt decimals))%string
}.

Definition wallet : WalletClient.t :=
  WalletClient.mk (Some (Account.mk "0xABC0000000000000000000000000000000000001")).

Definition world (r : t) : World t := mkWorld r toolRegistry0 [] [].

(** A tool whose handler returns its arguments, and one that throws. *)
Definition echoTool : Tool.t :=
  Tool.mk (ToolDefinition.mk "echo" "Return the arguments" [] [])
    (fun args _ _ cache => mkResult (Normal args) cache []).

Definition boomTool : Tool.t :=
  Tool.mk (ToolDefinition.mk "boom" "Always fails" [] [])
    (fun _ _ _ cache => mkResult (Throw (Error "boom")) cache []).

(** A session as [new MonAIAgent({ walletClient })] leaves it, the same
    with a thread identity supplied, and one that is set up on thread
    [thread_1] with assistant [asst_1]. *)
Definition config : Config.t := Config.mk (Some wallet) None None None None.

Definition config_with_thread : Config.t :=
  Config.mk (Some wallet) None None None (Some "thread_9").

Definition session : MonAIAgent :=
  mkAgent None None EmptyString wallet [] false EmptyString EmptyString.

Definition session_with_thread : MonAIAgent :=
  mkAgent None None "thread_9" wallet [] false EmptyString EmptyString.

Definition ready : MonAIAgent :=
  mkAgent (Some (Assistant.mk "asst_1")) (Some (Thread.mk "thread_1")) "thread_1"
          wallet [] true "asst_1" EmptyString.

(** The same session without an account in its wallet client. *)
Definition ready_without_account : MonAIAgent :=
  mkAgent (Some (Assistant.mk "asst_1")) (Some (Thread.mk "thread_1")) "thread_1"
          (WalletClient.mk None) [] true "asst_1" EmptyString.

Definition idle : t := mk [] [] [].

Definition run_in (status : RunStatus) : Run.t := Run.mk "run_1" status None.

Definition run_requiring (toolCalls : list ToolCall.t) : Run.t :=
  Run.mk "run_1" requires_action
         (Some (RequiredAction.mk "submit_tool_outputs" (Some toolCalls))).

(** A runtime whose next run is queued, then in progress, then completed,
    and whose thread holds the given messages. *)
Definition answering (thread_messages : list Message.t) : t :=
  mk [] [run_in queued; run_in in_progress; run_in completed] thread_messages.

Definition unknown_token_call : ToolCall.t :=
  ToolCall.mk "call_1" "get_token_balance" (json_tokenName "unknown").

Definition missing_tool_call : ToolCall.t := ToolCall.mk "call_2" "swap" "{}".

Definition balance_call : ToolCall.t := ToolCall.mk "call_3" "get_balance" "{}".

Definition echo_call : ToolCall.t := ToolCall.mk "call_4" "echo" "{}".

Definition boom_call : ToolCall.t := ToolCall.mk "call_5" "boom" "{}".

(** A call whose tool name is no tool but a method every object has. *)
Definition inherited_name_call : ToolCall.t := ToolCall.mk "call_7" "toString" "{}".

(** The built-in registry after [registerTool] of the two test tools. *)
Definition extended_world : World t :=
  mkWorld idle (registerTool (registerTool toolRegistry0 "echo" echoTool) "boom" boomTool)
          [] [].

End Scripted.

(* ================================================================= *)
(** ** The rest of [utils/helpers.ts] *)

(** One [walletClient.writeContract] request: contract, ABI, function,
    arguments. *)
Record WriteRequest : Type := mkWrite {
  write_address : string;
  write_abi : Abi;
  write_functionName : string;
  write_args : list JsValue
}.

(** How [checkAndApproveAllowance] ends: its result, the lines it logged
    and the write requests it sent, in order. *)
Record AllowanceResult : Type := mkAllowance {
  allowance_outcome : Completion unit;
  allowance_logged : list LogEntry;
  allowance_writes : list WriteRequest
}.

Section Helpers.
Context `{Platform}.
Local Open Scope handler_scope.

(** viem's [parseUnits], [walletClient.writeContract] (it answers the
    transaction hash) and [publicClient.waitForTransactionReceipt] (the
    [status] of the receipt). *)
Variable parseUnits : string -> Z -> Z.
Variable writeContract : WriteRequest -> Completion string.
Variable waitForTransactionReceipt : string -> Completion string.

(** [fetchTokenDecimalsAndParseAmount], on an integer amount. *)
Definition fetchTokenDecimalsAndParseAmount (token : string) (amount : Z) : H Z :=
  tokenDecimals <- fetchTokenDecimals token ;;
  h_ret (parseUnits (JS_String (JsBigInt amount)) tokenDecimals).

(** [checkAndApproveAllowance]. *)
Definition checkAndApproveAllowance (walletClient : WalletClient.t)
    (token spender : string) (amount : Z) : AllowanceResult :=
  if is_empty token || String.eqb token zeroAddress then mkAllowance (Normal tt) [] []
  else
    let ownerAddress := accountAddress (Some walletClient) in
    if negb (ToBoolean ownerAddress) then
      mkAllowance (Throw (Error "Wallet client does not have an account")) [] []
    else
      let checking :=
        mkLog LvlInfo ("[INFO] Checking allowance for " ++ token ++ " to spender " ++ spender) in
      match readContract token erc20Abi "allowance" [ownerAddress; JsString spender] with
      | Throw e => mkAllowance (Throw e) [checking] []
      | Normal allowance =>
          if (allowance <? amount)%Z then
            let approving :=
              mkLog LvlInfo ("[INFO] Allowance insufficient. Approving "
                             ++ JS_String (JsBigInt amount) ++ " for spender " ++ spender) in
            let request := mkWrite token erc20Abi "approve" [JsString spender; JsBigInt amount] in
            match writeContract request with
            | Throw e => mkAllowance (Throw e) [checking; approving] [request]
            | Normal approvalTx =>
                match waitForTransactionReceipt approvalTx with
                | Throw e => mkAllowance (Throw e) [checking; approving] [request]
                | Normal status =>
                    if String.eqb status "success" then
                      mkAllowance (Normal tt)
                        [checking; approving; mkLog LvlInfo "[INFO] Approval successful"]
                        [request]
                    else
                      mkAllowance (Throw (Error "Approval transaction failed"))
                        [checking; approving] [request]
                end
            end
          else
            mkAllowance (Normal tt)
              [checking; mkLog LvlInfo "[INFO] Sufficient allowance available"] []
      end.

End Helpers.

(* ================================================================= *)
(** ** More vocabulary *)

Definition is_assistant_op (op : RemoteOp) : bool :=
  match op with AssistantsCreate _ | AssistantsRetrieve _ => true | _ => false end.

(** The assistant creations and retrievals of a trace. *)
Definition assistant_ops (evs : list Event) : list RemoteOp :=
  filter is_assistant_op (remote_ops evs).

(** The status keeps [createRun] polling. *)
Definition transient (run : Run.t) : bool :=
  match Run.status run with in_progress | queued => true | _ => false end.

(** [polls threadId n run r trace final r']: from [run] and the runtime
    state [r], fetching the run again while its status is transient makes
    [n] fetches, each after a wait of one second, leaves the trace [trace]
    and ends with the run [final] in the state [r']. *)
Inductive polls {R : Type} `{RemoteRuntime R} (threadId : string)
  : nat -> Run.t -> R -> list Event -> Run.t -> R -> Prop :=
| polls_done (run : Run.t) (r : R) :
    transient run = false -> polls threadId 0 run r [] run r
| polls_again (n : nat) (run next final : Run.t) (r r1 r' : R) (trace : list Event) :
    transient run = true ->
    runs_retrieve threadId (Run.id run) r = (Normal next, r1) ->
    polls threadId n next r1 trace final r' ->
    polls threadId (S n) run r
      (EvSleep 1000 :: EvRemote (RunsRetrieve threadId (Run.id run)) :: trace) final r'.

(** A session whose flag is set holds an assistant and a thread. *)
Definition set_up (a : MonAIAgent) : Prop :=
  isInitialized a = true -> assistant a <> None /\ thread a <> None.

(** The parameters [createAssistant] sends for a session and a registry. *)
Definition assistant_params (a : MonAIAgent) (tools : Registry) : AssistantCreateParams.t :=
  AssistantCreateParams.mk "gpt-4" (QArith_base.Qmake 3 10) "MonAI Assistant"
    (prompts a) (map Tool.definition (Object_values tools)).

(** The token for which [fetchTokenDecimals] reads no contract. *)
Definition native (token : string) : bool :=
  is_empty token || String.eqb token zeroAddress.

(** A method only adds to the trace. *)
Definition grows {R A : Type} (m : @M R A) : Prop :=
  forall (a : MonAIAgent) (w : World R),
  exists more, events (snd (snd (m (a, w)))) = events w ++ more.

(* ================================================================= *)
(** ** A runtime and a platform that fail on demand *)

Module Faulty.

(** The runtime knows or ignores the configured assistant, can or cannot
    create one, can or cannot retrieve a thread, and answers every run
    request with a failed run. *)
Record t : Type := mk {
  knows_assistant : bool;
  creates_assistant : bool;
  retrieves_thread : bool
}.

#[local] Instance runtime : RemoteRuntime t := {
  assistants_create := fun _ r =>
    if creates_assistant r then (Normal (Assistant.mk "asst_2"), r)
    else (Throw (Error "500 The server had an error"), r);
  assistants_retrieve := fun id r =>
    if knows_assistant r then (Normal (Assistant.mk id), r)
    else (Throw (Error "404 No assistant found"), r);
  threads_create := fun r => (Normal (Thread.mk "thread_2"), r);
  threads_retrieve := fun id r =>
    if retrieves_thread r then (Normal (Thread.mk id), r)
    else (Throw (Error "404 No thread found"), r);
  messages_create := fun _ _ _ r => (Normal tt, r);
  messages_list := fun _ r => (Normal [], r);
  runs_create := fun _ _ r => (Normal (Run.mk "run_2" failed None), r);
  runs_retrieve := fun _ _ r => (Normal (Run.mk "run_2" failed None), r);
  runs_submitToolOutputsAndPoll := fun _ _ _ r => (Normal (Run.mk "run_2" failed None), r)
}.

(** A platform whose decimals read reverts and whose environment holds an
    empty private key. *)
#[local] Instance platform : Platform := {
  JSON_parse := Scripted.parse;
  JSON_stringify := fun run => ("{ id: " ++ Run.id run ++ " }")%string;
  PRIVATE_KEY := Some EmptyString;
  privateKeyToAccount := fun _ => Throw (Error "invalid private key");
  getBalance := fun _ => Throw (Error "HTTP request failed");
  readContract := fun _ _ functionName _ =>
    if String.eqb functionName "decimals" then Throw (Error "execution reverted")
    else Normal 2500000%Z;
  formatEther := fun wei => (JS_String (JsBigInt wei) ++ " wei")%string;
  formatUnits := fun amount decimals =>
    (JS_String (JsBigInt amount) ++ "e-" ++ JS_String (JsBigInt decimals))%string
}.

Definition world (r : t) : World t := mkWorld r (@toolRegistry0 platform) [] [].

(** A configuration with an assistant and a thread identity, and the
    session constructed from it. *)
Definition config : Config.t :=
  Config.mk (Some Scripted.wallet) None (Some "Be brief") (Some "asst_7") (Some "thread_7").

Definition session : MonAIAgent :=
  mkAgent None None "thread_7" Scripted.wallet [] false "asst_7" "Be brief".

(** Stand-ins for viem's [writeContract] and [waitForTransactionReceipt]. *)
Definition writeContract (request : WriteRequest) : Completion string :=
  Normal "0xfeed".

Definition receipt_success (hash : string) : Completion string := Normal "success".

Definition receipt_reverted (hash : string) : Completion string := Normal "reverted".

Definition spender : string := "0x00000000000000000000000000000000000000aa".

Definition WMON_address : string := "0x760AfE86e5de5fa0Ee542fc7B7B713e1c5425701".

(** A call whose arguments are not JSON. *)
Definition malformed_call : ToolCall.t := ToolCall.mk "call_6" "get_balance" "{".

End Faulty.

(* ================================================================= *)
(** * Properties *)

Section Properties.
Context {R : Type} `{RemoteRuntime R} `{Platform}.

(** ** Traces *)

Lemma remote_ops_app (l1 l2 : list Event) :
  remote_ops (l1 ++ l2) = remote_ops l1 ++ remote_ops l2.
Proof.
  induction l1 as [| e l1 IH]; simpl; [reflexivity |].
  destruct e; simpl; rewrite IH; reflexivity.
Qed.

Lemma remote_ops_logs (lines : list LogEntry) : remote_ops (map EvLog lines) = [].
Proof. induction lines; simpl; auto. Qed.

Lemma quiet_refl (w : World R) : quiet w w.
Proof.
  repeat split. exists []. rewrite app_nil_r. auto.
Qed.

Lemma quiet_trans (w1 w2 w3 : World R) : quiet w1 w2 -> quiet w2 w3 -> quiet w1 w3.
Proof.
  intros (Hr1 & Ht1 & m1 & He1 & Ho1) (Hr2 & Ht2 & m2 & He2 & Ho2).
  repeat split; try congruence.
  exists (m1 ++ m2). split.
  - rewrite He2, He1, app_assoc. reflexivity.
  - rewrite remote_ops_app, Ho1, Ho2. reflexivity.
Qed.

Lemma quiet_log_to (lvl : LogLevel) (msg : string) (w : World R) :
  quiet w (log_to lvl msg w).
Proof.
  repeat split. exists [EvLog (mkLog lvl msg)]. auto.
Qed.

Lemma quiet_remote_ops (w w' : World R) :
  quiet w w' -> remote_ops (events w') = remote_ops (events w).
Proof.
  intros (_ & _ & more & He & Ho).
  rewrite He, remote_ops_app, Ho, app_nil_r. reflexivity.
Qed.

Lemma quiet_In (w w' : World R) (e : Event) :
  quiet w w' -> In e (events w) -> In e (events w').
Proof.
  intros (_ & _ & more & He & _) Hin. rewrite He. apply in_or_app. auto.
Qed.

(** ** One dispatch round *)

Lemma Registry_get_own (tools : Registry) (name : string) (toolConfig : Tool.t) :
  assoc name tools = Some toolConfig -> Registry_get tools name = OwnTool toolConfig.
Proof.
  unfold Registry_get. intros ->. reflexivity.
Qed.

Lemma registered_resolves (tools : Registry) (tool : ToolCall.t) :
  registered tools tool = true -> resolves tools tool = true.
Proof.
  unfold registered, resolves, Registry_get.
  destruct (assoc (ToolCall.name tool) tools); [reflexivity | discriminate].
Qed.

(** A name the registry inherits resolves, whether or not it is
    registered. *)
Lemma inherited_resolves (tools : Registry) (tool : ToolCall.t) :
  In (ToolCall.name tool) Object_prototype_keys ->
  resolves tools tool = true.
Proof.
  intro Hin. unfold resolves, Registry_get.
  destruct (assoc (ToolCall.name tool) tools); [reflexivity |].
  assert (Hex : existsb (String.eqb (ToolCall.name tool)) Object_prototype_keys = true).
  { apply existsb_exists. exists (ToolCall.name tool).
    split; [exact Hin | apply String.eqb_refl]. }
  rewrite Hex. reflexivity.
Qed.

(** What the callback of one call answers, by whether its tool name
    resolves. *)
Lemma toolCallback_result (a : MonAIAgent) (tools : Registry) (tool : ToolCall.t)
    (w : World R) :
  if resolves tools tool then
    exists out,
      fst (toolCallback a tools tool w)
      = Fulfilled (Some (ToolOutput.mk (ToolCall.id tool) out))
  else
    toolCallback a tools tool w
    = (Fulfilled None, log_to LvlError ("Tool " ++ ToolCall.name tool ++ " not found") w).
Proof.
  unfold resolves, toolCallback.
  destruct (Registry_get tools (ToolCall.name tool)) as [toolConfig | |];
    [| | reflexivity];
    destruct (JSON_parse (ToolCall.arguments tool)) as [args | error]; simpl; eauto.
  destruct (outcome _); simpl; eauto.
Qed.

(** A call that names a member of [Object.prototype] and no registered
    tool is not skipped: once its arguments parse it is answered with the
    [TypeError] of calling the missing [handler], and nothing is logged. *)
Lemma toolCallback_inherited (a : MonAIAgent) (tools : Registry) (tool : ToolCall.t)
    (args : JsValue) (w : World R) :
  registered tools tool = false ->
  In (ToolCall.name tool) Object_prototype_keys ->
  JSON_parse (ToolCall.arguments tool) = Normal args ->
  toolCallback a tools tool w
  = (Fulfilled (Some (ToolOutput.mk (ToolCall.id tool)
                        "Error: toolConfig.handler is not a function")), w).
Proof.
  unfold registered, toolCallback, Registry_get. intros Hunregistered Hin Hparse.
  destruct (assoc (ToolCall.name tool) tools); [discriminate |].
  assert (Hex : existsb (String.eqb (ToolCall.name tool)) Object_prototype_keys = true).
  { apply existsb_exists. exists (ToolCall.name tool).
    split; [exact Hin | apply String.eqb_refl]. }
  rewrite Hex, Hparse. reflexivity.
Qed.

Lemma toolCallback_quiet (a : MonAIAgent) (tools : Registry) (tool : ToolCall.t)
    (w : World R) :
  quiet w (snd (toolCallback a tools tool w)).
Proof.
  unfold toolCallback.
  destruct (Registry_get tools (ToolCall.name tool)) as [toolConfig | |];
    [| destruct (JSON_parse (ToolCall.arguments tool)); apply quiet_refl
     | apply quiet_log_to].
  destruct (JSON_parse (ToolCall.arguments tool)) as [args | error];
    [| apply quiet_refl].
  assert (Hq : forall r : HandlerResult,
             quiet w (mkWorld (remote w) (toolRegistry w) (cache_after r)
                              (events w ++ map EvLog (logged r)))).
  { intro r. repeat split. exists (map EvLog (logged r)).
    split; [reflexivity | apply remote_ops_logs]. }
  destruct (outcome _); simpl; apply Hq.
Qed.

Lemma allSettled_quiet (a : MonAIAgent) (tools : Registry) (toolCalls : list ToolCall.t) :
  forall w : World R, quiet w (snd (allSettled a tools toolCalls w)).
Proof.
  induction toolCalls as [| tool rest IH]; intro w; simpl.
  - apply quiet_refl.
  - pose proof (toolCallback_quiet a tools tool w) as Hq.
    destruct (toolCallback a tools tool w) as [result w1]. simpl in Hq.
    specialize (IH w1).
    destruct (allSettled a tools rest w1) as [results w2]. simpl in *.
    eapply quiet_trans; eauto.
Qed.

Lemma allSettled_app (a : MonAIAgent) (tools : Registry) (l1 l2 : list ToolCall.t) :
  forall w : World R,
    allSettled a tools (l1 ++ l2) w
    = (fst (allSettled a tools l1 w)
         ++ fst (allSettled a tools l2 (snd (allSettled a tools l1 w))),
       snd (allSettled a tools l2 (snd (allSettled a tools l1 w)))).
Proof.
  induction l1 as [| tool rest IH]; intro w; simpl.
  - destruct (allSettled a tools l2 w); reflexivity.
  - destruct (toolCallback a tools tool w) as [result w1].
    rewrite IH.
    destruct (allSettled a tools rest w1) as [results w2]. reflexivity.
Qed.

(** No callback rejects: every result is fulfilled, with an output for the
    call exactly when its tool name resolves. *)
Lemma allSettled_results (a : MonAIAgent) (tools : Registry) (toolCalls : list ToolCall.t) :
  forall w : World R,
    Forall2
      (fun tool result =>
         if resolves tools tool then
           exists out, result = Fulfilled (Some (ToolOutput.mk (ToolCall.id tool) out))
         else result = Fulfilled None)
      toolCalls (fst (allSettled a tools toolCalls w)).
Proof.
  induction toolCalls as [| tool rest IH]; intro w; simpl.
  - constructor.
  - pose proof (toolCallback_result a tools tool w) as Hr.
    destruct (toolCallback a tools tool w) as [result w1].
    specialize (IH w1).
    destruct (allSettled a tools rest w1) as [results w2]. simpl in *.
    constructor; [| exact IH].
    destruct (resolves tools tool); [exact Hr | congruence].
Qed.

Lemma collectOutputs_values (results : list Settled) :
  forall w : World R, fst (collectOutputs results w) = fulfilled_values results.
Proof.
  induction results as [| result rest IH]; intro w; simpl; [reflexivity |].
  destruct result as [[value |] | reason]; simpl.
  - specialize (IH w). destruct (collectOutputs rest w). simpl in *. congruence.
  - apply IH.
  - apply IH.
Qed.

Lemma collectOutputs_quiet (results : list Settled) :
  forall w : World R, quiet w (snd (collectOutputs results w)).
Proof.
  induction results as [| result rest IH]; intro w; simpl.
  - apply quiet_refl.
  - destruct result as [[value |] | reason]; simpl.
    + specialize (IH w). destruct (collectOutputs rest w). exact IH.
    + apply IH.
    + eapply quiet_trans; [apply quiet_log_to | apply IH].
Qed.

Lemma fulfilled_values_app (r1 r2 : list Settled) :
  fulfilled_values (r1 ++ r2) = fulfilled_values r1 ++ fulfilled_values r2.
Proof.
  induction r1 as [| [[value |] | reason] rest IH]; simpl; congruence.
Qed.

Lemma dispatchRound_values (a : MonAIAgent) (toolCalls : list ToolCall.t) (w : World R) :
  fst (dispatchRound a toolCalls w)
  = fulfilled_values (fst (allSettled a (toolRegistry w) toolCalls w)).
Proof.
  unfold dispatchRound.
  destruct (allSettled a (toolRegistry w) toolCalls w) as [results w1].
  apply collectOutputs_values.
Qed.

Lemma dispatchRound_quiet (a : MonAIAgent) (toolCalls : list ToolCall.t) (w : World R) :
  quiet w (snd (dispatchRound a toolCalls w)).
Proof.
  unfold dispatchRound.
  pose proof (allSettled_quiet a (toolRegistry w) toolCalls w) as Hq.
  destruct (allSettled a (toolRegistry w) toolCalls w) as [results w1].
  eapply quiet_trans; [exact Hq | apply collectOutputs_quiet].
Qed.

(** The identities of the collected outputs are those of the calls whose
    tool name resolves, in the order of the calls. *)
Lemma fulfilled_values_ids (tools : Registry) (toolCalls : list ToolCall.t)
    (results : list Settled) :
  Forall2
    (fun tool result =>
       if resolves tools tool then
         exists out, result = Fulfilled (Some (ToolOutput.mk (ToolCall.id tool) out))
       else result = Fulfilled None)
    toolCalls results ->
  map ToolOutput.tool_call_id (fulfilled_values results)
  = map ToolCall.id (filter (resolves tools) toolCalls).
Proof.
  induction 1 as [| tool result rest results' Hhd Htl IH]; simpl; [reflexivity |].
  destruct (resolves tools tool).
  - destruct Hhd as [out ->]. simpl. congruence.
  - subst result. exact IH.
Qed.

Lemma dispatchRound_ids (a : MonAIAgent) (toolCalls : list ToolCall.t) (w : World R) :
  map ToolOutput.tool_call_id (fst (dispatchRound a toolCalls w))
  = map ToolCall.id (filter (resolves (toolRegistry w)) toolCalls).
Proof.
  rewrite dispatchRound_values.
  apply fulfilled_values_ids, allSettled_results.
Qed.

Lemma allSettled_logs_unknown (a : MonAIAgent) (tools : Registry) (tool : ToolCall.t)
    (toolCalls : list ToolCall.t) :
  In tool toolCalls ->
  resolves tools tool = false ->
  forall w : World R,
    In (EvLog (mkLog LvlError ("Tool " ++ ToolCall.name tool ++ " not found")))
       (events (snd (allSettled a tools toolCalls w))).
Proof.
  intros Hin Hunknown.
  induction toolCalls as [| tool' rest IH]; intro w; [contradiction |].
  simpl.
  pose proof (toolCallback_result a tools tool' w) as Hr.
  destruct (toolCallback a tools tool' w) as [result w1] eqn:Hcb.
  pose proof (allSettled_quiet a tools rest w1) as Hq.
  destruct Hin as [-> | Hin].
  - rewrite Hunknown in Hr. injection Hr as _ Hw1.
    destruct (allSettled a tools rest w1) as [results w2]. simpl in *.
    eapply quiet_In; [exact Hq |]. subst w1. simpl.
    apply in_or_app. right. left. reflexivity.
  - specialize (IH Hin w1).
    destruct (allSettled a tools rest w1) as [results w2]. exact IH.
Qed.

Lemma no_outputs_iff (a : MonAIAgent) (toolCalls : list ToolCall.t) (w : World R) :
  fst (dispatchRound a toolCalls w) = []
  <-> filter (resolves (toolRegistry w)) toolCalls = [].
Proof.
  pose proof (dispatchRound_ids a toolCalls w) as Hids.
  split; intro Hnil.
  - rewrite Hnil in Hids. simpl in Hids. symmetry in Hids.
    apply map_eq_nil in Hids. exact Hids.
  - rewrite Hnil in Hids. simpl in Hids.
    apply map_eq_nil in Hids. exact Hids.
Qed.

(** In one dispatch round the number of outputs collected for submission
    is the number of pending calls whose tool name resolves.  Every result
    is fulfilled; it carries an output (for the call's own identity)
    exactly when the name resolves, and a call whose name does not resolve
    leaves the error line "Tool <name> not found" in the log. *)
Lemma dispatch_outputs_match_resolving_calls
    (a : MonAIAgent) (toolCalls : list ToolCall.t) (w : World R) :
  let tools := toolRegistry w in
  let results := fst (allSettled a tools toolCalls w) in
  let toolOutputs := fst (dispatchRound a toolCalls w) in
  length toolOutputs = length (filter (resolves tools) toolCalls)
  /\ toolOutputs = fulfilled_values results
  /\ Forall2
       (fun tool result =>
          if resolves tools tool then
            exists out, result = Fulfilled (Some (ToolOutput.mk (ToolCall.id tool) out))
          else result = Fulfilled None)
       toolCalls results
  /\ (forall tool,
        In tool toolCalls ->
        resolves tools tool = false ->
        In (EvLog (mkLog LvlError ("Tool " ++ ToolCall.name tool ++ " not found")))
           (events (snd (dispatchRound a toolCalls w)))).
Proof.
  cbv zeta. split; [| split; [| split]].
  - rewrite <- (length_map ToolOutput.tool_call_id), dispatchRound_ids, length_map.
    reflexivity.
  - apply dispatchRound_values.
  - apply allSettled_results.
  - intros tool Hin Hunknown.
    pose proof (allSettled_logs_unknown a (toolRegistry w) tool toolCalls Hin Hunknown w)
      as Hlog.
    unfold dispatchRound.
    destruct (allSettled a (toolRegistry w) toolCalls w) as [results w1].
    eapply quiet_In; [apply collectOutputs_quiet | exact Hlog].
Qed.

(** ** [handleRunToolCalls] *)

Lemma handleRunToolCalls_empty (a : MonAIAgent) (w : World R) (run : Run.t)
    (thread : Thread.t) :
  collected_outputs a run w = [] ->
  exists w', handleRunToolCalls run thread (a, w) = (Ret run, (a, w')) /\ quiet w w'.
Proof.
  unfold collected_outputs, handleRunToolCalls.
  destruct (pending_tool_calls run) as [[| tool rest] |]; intro Hnil.
  - exists w. split; [reflexivity | apply quiet_refl].
  - pose proof (dispatchRound_quiet a (tool :: rest) w) as Hq.
    destruct (dispatchRound a (tool :: rest) w) as [toolOutputs w1].
    simpl in Hnil, Hq. subst toolOutputs.
    eexists. split; [reflexivity |].
    eapply quiet_trans; [exact Hq | apply quiet_log_to].
  - exists w. split; [reflexivity | apply quiet_refl].
Qed.

Lemma handleRunToolCalls_submits (a : MonAIAgent) (w : World R) (run : Run.t)
    (thread : Thread.t) (toolCalls : list ToolCall.t) :
  pending_tool_calls run = Some toolCalls ->
  fst (dispatchRound a toolCalls w) <> [] ->
  let toolOutputs := fst (dispatchRound a toolCalls w) in
  let w1 := snd (dispatchRound a toolCalls w) in
  let submission :=
    runs_submitToolOutputsAndPoll (Thread.id thread) (Run.id run) toolOutputs (remote w) in
  handleRunToolCalls run thread (a, w)
  = (match fst submission with Normal next => Ret next | Throw e => Raise e end,
     (a, mkWorld (snd submission) (toolRegistry w) (tokenDecimalsCache w1)
           (events w1
              ++ [EvRemote (RunsSubmitToolOutputsAndPoll
                              (Thread.id thread) (Run.id run) toolOutputs)]))).
Proof.
  intros Hpending Hsome. cbv zeta.
  unfold handleRunToolCalls. rewrite Hpending.
  pose proof (dispatchRound_quiet a toolCalls w) as (Hr & Ht & _).
  destruct toolCalls as [| tool rest]; [exfalso; apply Hsome; reflexivity |].
  destruct (dispatchRound a (tool :: rest) w) as [toolOutputs w1].
  simpl in *.
  destruct toolOutputs as [| o os]; [congruence |].
  unfold await. rewrite Hr, Ht.
  destruct (runs_submitToolOutputsAndPoll _ _ _ _) as [[next | e] r']; reflexivity.
Qed.

Lemma collected_outputs_quiet (a : MonAIAgent) (run : Run.t) (w w' : World R) :
  quiet w w' -> collected_outputs a run w = [] -> collected_outputs a run w' = [].
Proof.
  intros (_ & Ht & _). unfold collected_outputs.
  destruct (pending_tool_calls run) as [toolCalls |]; [| reflexivity].
  rewrite !no_outputs_iff, Ht. auto.
Qed.

Lemma driveRun_stuck (a : MonAIAgent) (run : Run.t) (thread : Thread.t) :
  awaits_tool_outputs run = true ->
  forall (fuel : nat) (w : World R),
    collected_outputs a run w = [] ->
    exists w', driveRun fuel run thread (a, w) = (OutOfFuel, (a, w')) /\ quiet w w'.
Proof.
  intros Hwait. induction fuel as [| fuel IH]; intros w Hnil; simpl; rewrite Hwait.
  - exists w. split; [reflexivity | apply quiet_refl].
  - destruct (handleRunToolCalls_empty a w run thread Hnil) as (w1 & Hstep & Hq1).
    destruct (IH w1 (collected_outputs_quiet a run w w1 Hq1 Hnil)) as (w2 & Hloop & Hq2).
    exists w2. split.
    + unfold bind. rewrite Hstep. exact Hloop.
    + eapply quiet_trans; eauto.
Qed.

(** C4. When the outputs collected for a run are empty, [handleRunToolCalls]
    returns that same run (so still in [requires_action] when it was),
    leaves the remote runtime as it was and issues no remote operation,
    hence no submission.  A run that awaits tool outputs then never leaves
    the loop of [performRun]: whatever the fuel, the loop is still running
    when the fuel is spent, and still nothing was sent. *)
Theorem empty_round_submits_nothing_and_stalls
    (a : MonAIAgent) (w : World R) (run : Run.t) (thread : Thread.t) :
  collected_outputs a run w = [] ->
  (exists w',
      handleRunToolCalls run thread (a, w) = (Ret run, (a, w'))
      /\ remote w' = remote w
      /\ remote_ops (events w') = remote_ops (events w))
  /\ (awaits_tool_outputs run = true ->
      forall fuel : nat,
      exists w',
        performRun fuel run thread (a, w) = (OutOfFuel, (a, w'))
        /\ remote w' = remote w
        /\ remote_ops (events w') = remote_ops (events w)).
Proof.
  intro Hnil. split.
  - destruct (handleRunToolCalls_empty a w run thread Hnil) as (w' & Hstep & Hq).
    exists w'. split; [exact Hstep |]. split; [apply Hq | apply quiet_remote_ops, Hq].
  - intros Hwait fuel.
    destruct (driveRun_stuck a run thread Hwait fuel w Hnil) as (w' & Hloop & Hq).
    exists w'. split.
    + unfold performRun, bind. rewrite Hloop. reflexivity.
    + split; [apply Hq | apply quiet_remote_ops, Hq].
Qed.

(** The output of one registered call, and the submission of the round. *)
Lemma registered_call_output
    (a : MonAIAgent) (w : World R) (run : Run.t) (thread : Thread.t)
    (before after : list ToolCall.t) (tool : ToolCall.t)
    (toolConfig : Tool.t) (args : JsValue) :
  pending_tool_calls run = Some (before ++ tool :: after) ->
  assoc (ToolCall.name tool) (toolRegistry w) = Some toolConfig ->
  JSON_parse (ToolCall.arguments tool) = Normal args ->
  let tools := toolRegistry w in
  let w1 := snd (allSettled a tools before w) in
  let r := Tool.handler toolConfig args (Some (walletClient a)) (toolEnvConfigs a)
                        (tokenDecimalsCache w1) in
  let w2 := snd (toolCallback a tools tool w1) in
  let toolOutputs := fst (dispatchRound a (before ++ tool :: after) w) in
  let submit := RunsSubmitToolOutputsAndPoll (Thread.id thread) (Run.id run) toolOutputs in
  exists out,
    toolOutputs
    = fst (dispatchRound a before w)
        ++ ToolOutput.mk (ToolCall.id tool) out :: fst (dispatchRound a after w2)
    /\ (forall V, outcome r = Normal V -> out = JS_String V)
    /\ (outcome r = Throw (Error "boom") -> out = "Error: boom")
    /\ (forall e, outcome r = Throw e -> out = ("Error: " ++ errorMessage e)%string)
    /\ map ToolOutput.tool_call_id toolOutputs
       = map ToolCall.id (filter (resolves tools) (before ++ tool :: after))
    /\ (exists result w',
          handleRunToolCalls run thread (a, w) = (result, (a, w'))
          /\ result
             = match fst (runs_submitToolOutputsAndPoll
                            (Thread.id thread) (Run.id run) toolOutputs (remote w)) with
               | Normal next => Ret next
               | Throw e => Raise e
               end
          /\ remote_ops (events w') = remote_ops (events w) ++ [submit]).
Proof.
  intros Hpending Hfound Hparse. cbv zeta.
  pose proof (allSettled_quiet a (toolRegistry w) before w) as Hq1.
  pose proof (toolCallback_quiet a (toolRegistry w) tool
                (snd (allSettled a (toolRegistry w) before w))) as Hq2.
  set (w1 := snd (allSettled a (toolRegistry w) before w)) in *.
  set (w2 := snd (toolCallback a (toolRegistry w) tool w1)) in *.
  set (r := Tool.handler toolConfig args (Some (walletClient a)) (toolEnvConfigs a)
                         (tokenDecimalsCache w1)).
  assert (Hcb : fst (toolCallback a (toolRegistry w) tool w1)
                = Fulfilled (Some (ToolOutput.mk (ToolCall.id tool)
                     (match outcome r with
                      | Normal V => JS_String V
                      | Throw e => ("Error: " ++ errorMessage e)%string
                      end)))).
  { unfold toolCallback.
    rewrite (Registry_get_own _ _ _ Hfound), Hparse. fold r.
    destruct (outcome r); reflexivity. }
  assert (Hsplit :
            fst (dispatchRound a (before ++ tool :: after) w)
            = fst (dispatchRound a before w)
                ++ ToolOutput.mk (ToolCall.id tool)
                     (match outcome r with
                      | Normal V => JS_String V
                      | Throw e => ("Error: " ++ errorMessage e)%string
                      end)
                :: fst (dispatchRound a after w2)).
  { rewrite !dispatchRound_values, allSettled_app. simpl fst.
    rewrite fulfilled_values_app. f_equal. fold w1.
    assert (Ht2 : toolRegistry w2 = toolRegistry w).
    { destruct Hq1 as (_ & Ht1 & _). destruct Hq2 as (_ & Ht2 & _). congruence. }
    rewrite Ht2. simpl. fold w1.
    destruct (toolCallback a (toolRegistry w) tool w1) as [result w2'] eqn:Hcall.
    simpl in Hcb. subst result. subst w2. simpl.
    destruct (allSettled a (toolRegistry w) after w2') as [results w3]. reflexivity. }
  eexists. split; [exact Hsplit |].
  split; [intros V HV; rewrite HV; reflexivity |].
  split; [intros HV; rewrite HV; reflexivity |].
  split; [intros e HV; rewrite HV; reflexivity |].
  split; [apply dispatchRound_ids |].
  assert (Hsome : fst (dispatchRound a (before ++ tool :: after) w) <> []).
  { rewrite Hsplit. intro Hnil. apply app_eq_nil in Hnil. destruct Hnil; discriminate. }
  pose proof (handleRunToolCalls_submits a w run thread _ Hpending Hsome) as Hsub.
  cbv zeta in Hsub.
  eexists. eexists. split; [exact Hsub |]. split; [reflexivity |].
  simpl. rewrite remote_ops_app. simpl.
  rewrite (quiet_remote_ops _ _ (dispatchRound_quiet a (before ++ tool :: after) w)).
  reflexivity.
Qed.

(** C5. A pending call [tool] with identity X whose tool is registered and
    whose arguments parse contributes exactly one output for X, placed
    between the outputs of the calls before it and of the calls after it:
    the string form of V when the handler returns V, "Error: boom" when the
    handler throws an error with message "boom" (in general "Error: "
    followed by the message).  Whatever that handler does, the identities
    of the collected outputs are those of all calls of the round whose
    tool name resolves, and the whole list is submitted to the remote
    runtime in one operation. *)
Theorem handler_outcome_becomes_output
    (a : MonAIAgent) (w : World R) (run : Run.t) (thread : Thread.t)
    (before after : list ToolCall.t) (tool : ToolCall.t)
    (toolConfig : Tool.t) (args : JsValue) :
  pending_tool_calls run = Some (before ++ tool :: after) ->
  assoc (ToolCall.name tool) (toolRegistry w) = Some toolConfig ->
  JSON_parse (ToolCall.arguments tool) = Normal args ->
  let tools := toolRegistry w in
  let w1 := snd (allSettled a tools before w) in
  let r := Tool.handler toolConfig args (Some (walletClient a)) (toolEnvConfigs a)
                        (tokenDecimalsCache w1) in
  let w2 := snd (toolCallback a tools tool w1) in
  let toolOutputs := fst (dispatchRound a (before ++ tool :: after) w) in
  let submit := RunsSubmitToolOutputsAndPoll (Thread.id thread) (Run.id run) toolOutputs in
  exists out,
    toolOutputs
    = fst (dispatchRound a before w)
        ++ ToolOutput.mk (ToolCall.id tool) out :: fst (dispatchRound a after w2)
    /\ (forall V, outcome r = Normal V -> out = JS_String V)
    /\ (outcome r = Throw (Error "boom") -> out = "Error: boom")
    /\ (forall e, outcome r = Throw e -> out = ("Error: " ++ errorMessage e)%string)
    /\ map ToolOutput.tool_call_id toolOutputs
       = map ToolCall.id (filter (resolves tools) (before ++ tool :: after))
    /\ (exists result w',
          handleRunToolCalls run thread (a, w) = (result, (a, w'))
          /\ result
             = match fst (runs_submitToolOutputsAndPoll
                            (Thread.id thread) (Run.id run) toolOutputs (remote w)) with
               | Normal next => Ret next
               | Throw e => Raise e
               end
          /\ remote_ops (events w') = remote_ops (events w) ++ [submit]).
Proof.
  exact (registered_call_output a w run thread before after tool toolConfig args).
Qed.

(** ** What the methods may change in the session *)

Section Preservation.
Variable P : MonAIAgent -> Prop.

Lemma preserves_ret {A} (x : A) : preserves P (@ret R A x).
Proof. intros a w Ha. exact Ha. Qed.

Lemma preserves_raise {A} (e : Thrown) : preserves P (@raise R A e).
Proof. intros a w Ha. exact Ha. Qed.

Lemma preserves_out_of_fuel {A} : preserves P (@out_of_fuel R A).
Proof. intros a w Ha. exact Ha. Qed.

Lemma preserves_this : preserves P (@this R).
Proof. intros a w Ha. exact Ha. Qed.

Lemma preserves_initTools : preserves P (@initTools R).
Proof. intros a w Ha. exact Ha. Qed.

Lemma preserves_log (lvl : LogLevel) (msg : string) : preserves P (@log R lvl msg).
Proof. intros a w Ha. exact Ha. Qed.

Lemma preserves_sleep (ms : Z) : preserves P (@sleep R ms).
Proof. intros a w Ha. exact Ha. Qed.

Lemma preserves_await {A} (op : RemoteOp) (call : R -> Completion A * R) :
  preserves P (await op call).
Proof.
  intros a w Ha. unfold await.
  destruct (call (remote w)) as [[x | e] r']; exact Ha.
Qed.

Lemma preserves_assign (f : MonAIAgent -> MonAIAgent) :
  (forall a, P a -> P (f a)) -> preserves P (@assign R f).
Proof. intros Hf a w Ha. apply Hf, Ha. Qed.

Lemma preserves_bind {A B} (m : @M R A) (k : A -> @M R B) :
  preserves P m -> (forall x, preserves P (k x)) -> preserves P (bind m k).
Proof.
  intros Hm Hk a w Ha. unfold bind.
  specialize (Hm a w Ha).
  destruct (m (a, w)) as [[x | e |] [a1 w1]]; simpl in *; auto.
  apply Hk, Hm.
Qed.

Lemma preserves_try_catch {A} (body : @M R A) (handler : Thrown -> @M R A) :
  preserves P body -> (forall e, preserves P (handler e)) ->
  preserves P (try_catch body handler).
Proof.
  intros Hb Hh a w Ha. unfold try_catch.
  specialize (Hb a w Ha).
  destruct (body (a, w)) as [[x | e |] [a1 w1]]; simpl in *; auto.
  apply Hh, Hb.
Qed.

Lemma preserves_handleRunToolCalls (run : Run.t) (thread : Thread.t) :
  preserves P (handleRunToolCalls run thread).
Proof.
  intros a w Ha. unfold handleRunToolCalls.
  destruct (pending_tool_calls run) as [[| tool rest] |]; try exact Ha.
  destruct (dispatchRound a (tool :: rest) w) as [[| o os] w1].
  - exact Ha.
  - apply preserves_await, Ha.
Qed.

Lemma preserves_pollRun (fuel : nat) :
  forall run : Run.t, preserves P (pollRun fuel run).
Proof.
  induction fuel as [| fuel IH]; intro run; simpl;
    destruct (Run.status run);
    try apply preserves_ret; try apply preserves_out_of_fuel;
    (apply preserves_bind; [apply preserves_sleep | intros _];
     apply preserves_bind; [apply preserves_this | intro a];
     apply preserves_bind; [apply preserves_await | intro run']; apply IH).
Qed.

Lemma preserves_createRun (fuel : nat) : preserves P (createRun fuel).
Proof.
  unfold createRun.
  apply preserves_bind; [apply preserves_this | intro a].
  apply preserves_bind; [apply preserves_log | intros _].
  apply preserves_bind; [apply preserves_await | intro run].
  apply preserves_pollRun.
Qed.

Lemma preserves_driveRun (thread : Thread.t) (fuel : nat) :
  forall run : Run.t, preserves P (driveRun fuel run thread).
Proof.
  induction fuel as [| fuel IH]; intro run; simpl;
    destruct (awaits_tool_outputs run);
    try apply preserves_ret; try apply preserves_out_of_fuel.
  apply preserves_bind; [apply preserves_handleRunToolCalls | intro next; apply IH].
Qed.

Lemma preserves_performRun (fuel : nat) (run : Run.t) (thread : Thread.t) :
  preserves P (performRun fuel run thread).
Proof.
  unfold performRun.
  apply preserves_bind; [apply preserves_driveRun | intro currentRun].
  apply preserves_bind; [apply preserves_log | intros _].
  destruct (Run.status currentRun); try apply preserves_ret.
  apply preserves_bind; [apply preserves_await | intro messages].
  destruct messages as [| lastMessage rest]; [apply preserves_raise |].
  destruct (Message.role lastMessage); [apply preserves_ret |].
  destruct (Message.content lastMessage) as [| block blocks]; [apply preserves_raise |].
  destruct (String.eqb _ _); apply preserves_ret.
Qed.

Lemma preserves_initialize :
  (forall x a, P a -> P (set_assistant x a)) ->
  (forall x a, P a -> P (set_assistantId x a)) ->
  (forall x a, P a -> P (set_thread x a)) ->
  (forall a, P a -> P (set_isInitialized true a)) ->
  preserves P (@initialize R _).
Proof.
  intros Hassistant HassistantId Hthread Hflag.
  assert (Hcreate : preserves P (@createAssistant R _)).
  { unfold createAssistant.
    apply preserves_bind; [apply preserves_initTools | intro tools].
    apply preserves_bind; [apply preserves_this | intro a].
    apply preserves_await. }
  assert (Hfresh : preserves P
            (bind (@createAssistant R _)
               (fun x => bind (assign (set_assistant (Some x)))
                              (fun _ => assign (set_assistantId (Assistant.id x)))))).
  { apply preserves_bind; [exact Hcreate | intro x].
    apply preserves_bind; [apply preserves_assign, Hassistant | intros _].
    apply preserves_assign, HassistantId. }
  unfold initialize.
  apply preserves_bind; [apply preserves_this | intro a].
  destruct (isInitialized a); [apply preserves_log |].
  apply preserves_bind; [| intros _; apply preserves_bind; [| intros _]].
  - unfold initialize_assistant.
    apply preserves_bind; [apply preserves_this | intro a1].
    destruct (assistant a1); [exact Hfresh |].
    apply preserves_try_catch; [| intros _; exact Hfresh].
    apply preserves_bind; [| intro x; apply preserves_assign, Hassistant].
    unfold retrieveAssistant.
    apply preserves_bind; [apply preserves_this | intro a2; apply preserves_await].
  - unfold initialize_thread.
    apply preserves_bind; [apply preserves_this | intro a1].
    destruct (is_empty (threadID a1)).
    + apply preserves_bind; [| intro x; apply preserves_assign, Hthread].
      unfold createThread.
      apply preserves_bind; [apply preserves_await | intro th].
      apply preserves_bind; [apply preserves_ret | intros _; apply preserves_ret].
    + apply preserves_bind; [| intro x; apply preserves_assign, Hthread].
      apply preserves_await.
  - apply preserves_assign, Hflag.
Qed.

Lemma preserves_sendMessage (fuel : nat) (message : string) :
  preserves P (@initialize R _) -> preserves P (sendMessage fuel message).
Proof.
  intro Hinit. unfold sendMessage.
  apply preserves_bind; [apply preserves_this | intro a].
  apply preserves_bind;
    [destruct (negb (isInitialized a)); [exact Hinit | apply preserves_ret] | intros _].
  apply preserves_bind; [apply preserves_this | intro a1].
  destruct (assistant a1); [| apply preserves_raise].
  destruct (thread a1) as [th |]; [| apply preserves_raise].
  apply preserves_bind; [apply preserves_log | intros _].
  apply preserves_bind; [apply preserves_await | intros _].
  apply preserves_bind; [apply preserves_createRun | intro run].
  apply preserves_bind; [apply preserves_performRun | intro result].
  destruct result as [[value | f | u | r] |];
    try apply preserves_ret;
    (apply preserves_bind; [apply preserves_log | intros _; apply preserves_raise]).
Qed.

End Preservation.

(** The initialization flag is never reset: no method of the session
    takes it from true back to false. *)
Lemma initialization_flag_is_monotonic (fuel : nat) (message : string) :
  preserves (fun a => isInitialized a = true) (@initialize R _)
  /\ preserves (fun a => isInitialized a = true) (sendMessage fuel message).
Proof.
  assert (Hinit : preserves (fun a => isInitialized a = true) (@initialize R _)).
  { apply preserves_initialize; intros; simpl; auto. }
  split; [exact Hinit | apply preserves_sendMessage, Hinit].
Qed.

(** [initialize] never assigns [threadID]. *)
Lemma initialize_keeps_threadID (a : MonAIAgent) (w : World R) :
  threadID (fst (snd (initialize (a, w)))) = threadID a.
Proof.
  apply (preserves_initialize (fun x => threadID x = threadID a)); intros; simpl; auto.
Qed.

(** The run-driving methods do not touch the session at all. *)
Lemma createRun_keeps_session (fuel : nat) (a : MonAIAgent) (w : World R) :
  fst (snd (createRun fuel (a, w))) = a.
Proof. apply (preserves_createRun (fun x => x = a)). reflexivity. Qed.

Lemma performRun_keeps_session (fuel : nat) (run : Run.t) (thread : Thread.t)
    (a : MonAIAgent) (w : World R) :
  fst (snd (performRun fuel run thread (a, w))) = a.
Proof. apply (preserves_performRun (fun x => x = a)). reflexivity. Qed.

(** ** [initialize] *)

Lemma initialize_when_initialized (a : MonAIAgent) (w : World R) :
  isInitialized a = true ->
  initialize (a, w) = (Ret tt, (a, log_to LvlInfo "Agent already initialized" w)).
Proof.
  intro Hflag. unfold initialize, bind, this. rewrite Hflag. reflexivity.
Qed.

Lemma initialize_success_sets_flag (a a1 : MonAIAgent) (w w1 : World R) :
  initialize (a, w) = (Ret tt, (a1, w1)) -> isInitialized a1 = true.
Proof.
  unfold initialize, bind, this.
  destruct (isInitialized a) eqn:Hflag.
  - unfold log. intro Heq. injection Heq as <- _. exact Hflag.
  - destruct (initialize_assistant (a, w)) as [[[] | e |] [a2 w2]]; try discriminate.
    destruct (initialize_thread (a2, w2)) as [[[] | e |] [a3 w3]]; try discriminate.
    unfold assign. intro Heq. injection Heq as <- _. reflexivity.
Qed.

(** C6. [initialize] on a session that is already initialized returns at
    once: the session is unchanged, the remote runtime is not called, and
    the only trace is the line "Agent already initialized".  In
    particular, after a first call that succeeded, a second call issues no
    remote operation. *)
Theorem initialize_is_idempotent :
  (forall (a : MonAIAgent) (w : World R),
      isInitialized a = true ->
      initialize (a, w)
      = (Ret tt,
         (a, mkWorld (remote w) (toolRegistry w) (tokenDecimalsCache w)
               (events w ++ [EvLog (mkLog LvlInfo "Agent already initialized")]))))
  /\ (forall (a a1 : MonAIAgent) (w w1 : World R),
        initialize (a, w) = (Ret tt, (a1, w1)) ->
        exists w2,
          initialize (a1, w1) = (Ret tt, (a1, w2))
          /\ remote w2 = remote w1
          /\ remote_ops (events w2) = remote_ops (events w1)).
Proof.
  split.
  - intros a w Hflag. apply initialize_when_initialized, Hflag.
  - intros a a1 w w1 Hfirst.
    pose proof (initialize_success_sets_flag a a1 w w1 Hfirst) as Hflag.
    eexists. split; [apply initialize_when_initialized, Hflag |].
    split; [reflexivity |].
    apply quiet_remote_ops, quiet_log_to.
Qed.

Lemma thread_ops_app (l1 l2 : list Event) :
  thread_ops (l1 ++ l2) = thread_ops l1 ++ thread_ops l2.
Proof. unfold thread_ops. rewrite remote_ops_app, filter_app. reflexivity. Qed.

(** The assistant step issues no thread operation and leaves [threadID]. *)
Lemma initialize_assistant_frame (a : MonAIAgent) (w : World R) :
  threadID (fst (snd (initialize_assistant (a, w)))) = threadID a
  /\ thread_ops (events (snd (snd (initialize_assistant (a, w))))) = thread_ops (events w).
Proof.
  unfold initialize_assistant, retrieveAssistant, createAssistant.
  unfold bind, try_catch, this, initTools, assign, await.
  destruct (assistant a); cbn beta iota.
  - match goal with
    | |- context [assistants_create ?p ?r] =>
        destruct (assistants_create p r) as [[x | e] r1]
    end; simpl; rewrite thread_ops_app, app_nil_r; auto.
  - destruct (assistants_retrieve (assistantId a) (remote w)) as [[x | e] r1]; simpl.
    + rewrite thread_ops_app, app_nil_r; auto.
    + match goal with
      | |- context [assistants_create ?p ?r] =>
          destruct (assistants_create p r) as [[x | e'] r2]
      end; simpl; rewrite !thread_ops_app, !app_nil_r; auto.
Qed.

(** The thread step issues exactly one thread operation, chosen by
    whether [threadID] is empty. *)
Lemma initialize_thread_trace (a : MonAIAgent) (w : World R) :
  events (snd (snd (initialize_thread (a, w))))
  = events w
      ++ [EvRemote (if is_empty (threadID a) then ThreadsCreate
                    else ThreadsRetrieve (threadID a))].
Proof.
  unfold initialize_thread, createThread, retrieveThread.
  unfold bind, this, assign, await, ret.
  destruct (is_empty (threadID a)); simpl.
  - destruct (threads_create (remote w)) as [[x | e] r1]; reflexivity.
  - destruct (threads_retrieve (threadID a) (remote w)) as [[x | e] r1]; reflexivity.
Qed.

(** The thread step leaves the assistant identity as it is. *)
Lemma initialize_thread_keeps_assistantId (a : MonAIAgent) (w : World R) :
  assistantId (fst (snd (initialize_thread (a, w)))) = assistantId a.
Proof.
  unfold initialize_thread, createThread, retrieveThread.
  unfold bind, this, assign, await, ret.
  destruct (is_empty (threadID a)); simpl.
  - destruct (threads_create (remote w)) as [[x | e] r1]; reflexivity.
  - destruct (threads_retrieve (threadID a) (remote w)) as [[x | e] r1]; reflexivity.
Qed.

(** The assistant half of the session invariant: against a runtime that
    gives created assistants a non-empty identity and knows no assistant
    of empty identity, a successful [initialize] leaves a non-empty
    [assistantId]. *)
Lemma initialize_sets_assistantId (a a' : MonAIAgent) (w w' : World R) :
  (forall params r x r',
      assistants_create params r = (Normal x, r') -> is_empty (Assistant.id x) = false) ->
  (forall r x r', assistants_retrieve EmptyString r <> (Normal x, r')) ->
  isInitialized a = false ->
  initialize (a, w) = (Ret tt, (a', w')) ->
  is_empty (assistantId a') = false.
Proof.
  intros Hcreated Hunknown Hflag.
  unfold initialize, bind, this. rewrite Hflag.
  destruct (initialize_assistant (a, w)) as [[[] | e |] [a1 w1]] eqn:Hstep;
    try discriminate.
  pose proof (initialize_thread_keeps_assistantId a1 w1) as Hkeep.
  destruct (initialize_thread (a1, w1)) as [[[] | e |] [a2 w2]]; try discriminate.
  unfold assign. intro Heq. injection Heq as <- _.
  simpl in Hkeep |- *. rewrite Hkeep. clear Hkeep.
  revert Hstep.
  unfold initialize_assistant, retrieveAssistant, createAssistant.
  unfold bind, try_catch, this, initTools, assign, await.
  destruct (assistant a); cbn beta iota.
  - match goal with
    | |- context [assistants_create ?p ?r] =>
        destruct (assistants_create p r) as [[x | e] r1] eqn:Hc
    end; try discriminate.
    intro Heq. injection Heq as <- _. simpl. eapply Hcreated, Hc.
  - destruct (assistants_retrieve (assistantId a) (remote w)) as [[x | e] r1] eqn:Hr.
    + intro Heq. injection Heq as <- _. simpl.
      destruct (assistantId a) eqn:Hid; [| reflexivity].
      exfalso. eapply Hunknown, Hr.
    + match goal with
      | |- context [assistants_create ?p ?r] =>
          destruct (assistants_create p r) as [[x | e'] r2] eqn:Hc
      end; try discriminate.
      intro Heq. injection Heq as <- _. simpl. eapply Hcreated, Hc.
Qed.

(** C7. On a freshly constructed session whose assistant step does not
    fail, [initialize] issues exactly one thread operation: the retrieval
    of the supplied thread identity when one was supplied (and then no
    creation), the creation of a new thread when none was (and then no
    retrieval). *)
Theorem initialize_retrieves_or_creates_one_thread
    (config : Config.t) (a a1 : MonAIAgent) (w w1 : World R) :
  constructor config = Normal a ->
  initialize_assistant (a, w) = (Ret tt, (a1, w1)) ->
  let supplied := or_empty (Config.threadId config) in
  thread_ops (events (snd (snd (initialize (a, w)))))
  = thread_ops (events w)
      ++ [if is_empty supplied then ThreadsCreate else ThreadsRetrieve supplied].
Proof.
  intros Hnew Hassistant. cbv zeta.
  assert (Hfresh : isInitialized a = false
                   /\ threadID a = or_empty (Config.threadId config)).
  { unfold constructor in Hnew.
    destruct (match Config.walletClient config with
              | Some wc => Normal wc
              | None => createViemWalletClient
              end) as [wc | e]; [| discriminate].
    injection Hnew as <-. split; reflexivity. }
  destruct Hfresh as [Hflag Hid].
  pose proof (initialize_assistant_frame a w) as [Hid1 Hops1].
  rewrite Hassistant in Hid1, Hops1. simpl in Hid1, Hops1.
  pose proof (initialize_thread_trace a1 w1) as Htrace.
  unfold initialize, bind, this. rewrite Hflag, Hassistant.
  destruct (initialize_thread (a1, w1)) as [[[] | e |] [a2 w2]]; simpl in *;
    rewrite Htrace, thread_ops_app, Hops1, Hid1, Hid;
    destruct (is_empty (or_empty (Config.threadId config))); reflexivity.
Qed.

(** ** Driving a run *)

(** What [performRun] makes of a run that is already completed, by the
    shape of the newest message of the thread. *)
Lemma performRun_completed (fuel : nat) (run : Run.t) (thread : Thread.t)
    (a : MonAIAgent) (w : World R) :
  Run.status run = completed ->
  let listing := messages_list (Thread.id thread) (remote w) in
  let w' := mkWorld (snd listing) (toolRegistry w) (tokenDecimalsCache w)
              (events w ++ [EvLog (mkLog LvlInfo (JSON_stringify run));
                            EvRemote (MessagesList (Thread.id thread))]) in
  performRun fuel run thread (a, w)
  = (match fst listing with
     | Throw e => Raise e
     | Normal [] => Raise (TypeError "Cannot read properties of undefined (reading 'role')")
     | Normal (lastMessage :: _) =>
         match Message.role lastMessage, Message.content lastMessage with
         | RoleUser, _ => Ret None
         | RoleAssistant, [] =>
             Raise (TypeError "Cannot read properties of undefined (reading 'type')")
         | RoleAssistant, TextContentBlock value :: _ => Ret (Some (TextContentBlock value))
         | RoleAssistant, _ :: _ => Ret None
         end
     end, (a, w')).
Proof.
  intro Hdone. cbv zeta.
  assert (Hloop : driveRun fuel run thread (a, w) = (Ret run, (a, w))).
  { destruct fuel; simpl; unfold awaits_tool_outputs; rewrite Hdone; reflexivity. }
  unfold performRun, bind. rewrite Hloop. unfold log. rewrite Hdone.
  unfold await, log_to, emit. simpl.
  destruct (messages_list (Thread.id thread) (remote w)) as [[messages | e] r1]; simpl;
    rewrite <- ?app_assoc; simpl; [| reflexivity].
  destruct messages as [| lastMessage older]; [reflexivity |].
  destruct (Message.role lastMessage); [reflexivity |].
  destruct (Message.content lastMessage) as [| [value | f | u | rf] blocks]; reflexivity.
Qed.

(** The polling loop of [createRun] on a run that is queued, then in
    progress, then completed. *)
Lemma createRun_polls_twice
    (a : MonAIAgent) (w : World R) (fuel : nat) (run0 run1 run2 : Run.t) (r2 r3 r4 : R) :
  runs_create (threadID a) (assistantId a) (remote w) = (Normal run0, r2) ->
  Run.status run0 = queued ->
  runs_retrieve (threadID a) (Run.id run0) r2 = (Normal run1, r3) ->
  Run.status run1 = in_progress ->
  runs_retrieve (threadID a) (Run.id run1) r3 = (Normal run2, r4) ->
  Run.status run2 = completed ->
  2 <= fuel ->
  createRun fuel (a, w)
  = (Ret run2,
     (a, mkWorld r4 (toolRegistry w) (tokenDecimalsCache w)
           (events w
              ++ [EvLog (mkLog LvlInfo
                           ("Running for thread " ++ threadID a ++ " with assistant "
                            ++ assistantId a));
                  EvRemote (RunsCreate (threadID a) (assistantId a));
                  EvSleep 1000;
                  EvRemote (RunsRetrieve (threadID a) (Run.id run0));
                  EvSleep 1000;
                  EvRemote (RunsRetrieve (threadID a) (Run.id run1))]))).
Proof.
  intros Hcreate Hq Hpoll1 Hp Hpoll2 Hc Hfuel.
  destruct fuel as [| [| fuel]]; [lia | lia |].
  unfold createRun, bind, this, log, log_to, emit, await.
  cbn [remote toolRegistry tokenDecimalsCache events].
  rewrite Hcreate.
  cbn [pollRun]. rewrite Hq.
  unfold bind, sleep, this, await, emit.
  cbn [remote toolRegistry tokenDecimalsCache events].
  rewrite Hpoll1, Hp.
  cbn [remote toolRegistry tokenDecimalsCache events].
  rewrite Hpoll2.
  destruct fuel; cbn [pollRun]; rewrite Hc; unfold ret;
    rewrite <- !app_assoc; reflexivity.
Qed.

(** C8. A run that is created [queued], is [in_progress] at the first
    poll and [completed] at the second makes the polling loop stop there:
    with fuel for two polls [createRun] returns the completed run after
    exactly two fetches, and [sendMessage] fetches nothing after
    [completed] was seen; it lists the thread once and returns the one
    text answer found at the head of the newest assistant message. *)
Theorem polling_stops_at_completed
    (a : MonAIAgent) (w : World R) (message : string) (fuel : nat)
    (asst : Assistant.t) (th : Thread.t) (run0 run1 run2 : Run.t)
    (r1 r2 r3 r4 : R) :
  isInitialized a = true ->
  assistant a = Some asst ->
  thread a = Some th ->
  messages_create (Thread.id th) RoleUser message (remote w) = (Normal tt, r1) ->
  runs_create (threadID a) (assistantId a) r1 = (Normal run0, r2) ->
  Run.status run0 = queued ->
  runs_retrieve (threadID a) (Run.id run0) r2 = (Normal run1, r3) ->
  Run.status run1 = in_progress ->
  runs_retrieve (threadID a) (Run.id run1) r3 = (Normal run2, r4) ->
  Run.status run2 = completed ->
  2 <= fuel ->
  let sent :=
    [EvLog (mkLog LvlInfo
              ("Sending message: " ++ message ++ " for wallet "
               ++ JS_String (accountAddress (Some (walletClient a)))));
     EvRemote (MessagesCreate (Thread.id th) RoleUser message)] in
  let polled :=
    [EvLog (mkLog LvlInfo
              ("Running for thread " ++ threadID a ++ " with assistant " ++ assistantId a));
     EvRemote (RunsCreate (threadID a) (assistantId a));
     EvSleep 1000;
     EvRemote (RunsRetrieve (threadID a) (Run.id run0));
     EvSleep 1000;
     EvRemote (RunsRetrieve (threadID a) (Run.id run1))] in
  let answered :=
    [EvLog (mkLog LvlInfo (JSON_stringify run2));
     EvRemote (MessagesList (Thread.id th))] in
  createRun fuel
    (a, mkWorld r1 (toolRegistry w) (tokenDecimalsCache w) (events w ++ sent))
  = (Ret run2,
     (a, mkWorld r4 (toolRegistry w) (tokenDecimalsCache w)
           ((events w ++ sent) ++ polled)))
  /\ (forall (text : string) (blocks : list ContentBlock) (older : list Message.t) (r5 : R),
        messages_list (Thread.id th) r4
        = (Normal (Message.mk RoleAssistant (TextContentBlock text :: blocks) :: older), r5) ->
        sendMessage fuel message (a, w)
        = (Ret text,
           (a, mkWorld r5 (toolRegistry w) (tokenDecimalsCache w)
                 (events w ++ sent ++ polled ++ answered)))).
Proof.
  intros Hflag Hasst Hthread Hmsg Hcreate Hq Hpoll1 Hp Hpoll2 Hc Hfuel. cbv zeta.
  pose proof (fun w0 Hr =>
                createRun_polls_twice a w0 fuel run0 run1 run2 r2 r3 r4
                  Hr Hq Hpoll1 Hp Hpoll2 Hc Hfuel) as Hrun.
  split.
  - apply Hrun. exact Hcreate.
  - intros text blocks older r5 Hlist.
    unfold sendMessage, bind, this. rewrite Hflag. cbn [negb]. unfold ret.
    rewrite Hasst, Hthread.
    unfold log, log_to, emit, await. cbn [remote toolRegistry tokenDecimalsCache events].
    rewrite Hmsg.
    rewrite Hrun by exact Hcreate.
    rewrite performRun_completed by exact Hc.
    cbn [remote toolRegistry tokenDecimalsCache events].
    rewrite Hlist. cbn [fst snd Message.role Message.content].
    rewrite <- !app_assoc. reflexivity.
Qed.

(** ** The token-balance handler *)

Lemma TOKEN_entries (key address : string) :
  assoc key TOKEN = Some address ->
  (key = "WMON" /\ address = "0x760AfE86e5de5fa0Ee542fc7B7B713e1c5425701")
  \/ (key = "MONAI" /\ address = "0x7348fac1b35be27b0b636f0881afc9449ec54ba5").
Proof.
  unfold TOKEN. cbn [assoc].
  destruct (String.eqb_spec "WMON" key) as [<- | _].
  - intro Heq. injection Heq as <-. left. auto.
  - destruct (String.eqb_spec "MONAI" key) as [<- | _]; [| discriminate].
    intro Heq. injection Heq as <-. right. auto.
Qed.

Lemma resolveToken_ignores_case (key address s : string) :
  assoc key TOKEN = Some address ->
  same_ignoring_case s key ->
  resolveToken (JsString s) = Normal (key, address).
Proof.
  intros Hentry Hsame. unfold same_ignoring_case in Hsame.
  destruct (TOKEN_entries key address Hentry) as [[-> ->] | [-> ->]];
    unfold resolveToken; cbn [Object_keys TOKEN map fst find_key tokenName_toLowerCase];
    rewrite Hsame; reflexivity.
Qed.

Lemma resolveToken_not_found (s : string) :
  resolveToken (JsString s) = Throw (Error (notFoundMessage (JsString s)))
  <-> (forall key, In key (Object_keys TOKEN) -> ~ same_ignoring_case s key).
Proof.
  unfold resolveToken, same_ignoring_case.
  cbn [Object_keys TOKEN map fst find_key tokenName_toLowerCase In].
  destruct (String.eqb_spec (toLowerCase "WMON") (toLowerCase s)) as [Hw | Hw].
  - split; [discriminate |].
    intro Hnone. exfalso. apply (Hnone "WMON"); auto.
  - destruct (String.eqb_spec (toLowerCase "MONAI") (toLowerCase s)) as [Hm | Hm].
    + split; [discriminate |].
      intro Hnone. exfalso. apply (Hnone "MONAI"); auto.
    + split; [| reflexivity].
      intros _ key [<- | [<- | []]] Hsame; congruence.
Qed.

Lemma same_ignoring_case_nonempty (s key : string) :
  same_ignoring_case s key -> is_empty key = false -> is_empty s = false.
Proof.
  unfold same_ignoring_case. destruct s, key; simpl; congruence.
Qed.

(** With arguments that carry a token name and an address to look at, the
    handler goes through its guards and hands the name to [resolveToken]. *)
Lemma getTokenBalance_handler_resolves (args : JsValue) (walletClient : option WalletClient.t)
    (env : ToolEnv) (cache : Cache) (s : string) :
  Get args "tokenName" = JsString s ->
  is_empty s = false ->
  let holder := js_or (Get args "wallet") (accountAddress walletClient) in
  ToBoolean holder = true ->
  getTokenBalance_handler args walletClient env cache
  = run_handler
      (h_try
         (h_bind (h_log LvlInfo ("Getting " ++ s ++ " balance for " ++ JS_String holder))
            (fun _ =>
               h_bind (h_await (resolveToken (JsString s)))
                 (fun found => readTokenBalance (fst found) (snd found) holder)))
         rethrow_token_failure)
      cache.
Proof.
  intros Hname Hnonempty holder Hholder.
  assert (Hobject : is_nullish args = false).
  { destruct args; try reflexivity; discriminate. }
  unfold getTokenBalance_handler, run_handler, h_try, h_bind.
  rewrite Hobject, Hname. fold holder. rewrite Hholder.
  cbn [negb ToBoolean h_ret JS_String]. rewrite Hnonempty. reflexivity.
Qed.

(** C10. The token name is resolved without regard to letter case: a name
    that differs from a key of [TOKEN] only by case resolves to that key
    and its address, the not-found error is thrown exactly when no key
    matches even so, and a handler that was given such a name (and has an
    address to look at) goes on to read the balance at the address of the
    matched token. *)
Theorem token_name_resolution_ignores_case :
  (forall key address s : string,
      assoc key TOKEN = Some address ->
      same_ignoring_case s key ->
      resolveToken (JsString s) = Normal (key, address))
  /\ (forall s : string,
        resolveToken (JsString s) = Throw (Error (notFoundMessage (JsString s)))
        <-> (forall key, In key (Object_keys TOKEN) -> ~ same_ignoring_case s key))
  /\ (forall (key address s : string) (args : JsValue)
             (walletClient : option WalletClient.t) (env : ToolEnv) (cache : Cache),
        assoc key TOKEN = Some address ->
        same_ignoring_case s key ->
        Get args "tokenName" = JsString s ->
        let holder := js_or (Get args "wallet") (accountAddress walletClient) in
        ToBoolean holder = true ->
        getTokenBalance_handler args walletClient env cache
        = run_handler
            (h_try
               (h_bind
                  (h_log LvlInfo ("Getting " ++ s ++ " balance for " ++ JS_String holder))
                  (fun _ => readTokenBalance key address holder))
               rethrow_token_failure)
            cache).
Proof.
  split; [exact resolveToken_ignores_case |].
  split; [exact resolveToken_not_found |].
  intros key address s args walletClient env cache Hentry Hsame Hname holder Hholder.
  assert (Hnonempty : is_empty s = false).
  { apply (same_ignoring_case_nonempty s key Hsame).
    destruct (TOKEN_entries key address Hentry) as [[-> _] | [-> _]]; reflexivity. }
  rewrite (getTokenBalance_handler_resolves args walletClient env cache s
             Hname Hnonempty Hholder).
  unfold run_handler, h_try, h_bind, h_await.
  rewrite (resolveToken_ignores_case key address s Hentry Hsame).
  reflexivity.
Qed.

(** The message of the error the handler ends with for an unknown token. *)
Lemma getTokenBalance_handler_unknown (args : JsValue) (walletClient : option WalletClient.t)
    (env : ToolEnv) (cache : Cache) :
  Get args "tokenName" = JsString "unknown" ->
  ToBoolean (js_or (Get args "wallet") (accountAddress walletClient)) = true ->
  outcome (getTokenBalance_handler args walletClient env cache)
  = Throw (Error ("Failed to get token balance: Error: Token " ++ dquote ++ "unknown"
                  ++ dquote ++ " not found. Available tokens: WMON, MONAI")).
Proof.
  intros Hname Hholder.
  rewrite (getTokenBalance_handler_resolves args walletClient env cache "unknown"
             Hname eq_refl Hholder).
  reflexivity.
Qed.

(** C2, as the code has it.  A [get_token_balance] call whose parsed
    arguments name the token [unknown], in a round where the tool is the
    built-in one and an address is available (from the arguments or from
    the session's wallet), is answered with the handler's wrapped message:
    the dispatcher's prefix [Error: ], the handler's prefix
    [Failed to get token balance: ], the printed error name [Error: ] and
    then the not-found message with the list [WMON, MONAI].  The call does
    not abort the run: the round's outputs, this one among them, are
    submitted. *)
Theorem unknown_token_output_is_the_wrapped_message
    (a : MonAIAgent) (w : World R) (run : Run.t) (thread : Thread.t)
    (before after : list ToolCall.t) (tool : ToolCall.t) (args : JsValue) :
  pending_tool_calls run = Some (before ++ tool :: after) ->
  ToolCall.name tool = "get_token_balance" ->
  assoc "get_token_balance" (toolRegistry w) = Some getTokenBalanceTool ->
  JSON_parse (ToolCall.arguments tool) = Normal args ->
  Get args "tokenName" = JsString "unknown" ->
  ToBoolean (js_or (Get args "wallet") (accountAddress (Some (walletClient a)))) = true ->
  let toolOutputs := fst (dispatchRound a (before ++ tool :: after) w) in
  let submit := RunsSubmitToolOutputsAndPoll (Thread.id thread) (Run.id run) toolOutputs in
  In (ToolOutput.mk (ToolCall.id tool)
        ("Error: Failed to get token balance: Error: Token " ++ dquote ++ "unknown"
         ++ dquote ++ " not found. Available tokens: WMON, MONAI"))
     toolOutputs
  /\ (exists result w',
        handleRunToolCalls run thread (a, w) = (result, (a, w'))
        /\ result
           = match fst (runs_submitToolOutputsAndPoll
                          (Thread.id thread) (Run.id run) toolOutputs (remote w)) with
             | Normal next => Ret next
             | Throw e => Raise e
             end
        /\ remote_ops (events w') = remote_ops (events w) ++ [submit]).
Proof.
  intros Hpending Hname Hfound Hparse Htoken Hholder. cbv zeta.
  rewrite <- Hname in Hfound.
  destruct (registered_call_output a w run thread before after tool
              getTokenBalanceTool args Hpending Hfound Hparse)
    as (out & Hsplit & _ & _ & Hthrow & _ & Hsubmit).
  split; [| exact Hsubmit].
  rewrite Hsplit. apply in_or_app. right. left.
  rewrite (Hthrow _ (getTokenBalance_handler_unknown args _ _ _ Htoken Hholder)).
  reflexivity.
Qed.

End Properties.

(* ================================================================= *)
(** * Further properties of the code *)

Section MoreProperties.
Context {R : Type} `{RemoteRuntime R} `{Platform}.

(** ** The registry and the decimals cache *)

Lemma assoc_Map_set_same (m : Cache) (k : string) (v : Z) :
  assoc k (Map_set m k v) = Some v.
Proof.
  induction m as [| [k' v'] rest IH]; simpl.
  - rewrite String.eqb_refl. reflexivity.
  - destruct (String.eqb k' k) eqn:Hk; simpl; rewrite Hk; auto.
Qed.

Lemma assoc_Map_set_other (m : Cache) (k other : string) (v : Z) :
  other <> k -> assoc other (Map_set m k v) = assoc other m.
Proof.
  intro Hneq. induction m as [| [k' v'] rest IH]; simpl.
  - destruct (String.eqb_spec k other); [congruence | reflexivity].
  - destruct (String.eqb_spec k' k) as [-> | Hk]; simpl.
    + destruct (String.eqb_spec k other); [congruence | reflexivity].
    + destruct (String.eqb k' other); auto.
Qed.

Lemma getTool_registerTool_same (registry : Registry) (name : string) (tool : Tool.t) :
  getTool (registerTool registry name tool) name = Some tool.
Proof.
  unfold getTool. induction registry as [| [k t] rest IH]; simpl.
  - rewrite String.eqb_refl. reflexivity.
  - destruct (String.eqb k name) eqn:Hk; simpl; rewrite Hk; auto.
Qed.

Lemma getTool_registerTool_other (registry : Registry) (name other : string)
    (tool : Tool.t) :
  other <> name -> getTool (registerTool registry name tool) other = getTool registry other.
Proof.
  unfold getTool. intro Hneq. induction registry as [| [k t] rest IH]; simpl.
  - destruct (String.eqb_spec name other); [congruence | reflexivity].
  - destruct (String.eqb_spec k name) as [-> | Hk]; simpl.
    + destruct (String.eqb_spec name other); [congruence | reflexivity].
    + destruct (String.eqb k other); auto.
Qed.

Lemma Object_keys_registerTool (registry : Registry) (name : string) (tool : Tool.t) :
  Object_keys (registerTool registry name tool)
  = match getTool registry name with
    | Some _ => Object_keys registry
    | None => Object_keys registry ++ [name]
    end.
Proof.
  unfold getTool, Object_keys. induction registry as [| [k t] rest IH]; simpl.
  - reflexivity.
  - destruct (String.eqb k name) eqn:Hk; simpl; [reflexivity |].
    rewrite IH. destruct (assoc name rest); reflexivity.
Qed.

Lemma assoc_Object_keys {A : Type} (o : list (string * A)) (k : string) (v : A) :
  assoc k o = Some v -> In k (Object_keys o).
Proof.
  unfold Object_keys. induction o as [| [k' v'] rest IH]; simpl; [discriminate |].
  destruct (String.eqb_spec k' k) as [-> | Hk]; auto.
Qed.

Lemma registerTool_again (registry : Registry) (name : string) (tool : Tool.t) :
  registerTool (registerTool registry name tool) name tool
  = registerTool registry name tool.
Proof.
  induction registry as [| [k t] rest IH]; simpl.
  - rewrite String.eqb_refl. reflexivity.
  - destruct (String.eqb k name) eqn:Hk; simpl; rewrite Hk; [reflexivity |].
    rewrite IH. reflexivity.
Qed.

(** X1. [registerTool] then [getTool], for a name that becomes an own key
    of the registry (every name but [__proto__]): the name answers the
    tool just registered (the last registration wins), every other name
    answers what it answered before, the names of the registry are the old
    ones and this one, and registering the same tool again changes
    nothing. *)
Theorem registerTool_then_getTool
    (registry : Registry) (name : string) (tool : Tool.t) :
  name <> "__proto__" ->
  getTool (registerTool registry name tool) name = Some tool
  /\ (forall other : string,
        other <> name ->
        getTool (registerTool registry name tool) other = getTool registry other)
  /\ (forall k : string,
        In k (Object_keys (registerTool registry name tool))
        <-> k = name \/ In k (Object_keys registry))
  /\ registerTool (registerTool registry name tool) name tool
     = registerTool registry name tool.
Proof.
  intros _.
  split; [apply getTool_registerTool_same |].
  split; [intros other Hneq; apply getTool_registerTool_other, Hneq |].
  split; [| apply registerTool_again].
  intro k. rewrite Object_keys_registerTool.
  destruct (getTool registry name) as [t |] eqn:Hknown.
  - split; [auto |]. intros [-> | Hin]; [| exact Hin].
    exact (assoc_Object_keys registry name t Hknown).
  - rewrite in_app_iff. simpl. intuition.
Qed.

Lemma fetchTokenDecimals_native (token : string) (s : Cache * list LogEntry) :
  native token = true -> fetchTokenDecimals token s = (Normal 18%Z, s).
Proof.
  unfold native, fetchTokenDecimals. intros ->. reflexivity.
Qed.

Lemma fetchTokenDecimals_hit (token : string) (cache : Cache) (lines : list LogEntry)
    (d : Z) :
  native token = false ->
  assoc token cache = Some d ->
  fetchTokenDecimals token (cache, lines) = (Normal d, (cache, lines)).
Proof.
  unfold native, fetchTokenDecimals. intros -> Hhit.
  unfold h_bind, h_cache, Map_has. rewrite Hhit. simpl. rewrite Hhit. reflexivity.
Qed.

Lemma fetchTokenDecimals_miss (token : string) (cache : Cache) (lines : list LogEntry) :
  native token = false ->
  assoc token cache = None ->
  fetchTokenDecimals token (cache, lines)
  = match readContract token erc20Abi "decimals" [] with
    | Normal d => (Normal d, (Map_set cache token d, lines))
    | Throw error =>
        (Normal 18%Z,
         (Map_set cache token 18,
          lines ++ [mkLog LvlError
                      ("[ERROR] Failed to fetch decimals for token " ++ token ++ ": "
                       ++ Thrown_toString error)]))
    end.
Proof.
  unfold native, fetchTokenDecimals. intros -> Hmiss.
  unfold h_bind, h_cache, Map_has, h_try, h_await, h_cache_set, h_log.
  rewrite Hmiss. cbn [negb].
  destruct (readContract token erc20Abi "decimals" []) as [d | error]; cbn beta iota;
    rewrite assoc_Map_set_same; reflexivity.
Qed.

Lemma fetchTokenDecimals_settles_frame (token : string) (cache : Cache)
    (lines : list LogEntry) :
  exists (d : Z) (cache' : Cache) (lines' : list LogEntry),
    fetchTokenDecimals token (cache, lines) = (Normal d, (cache', lines'))
    /\ (forall other, other <> token -> assoc other cache' = assoc other cache).
Proof.
  destruct (native token) eqn:Hnative.
  - exists 18%Z, cache, lines.
    rewrite fetchTokenDecimals_native by exact Hnative. auto.
  - destruct (assoc token cache) as [d0 |] eqn:Hcache.
    + exists d0, cache, lines.
      rewrite (fetchTokenDecimals_hit token cache lines d0 Hnative Hcache). auto.
    + rewrite (fetchTokenDecimals_miss token cache lines Hnative Hcache).
      destruct (readContract token erc20Abi "decimals" []) as [d | error];
        eexists; eexists; eexists; (split; [reflexivity |]);
        intros other Hneq; apply assoc_Map_set_other, Hneq.
Qed.

(** X2. [fetchTokenDecimals] never throws.  For the native token it
    answers 18 and touches nothing.  For any other token the answer is in
    the cache afterwards, the entries of the other tokens are as before,
    and a token that was cached already is answered from the cache with
    neither the cache nor the log changed. *)
Theorem fetchTokenDecimals_settles_and_caches
    (token : string) (cache : Cache) (lines : list LogEntry) :
  exists (d : Z) (cache' : Cache) (lines' : list LogEntry),
    fetchTokenDecimals token (cache, lines) = (Normal d, (cache', lines'))
    /\ (forall other, other <> token -> assoc other cache' = assoc other cache)
    /\ (native token = true -> d = 18%Z /\ cache' = cache /\ lines' = lines)
    /\ (native token = false -> assoc token cache' = Some d)
    /\ (native token = false ->
        forall d0, assoc token cache = Some d0 ->
                   d = d0 /\ cache' = cache /\ lines' = lines).
Proof.
  destruct (native token) eqn:Hnative.
  - exists 18%Z, cache, lines.
    rewrite fetchTokenDecimals_native by exact Hnative.
    repeat split; auto; discriminate.
  - destruct (assoc token cache) as [d0 |] eqn:Hcache.
    + exists d0, cache, lines.
      rewrite (fetchTokenDecimals_hit token cache lines d0 Hnative Hcache).
      repeat split; auto; try discriminate; intros; congruence.
    + rewrite (fetchTokenDecimals_miss token cache lines Hnative Hcache).
      destruct (readContract token erc20Abi "decimals" []) as [d | error];
        eexists; eexists; eexists; (split; [reflexivity |]);
        (split; [intros other Hneq; apply assoc_Map_set_other, Hneq |]);
        (split; [discriminate |]);
        (split; [intros _; apply assoc_Map_set_same |]);
        intros _ d0 Hd0; discriminate.
Qed.

Lemma fetchTokenDecimals_settled_any (later : Platform) (token : string)
    (cache : Cache) (lines : list LogEntry) (d : Z) :
  (native token = true /\ d = 18%Z) \/ (native token = false /\ assoc token cache = Some d) ->
  @fetchTokenDecimals later token (cache, lines) = (Normal d, (cache, lines)).
Proof.
  unfold native, fetchTokenDecimals. intros [[-> ->] | [-> Hhit]]; [reflexivity |].
  unfold h_bind, h_cache, Map_has. rewrite Hhit. simpl. rewrite Hhit. reflexivity.
Qed.

Lemma fetchTokenDecimals_is_stable_helper (later : Platform) (token : string)
    (s : Cache * list LogEntry) :
  @fetchTokenDecimals later token (snd (@fetchTokenDecimals H1 token s))
  = @fetchTokenDecimals H1 token s.
Proof.
  destruct s as [cache lines].
  destruct (native token) eqn:Hnative.
  - rewrite fetchTokenDecimals_native by exact Hnative. simpl.
    apply fetchTokenDecimals_settled_any. auto.
  - destruct (assoc token cache) as [d0 |] eqn:Hcache.
    + rewrite (fetchTokenDecimals_hit token cache lines d0 Hnative Hcache). simpl.
      apply fetchTokenDecimals_settled_any. auto.
    + rewrite (fetchTokenDecimals_miss token cache lines Hnative Hcache).
      destruct (readContract token erc20Abi "decimals" []) as [d | error]; simpl;
        apply fetchTokenDecimals_settled_any; auto using assoc_Map_set_same.
Qed.

(** X3. Asking [fetchTokenDecimals] twice is asking once: the second call
    gives the answer of the first and changes neither the cache nor the
    log, whatever the chain answers by then (the second call may run on
    another platform [later]). *)
Theorem fetchTokenDecimals_is_stable (later : Platform) (token : string)
    (s : Cache * list LogEntry) :
  @fetchTokenDecimals later token (snd (@fetchTokenDecimals H1 token s))
  = @fetchTokenDecimals H1 token s.
Proof.
  exact (fetchTokenDecimals_is_stable_helper later token s).
Qed.

(** X4. A decimals read that fails is not reported to the caller: the
    answer is 18, one error line is logged, and 18 is what the cache holds
    for the token from then on. *)
Theorem fetchTokenDecimals_failed_read_defaults_to_18
    (token : string) (cache : Cache) (lines : list LogEntry) (error : Thrown) :
  native token = false ->
  assoc token cache = None ->
  readContract token erc20Abi "decimals" [] = Throw error ->
  let failure :=
    mkLog LvlError ("[ERROR] Failed to fetch decimals for token " ++ token ++ ": "
                    ++ Thrown_toString error) in
  fetchTokenDecimals token (cache, lines)
  = (Normal 18%Z, (Map_set cache token 18, lines ++ [failure]))
  /\ assoc token (Map_set cache token 18) = Some 18%Z
  /\ fetchTokenDecimals token (Map_set cache token 18, lines ++ [failure])
     = (Normal 18%Z, (Map_set cache token 18, lines ++ [failure])).
Proof.
  intros Hnative Hmiss Hread. cbv zeta.
  rewrite (fetchTokenDecimals_miss token cache lines Hnative Hmiss), Hread.
  split; [reflexivity |]. split; [apply assoc_Map_set_same |].
  apply fetchTokenDecimals_hit; [exact Hnative | apply assoc_Map_set_same].
Qed.

(** ** The balance handlers *)

Lemma getBalance_handler_cases (args : JsValue) (walletClient : option WalletClient.t)
    (env : ToolEnv) (cache : Cache) :
  is_nullish args = false ->
  let holder := js_or (Get args "wallet") (accountAddress walletClient) in
  getBalance_handler args walletClient env cache
  = if ToBoolean holder then
      match getBalance holder with
      | Normal balance =>
          mkResult (Normal (JsString (formatEther balance))) cache
            [mkLog LvlInfo ("Getting native token balance for " ++ JS_String holder);
             mkLog LvlDebug ("Balance: " ++ formatEther balance)]
      | Throw error =>
          mkResult (Throw (Error ("Failed to get balance: " ++ Thrown_toString error))) cache
            [mkLog LvlInfo ("Getting native token balance for " ++ JS_String holder);
             mkLog LvlError ("Failed to get balance: " ++ Thrown_toString error)]
      end
    else
      mkResult
        (Throw (Error "Failed to get balance: Error: No wallet address provided and no wallet client account available"))
        cache
        [mkLog LvlError
           "Failed to get balance: Error: No wallet address provided and no wallet client account available"].
Proof.
  intros Hobject holder.
  unfold getBalance_handler, run_handler, h_try, h_bind, h_await, h_log, h_ret, h_throw.
  rewrite Hobject. fold holder.
  destruct (ToBoolean holder); cbn [negb]; [| reflexivity].
  destruct (getBalance holder) as [balance | error]; reflexivity.
Qed.

Lemma getBalance_handler_nullish (args : JsValue) (walletClient : option WalletClient.t)
    (env : ToolEnv) (cache : Cache) :
  is_nullish args = true ->
  getBalance_handler args walletClient env cache
  = mkResult
      (Throw (Error ("Failed to get balance: TypeError: Cannot read properties of "
                     ++ JS_String args ++ " (reading 'wallet')")))
      cache
      [mkLog LvlError ("Failed to get balance: TypeError: Cannot read properties of "
                       ++ JS_String args ++ " (reading 'wallet')")].
Proof.
  intro Hnull.
  unfold getBalance_handler, run_handler, h_try, h_bind, h_await, h_log, h_ret, h_throw.
  rewrite Hnull. reflexivity.
Qed.

(** X5. The native-balance handler looks at the [wallet] argument when it
    is given and at the account of the session's wallet otherwise: with a
    wallet argument the wallet client makes no difference, without one the
    call is the call with the account's address as argument.  The answer
    is [formatEther] of the balance read for that address. *)
Theorem getBalance_address_resolution
    (args : JsValue) (walletClient : option WalletClient.t) (env : ToolEnv) (cache : Cache) :
  (ToBoolean (Get args "wallet") = true ->
   forall (other : option WalletClient.t) (env' : ToolEnv),
     getBalance_handler args other env' cache
     = getBalance_handler args walletClient env cache)
  /\ (is_nullish args = false ->
      ToBoolean (Get args "wallet") = false ->
      getBalance_handler args walletClient env cache
      = getBalance_handler (JsObject [("wallet", accountAddress walletClient)]) None env cache)
  /\ (is_nullish args = false ->
      let holder := js_or (Get args "wallet") (accountAddress walletClient) in
      ToBoolean holder = true ->
      forall balance : Z,
        getBalance holder = Normal balance ->
        outcome (getBalance_handler args walletClient env cache)
        = Normal (JsString (formatEther balance))).
Proof.
  split; [| split].
  - intros Hwallet other env'.
    assert (Hobject : is_nullish args = false).
    { destruct args; try reflexivity; discriminate. }
    rewrite !getBalance_handler_cases by exact Hobject.
    unfold js_or. rewrite Hwallet. reflexivity.
  - intros Hobject Hwallet.
    rewrite !getBalance_handler_cases by (exact Hobject || reflexivity).
    unfold js_or. rewrite Hwallet. cbn [Get assoc String.eqb Ascii.eqb Bool.eqb].
    change (accountAddress None) with JsUndefined.
    destruct (ToBoolean (accountAddress walletClient)) eqn:Haccount;
      rewrite ?Haccount; reflexivity.
  - intros Hobject holder Hholder balance Hbalance.
    rewrite getBalance_handler_cases by exact Hobject.
    fold holder. rewrite Hholder, Hbalance. reflexivity.
Qed.

(** X6. Whatever it is given, the native-balance handler answers a string
    or throws an [Error] whose message starts with its own prefix; it
    never touches the decimals cache, and without any address it throws
    the missing-address error without reading a balance. *)
Theorem getBalance_outcome_shape
    (args : JsValue) (walletClient : option WalletClient.t) (env : ToolEnv) (cache : Cache) :
  let result := getBalance_handler args walletClient env cache in
  cache_after result = cache
  /\ ((exists text : string, outcome result = Normal (JsString text))
      \/ (exists text : string,
            outcome result = Throw (Error ("Failed to get balance: " ++ text))))
  /\ (is_nullish args = false ->
      ToBoolean (js_or (Get args "wallet") (accountAddress walletClient)) = false ->
      outcome result
      = Throw (Error "Failed to get balance: Error: No wallet address provided and no wallet client account available")).
Proof.
  cbv zeta. destruct (is_nullish args) eqn:Hnull.
  - rewrite getBalance_handler_nullish by exact Hnull.
    split; [reflexivity |]. split; [right; eexists; reflexivity | discriminate].
  - rewrite getBalance_handler_cases by exact Hnull.
    destruct (ToBoolean (js_or (Get args "wallet") (accountAddress walletClient))).
    + destruct (getBalance _) as [balance | error]; simpl;
        (split; [reflexivity |]); (split; [| discriminate]);
        [left | right]; eexists; reflexivity.
    + simpl. split; [reflexivity |]. split; [right; eexists; reflexivity | reflexivity].
Qed.

Lemma getTokenBalance_handler_guards (args : JsValue)
    (walletClient : option WalletClient.t) (env : ToolEnv) (cache : Cache) :
  is_nullish args = false ->
  let tokenName := Get args "tokenName" in
  let holder := js_or (Get args "wallet") (accountAddress walletClient) in
  getTokenBalance_handler args walletClient env cache
  = if negb (ToBoolean holder) then
      mkResult
        (Throw (Error "Failed to get token balance: Error: No wallet address provided and no wallet client account available"))
        cache
        [mkLog LvlError
           "Failed to get token balance: Error: No wallet address provided and no wallet client account available"]
    else if negb (ToBoolean tokenName) then
      mkResult (Throw (Error "Failed to get token balance: Error: Token name is required"))
        cache
        [mkLog LvlError "Failed to get token balance: Error: Token name is required"]
    else
      run_handler
        (h_try
           (h_bind
              (h_log LvlInfo ("Getting " ++ JS_String tokenName ++ " balance for "
                              ++ JS_String holder))
              (fun _ =>
                 h_bind (h_await (resolveToken tokenName))
                   (fun found => readTokenBalance (fst found) (snd found) holder)))
           rethrow_token_failure)
        cache.
Proof.
  intros Hobject tokenName holder.
  unfold getTokenBalance_handler.
  fold tokenName. fold holder.
  unfold run_handler at 1. unfold h_try at 1. unfold h_bind at 1.
  rewrite Hobject. cbn [h_ret].
  unfold h_bind at 1.
  destruct (ToBoolean holder); cbn [negb h_ret h_throw]; [| reflexivity].
  unfold h_bind at 1.
  destruct (ToBoolean tokenName); cbn [negb h_ret h_throw]; reflexivity.
Qed.

Lemma readTokenBalance_cases (foundTokenName tokenAddress : string) (holder : JsValue)
    (cache : Cache) (lines : list LogEntry) :
  let opening := mkLog LvlDebug ("Using token address: " ++ tokenAddress) in
  readTokenBalance foundTokenName tokenAddress holder (cache, lines)
  = match readContract tokenAddress ERC20 "balanceOf" [holder] with
    | Throw error => (Throw error, (cache, lines ++ [opening]))
    | Normal rawTokenBalance =>
        match fetchTokenDecimals tokenAddress (cache, lines ++ [opening]) with
        | (Normal d, (cache', lines')) =>
            (Normal (JsString (formatUnits rawTokenBalance d)),
             (cache',
              lines' ++ [mkLog LvlDebug (foundTokenName ++ " balance: "
                                         ++ formatUnits rawTokenBalance d)]))
        | (Throw error, s') => (Throw error, s')
        end
    end.
Proof.
  cbv zeta.
  unfold readTokenBalance, fetchTokenDecimalsAndFormatAmount, h_bind, h_log, h_await, h_ret.
  destruct (readContract tokenAddress ERC20 "balanceOf" [holder]) as [raw | error];
    [| reflexivity].
  destruct (fetchTokenDecimals tokenAddress _) as [[d | error] [cache' lines']];
    reflexivity.
Qed.

Lemma resolveToken_sound (tokenName : JsValue) (key address : string) :
  resolveToken tokenName = Normal (key, address) ->
  assoc key TOKEN = Some address /\ native address = false.
Proof.
  unfold resolveToken.
  cbn [Object_keys TOKEN map fst find_key].
  destruct (tokenName_toLowerCase tokenName) as [lowered | error]; [| discriminate].
  destruct (String.eqb (toLowerCase "WMON") lowered).
  - intro Heq. injection Heq as <- <-. split; reflexivity.
  - destruct (String.eqb (toLowerCase "MONAI") lowered); [| discriminate].
    intro Heq. injection Heq as <- <-. split; reflexivity.
Qed.

(** X7. The token-balance handler checks the address before the token
    name: without any address it throws the missing-address error whatever
    the token name is, and with an address but no token name it throws
    "Token name is required".  Neither path reads a contract or touches the
    decimals cache. *)
Theorem getTokenBalance_guards
    (args : JsValue) (walletClient : option WalletClient.t) (env : ToolEnv) (cache : Cache) :
  is_nullish args = false ->
  let holder := js_or (Get args "wallet") (accountAddress walletClient) in
  let result := getTokenBalance_handler args walletClient env cache in
  (ToBoolean holder = false ->
   outcome result
   = Throw (Error "Failed to get token balance: Error: No wallet address provided and no wallet client account available")
   /\ cache_after result = cache)
  /\ (ToBoolean holder = true ->
      ToBoolean (Get args "tokenName") = false ->
      outcome result = Throw (Error "Failed to get token balance: Error: Token name is required")
      /\ cache_after result = cache).
Proof.
  intros Hobject. cbv zeta.
  rewrite (getTokenBalance_handler_guards args walletClient env cache Hobject).
  split.
  - intros ->. split; reflexivity.
  - intros -> ->. split; reflexivity.
Qed.

(** X8. With an address and a token name that matches a key of [TOKEN],
    a balance that can be read is always answered: it is formatted with
    the decimals the cache holds for the token's address, or else with the
    decimals read from the contract, or with 18 when that read fails; in
    every case those decimals are cached.  A balance that cannot be read
    is the handler's error, and the cache is as before. *)
Theorem getTokenBalance_formats_the_balance
    (args : JsValue) (walletClient : option WalletClient.t) (env : ToolEnv) (cache : Cache)
    (s key address : string) :
  Get args "tokenName" = JsString s ->
  same_ignoring_case s key ->
  assoc key TOKEN = Some address ->
  let holder := js_or (Get args "wallet") (accountAddress walletClient) in
  ToBoolean holder = true ->
  let result := getTokenBalance_handler args walletClient env cache in
  (forall raw : Z,
      readContract address ERC20 "balanceOf" [holder] = Normal raw ->
      exists d : Z,
        outcome result = Normal (JsString (formatUnits raw d))
        /\ assoc address (cache_after result) = Some d
        /\ (forall d0, assoc address cache = Some d0 -> d = d0 /\ cache_after result = cache)
        /\ (assoc address cache = None ->
            match readContract address erc20Abi "decimals" [] with
            | Normal d1 => d = d1
            | Throw _ => d = 18%Z
            end))
  /\ (forall error : Thrown,
        readContract address ERC20 "balanceOf" [holder] = Throw error ->
        outcome result
        = Throw (Error ("Failed to get token balance: " ++ Thrown_toString error))
        /\ cache_after result = cache).
Proof.
  intros Hname Hsame Hentry holder Hholder. cbv zeta.
  assert (Hobject : is_nullish args = false).
  { destruct args; try reflexivity; discriminate. }
  assert (Hnonempty : ToBoolean (JsString s) = true).
  { simpl. rewrite (same_ignoring_case_nonempty s key Hsame); [reflexivity |].
    destruct (TOKEN_entries key address Hentry) as [[-> _] | [-> _]]; reflexivity. }
  pose proof (resolveToken_ignores_case key address s Hentry Hsame) as Hresolve.
  destruct (resolveToken_sound _ _ _ Hresolve) as [_ Hnative].
  rewrite (getTokenBalance_handler_guards args walletClient env cache Hobject).
  fold holder. rewrite Hname, Hholder, Hnonempty. cbn [negb].
  unfold run_handler, h_try, h_bind at 1, h_log.
  unfold h_bind, h_await. rewrite Hresolve. cbn [fst snd].
  rewrite readTokenBalance_cases.
  split.
  - intros raw ->.
    destruct (assoc address cache) as [d0 |] eqn:Hcache.
    + rewrite (fetchTokenDecimals_hit address cache _ d0 Hnative Hcache).
      exists d0. simpl. repeat split; auto; try discriminate; intros; congruence.
    + rewrite (fetchTokenDecimals_miss address cache _ Hnative Hcache).
      destruct (readContract address erc20Abi "decimals" []) as [d1 | e];
        eexists; simpl; (split; [reflexivity |]);
        (split; [apply assoc_Map_set_same |]);
        (split; [discriminate | reflexivity]).
  - intros error ->. simpl. split; reflexivity.
Qed.

(** X9. Whatever it is given, the token-balance handler answers a string
    or throws an [Error] whose message starts with its own prefix, and the
    only cache entries it can change are those of the addresses in
    [TOKEN]. *)
Theorem getTokenBalance_outcome_shape
    (args : JsValue) (walletClient : option WalletClient.t) (env : ToolEnv) (cache : Cache) :
  let result := getTokenBalance_handler args walletClient env cache in
  ((exists text : string, outcome result = Normal (JsString text))
   \/ (exists text : string,
         outcome result = Throw (Error ("Failed to get token balance: " ++ text))))
  /\ (forall other : string,
        (forall key address, assoc key TOKEN = Some address -> other <> address) ->
        assoc other (cache_after result) = assoc other cache).
Proof.
  cbv zeta. destruct (is_nullish args) eqn:Hnull.
  { unfold getTokenBalance_handler, run_handler, h_try, h_bind. rewrite Hnull. simpl.
    split; [right; eexists; reflexivity | reflexivity]. }
  rewrite (getTokenBalance_handler_guards args walletClient env cache Hnull).
  destruct (ToBoolean (js_or (Get args "wallet") (accountAddress walletClient)));
    cbn [negb]; [| simpl; split; [right; eexists; reflexivity | reflexivity]].
  destruct (ToBoolean (Get args "tokenName"));
    cbn [negb]; [| simpl; split; [right; eexists; reflexivity | reflexivity]].
  unfold run_handler, h_try, h_bind at 1, h_log.
  unfold h_bind, h_await.
  destruct (resolveToken (Get args "tokenName")) as [[key address] | error] eqn:Hresolve;
    [| simpl; split; [right; eexists; reflexivity | reflexivity]].
  destruct (resolveToken_sound _ _ _ Hresolve) as [Hentry Hnative].
  cbn [fst snd]. rewrite readTokenBalance_cases.
  destruct (readContract address ERC20 "balanceOf" _) as [raw | error];
    [| simpl; split; [right; eexists; reflexivity | reflexivity]].
  match goal with
  | |- context [fetchTokenDecimals address (?c, ?l)] =>
      destruct (fetchTokenDecimals_settles_frame address c l)
        as (d & cache' & lines' & Hfetch & Hframe)
  end.
  rewrite Hfetch. simpl.
  split; [left; eexists; reflexivity |].
  intros other Hother. apply Hframe. exact (Hother key address Hentry).
Qed.

(** ** Allowances and amounts *)

Section Allowance.
Variable parseUnits : string -> Z -> Z.
Variable writeContract : WriteRequest -> Completion string.
Variable waitForTransactionReceipt : string -> Completion string.

(** X10. [checkAndApproveAllowance] sends at most one write, and only the
    approval of exactly [amount] for [spender] on [token].  It sends none
    and succeeds for the native token and when the allowance read is
    already at least [amount]; it sends none and throws when the wallet
    client has no account. *)
Theorem checkAndApproveAllowance_writes_only_when_needed
    (walletClient : WalletClient.t) (token spender : string) (amount : Z) :
  let result :=
    checkAndApproveAllowance writeContract waitForTransactionReceipt
      walletClient token spender amount in
  let approval := mkWrite token erc20Abi "approve" [JsString spender; JsBigInt amount] in
  let owner := accountAddress (Some walletClient) in
  (allowance_writes result = [] \/ allowance_writes result = [approval])
  /\ (native token = true -> result = mkAllowance (Normal tt) [] [])
  /\ (native token = false ->
      ToBoolean owner = false ->
      result = mkAllowance (Throw (Error "Wallet client does not have an account")) [] [])
  /\ (native token = false ->
      ToBoolean owner = true ->
      forall allowance : Z,
        readContract token erc20Abi "allowance" [owner; JsString spender] = Normal allowance ->
        (amount <= allowance)%Z ->
        allowance_outcome result = Normal tt /\ allowance_writes result = []).
Proof.
  cbv zeta. unfold checkAndApproveAllowance. fold (native token).
  destruct (native token); [repeat split; auto; discriminate |].
  destruct (ToBoolean (accountAddress (Some walletClient))) eqn:Howner; cbn [negb].
  2:{ repeat split; auto; discriminate. }
  split.
  - destruct (readContract token erc20Abi "allowance" _) as [allowance | e]; [| auto].
    destruct (allowance <? amount)%Z; [| auto].
    destruct (writeContract _) as [hash | e]; [| auto].
    destruct (waitForTransactionReceipt hash) as [status | e]; [| auto].
    destruct (String.eqb status "success"); auto.
  - split; [discriminate |]. split; [discriminate |].
    intros _ _ allowance Hread Hle. rewrite Hread.
    assert (Hlt : (allowance <? amount)%Z = false) by (apply Z.ltb_ge; exact Hle).
    rewrite Hlt. split; reflexivity.
Qed.

(** X11. When the allowance read is below [amount], the approval is sent
    once, and the call succeeds exactly when the write answers a hash
    whose receipt has the status [success]; a receipt with another status
    is the error "Approval transaction failed", and a failure of the write
    or of the wait is thrown as it is. *)
Theorem checkAndApproveAllowance_approves_when_short
    (walletClient : WalletClient.t) (token spender : string) (amount allowance : Z) :
  let owner := accountAddress (Some walletClient) in
  let approval := mkWrite token erc20Abi "approve" [JsString spender; JsBigInt amount] in
  native token = false ->
  ToBoolean owner = true ->
  readContract token erc20Abi "allowance" [owner; JsString spender] = Normal allowance ->
  (allowance < amount)%Z ->
  let result :=
    checkAndApproveAllowance writeContract waitForTransactionReceipt
      walletClient token spender amount in
  allowance_writes result = [approval]
  /\ allowance_outcome result
     = match writeContract approval with
       | Throw error => Throw error
       | Normal approvalTx =>
           match waitForTransactionReceipt approvalTx with
           | Throw error => Throw error
           | Normal status =>
               if String.eqb status "success" then Normal tt
               else Throw (Error "Approval transaction failed")
           end
       end.
Proof.
  cbv zeta. intros Hnative Howner Hread Hlt.
  unfold checkAndApproveAllowance. fold (native token).
  rewrite Hnative, Howner. cbn [negb]. rewrite Hread.
  assert (Hltb : (allowance <? amount)%Z = true) by (apply Z.ltb_lt; exact Hlt).
  rewrite Hltb.
  destruct (writeContract _) as [hash | e]; [| split; reflexivity].
  destruct (waitForTransactionReceipt hash) as [status | e]; [| split; reflexivity].
  destruct (String.eqb status "success"); split; reflexivity.
Qed.

(** X12. Formatting and parsing agree on the decimals of a token: after
    [fetchTokenDecimalsAndFormatAmount], [fetchTokenDecimalsAndParseAmount]
    on the same token parses with the decimals the amount was formatted
    with, and changes neither the cache nor the log. *)
Theorem parse_after_format_uses_the_same_decimals
    (token : string) (formatted parsed : Z) (s : Cache * list LogEntry) :
  exists d : Z,
    fst (fetchTokenDecimalsAndFormatAmount token formatted s)
    = Normal (formatUnits formatted d)
    /\ fetchTokenDecimalsAndParseAmount parseUnits token parsed
         (snd (fetchTokenDecimalsAndFormatAmount token formatted s))
       = (Normal (parseUnits (JS_String (JsBigInt parsed)) d),
          snd (fetchTokenDecimalsAndFormatAmount token formatted s)).
Proof.
  destruct s as [cache lines].
  pose proof (fetchTokenDecimals_is_stable_helper H1 token (cache, lines)) as Hstable.
  destruct (fetchTokenDecimals_settles_frame token cache lines)
    as (d & cache' & lines' & Hfetch & _).
  rewrite Hfetch in Hstable. simpl in Hstable.
  exists d.
  unfold fetchTokenDecimalsAndFormatAmount, fetchTokenDecimalsAndParseAmount, h_bind, h_ret.
  rewrite Hfetch. simpl. rewrite Hstable. split; reflexivity.
Qed.

End Allowance.

(** ** Setting the session up *)

Lemma initialize_assistant_cases (a : MonAIAgent) (w : World R) :
  let params := assistant_params a (toolRegistry w) in
  let create (r0 : R) (evs : list Event) :=
    match assistants_create params r0 with
    | (Normal y, r2) =>
        (Ret tt,
         (set_assistantId (Assistant.id y) (set_assistant (Some y) a),
          mkWorld r2 (toolRegistry w) (tokenDecimalsCache w)
                  (evs ++ [EvRemote (AssistantsCreate params)])))
    | (Throw e, r2) =>
        (Raise e,
         (a, mkWorld r2 (toolRegistry w) (tokenDecimalsCache w)
                     (evs ++ [EvRemote (AssistantsCreate params)])))
    end in
  initialize_assistant (a, w)
  = match assistant a with
    | Some _ => create (remote w) (events w)
    | None =>
        match assistants_retrieve (assistantId a) (remote w) with
        | (Normal x, r1) =>
            (Ret tt,
             (set_assistant (Some x) a,
              mkWorld r1 (toolRegistry w) (tokenDecimalsCache w)
                      (events w ++ [EvRemote (AssistantsRetrieve (assistantId a))])))
        | (Throw _, r1) =>
            create r1 (events w ++ [EvRemote (AssistantsRetrieve (assistantId a))])
        end
    end.
Proof.
  cbv zeta.
  unfold initialize_assistant, retrieveAssistant, createAssistant, assistant_params.
  unfold bind, try_catch, this, initTools, assign, await.
  destruct (assistant a); cbn beta iota.
  - match goal with
    | |- context [assistants_create ?p ?r] => destruct (assistants_create p r) as [[y | e] r2]
    end; reflexivity.
  - destruct (assistants_retrieve (assistantId a) (remote w)) as [[x | e] r1];
      cbn beta iota; [reflexivity |].
    cbn [remote toolRegistry tokenDecimalsCache events].
    match goal with
    | |- context [assistants_create ?p ?r] => destruct (assistants_create p r) as [[y | e'] r2]
    end; reflexivity.
Qed.

Lemma initialize_thread_cases (a : MonAIAgent) (w : World R) :
  let op := if is_empty (threadID a) then ThreadsCreate else ThreadsRetrieve (threadID a) in
  let answer :=
    if is_empty (threadID a) then threads_create (remote w)
    else threads_retrieve (threadID a) (remote w) in
  let w' := mkWorld (snd answer) (toolRegistry w) (tokenDecimalsCache w)
                    (events w ++ [EvRemote op]) in
  initialize_thread (a, w)
  = match fst answer with
    | Normal x => (Ret tt, (set_thread (Some x) a, w'))
    | Throw e => (Raise e, (a, w'))
    end.
Proof.
  cbv zeta.
  unfold initialize_thread, createThread, retrieveThread.
  unfold bind, this, assign, await, ret.
  destruct (is_empty (threadID a)); cbn beta iota.
  - destruct (threads_create (remote w)) as [[x | e] r1]; reflexivity.
  - destruct (threads_retrieve (threadID a) (remote w)) as [[x | e] r1]; reflexivity.
Qed.

(** Case analysis on the answer of the thread operation. *)
Ltac thread_answer x e :=
  match goal with
  | |- context [fst (if ?b then ?c else ?d)] =>
      destruct (if b then c else d) as [[x | e] ?]; cbn [fst snd]
  | H : context [fst (if ?b then ?c else ?d)] |- _ =>
      destruct (if b then c else d) as [[x | e] ?]; cbn [fst snd] in H
  end.

Lemma assistant_ops_app (l1 l2 : list Event) :
  assistant_ops (l1 ++ l2) = assistant_ops l1 ++ assistant_ops l2.
Proof. unfold assistant_ops. rewrite remote_ops_app, filter_app. reflexivity. Qed.

(** What the rest of [initialize] keeps of the assistant step. *)
Lemma initialize_after_assistant (a a1 : MonAIAgent) (w w1 : World R) :
  isInitialized a = false ->
  initialize_assistant (a, w) = (Ret tt, (a1, w1)) ->
  assistant (fst (snd (initialize (a, w)))) = assistant a1
  /\ assistantId (fst (snd (initialize (a, w)))) = assistantId a1
  /\ assistant_ops (events (snd (snd (initialize (a, w))))) = assistant_ops (events w1).
Proof.
  intros Hflag Hstep.
  unfold initialize, bind, this. rewrite Hflag, Hstep.
  rewrite initialize_thread_cases. cbv zeta.
  thread_answer x e; simpl; rewrite assistant_ops_app;
    destruct (is_empty (threadID a1)); simpl; rewrite app_nil_r; auto.
Qed.

(** X13. On a session that holds no assistant yet, [initialize] first
    tries to retrieve the configured assistant; when that succeeds the
    retrieved assistant is kept, no assistant is created and
    [assistantId] stays what it was. *)
Theorem initialize_prefers_retrieval
    (a : MonAIAgent) (w : World R) (x : Assistant.t) (r1 : R) :
  isInitialized a = false ->
  assistant a = None ->
  assistants_retrieve (assistantId a) (remote w) = (Normal x, r1) ->
  let after := snd (initialize (a, w)) in
  assistant (fst after) = Some x
  /\ assistantId (fst after) = assistantId a
  /\ assistant_ops (events (snd after))
     = assistant_ops (events w) ++ [AssistantsRetrieve (assistantId a)].
Proof.
  intros Hflag Hnone Hretrieve. cbv zeta.
  pose proof (initialize_assistant_cases a w) as Hstep. cbv zeta in Hstep.
  rewrite Hnone, Hretrieve in Hstep.
  destruct (initialize_after_assistant a _ w _ Hflag Hstep) as (-> & -> & ->).
  simpl. rewrite assistant_ops_app. auto.
Qed.

(** X14. When the retrieval fails, whatever the error, [initialize]
    creates one assistant: with the model, temperature and name of the
    code, the session's prompts as instructions and the definitions of
    all registered tools as [Object.values] lists them.  The created assistant and
    its identity are what the session holds afterwards. *)
Theorem initialize_falls_back_to_creation
    (a : MonAIAgent) (w : World R) (e : Thrown) (y : Assistant.t) (r1 r2 : R) :
  isInitialized a = false ->
  assistant a = None ->
  assistants_retrieve (assistantId a) (remote w) = (Throw e, r1) ->
  assistants_create (assistant_params a (toolRegistry w)) r1 = (Normal y, r2) ->
  let after := snd (initialize (a, w)) in
  assistant (fst after) = Some y
  /\ assistantId (fst after) = Assistant.id y
  /\ assistant_ops (events (snd after))
     = assistant_ops (events w)
         ++ [AssistantsRetrieve (assistantId a);
             AssistantsCreate (assistant_params a (toolRegistry w))].
Proof.
  intros Hflag Hnone Hretrieve Hcreate. cbv zeta.
  pose proof (initialize_assistant_cases a w) as Hstep. cbv zeta in Hstep.
  rewrite Hnone, Hretrieve, Hcreate in Hstep.
  destruct (initialize_after_assistant a _ w _ Hflag Hstep) as (-> & -> & ->).
  simpl. rewrite !assistant_ops_app, <- app_assoc. auto.
Qed.

(** X15. When neither the retrieval nor the creation of the assistant
    succeeds, [initialize] throws the error of the creation (the error of
    the retrieval is dropped), the session is what it was and no thread
    operation has been issued. *)
Theorem initialize_throws_the_creation_error
    (a : MonAIAgent) (w : World R) (e e' : Thrown) (r1 r2 : R) :
  isInitialized a = false ->
  assistant a = None ->
  assistants_retrieve (assistantId a) (remote w) = (Throw e, r1) ->
  assistants_create (assistant_params a (toolRegistry w)) r1 = (Throw e', r2) ->
  initialize (a, w)
  = (Raise e',
     (a, mkWorld r2 (toolRegistry w) (tokenDecimalsCache w)
           (events w
              ++ [EvRemote (AssistantsRetrieve (assistantId a));
                  EvRemote (AssistantsCreate (assistant_params a (toolRegistry w)))]))).
Proof.
  intros Hflag Hnone Hretrieve Hcreate.
  pose proof (initialize_assistant_cases a w) as Hstep. cbv zeta in Hstep.
  rewrite Hnone, Hretrieve, Hcreate in Hstep.
  unfold initialize, bind, this. rewrite Hflag, Hstep.
  rewrite <- app_assoc. reflexivity.
Qed.

Lemma initialize_assistant_sets_assistant (a a1 : MonAIAgent) (w w1 : World R) :
  initialize_assistant (a, w) = (Ret tt, (a1, w1)) ->
  assistant a1 <> None /\ isInitialized a1 = isInitialized a /\ thread a1 = thread a.
Proof.
  rewrite initialize_assistant_cases. cbv zeta.
  destruct (assistant a).
  - destruct (assistants_create _ _) as [[y | e] r2]; [| discriminate].
    intro Heq. injection Heq as <- _. simpl. repeat split. discriminate.
  - destruct (assistants_retrieve _ _) as [[x | e] r1].
    + intro Heq. injection Heq as <- _. simpl. repeat split. discriminate.
    + destruct (assistants_create _ _) as [[y | e'] r2]; [| discriminate].
      intro Heq. injection Heq as <- _. simpl. repeat split. discriminate.
Qed.

Lemma initialize_assistant_settles (a : MonAIAgent) (w : World R) :
  fst (initialize_assistant (a, w)) <> OutOfFuel
  /\ (forall e, fst (initialize_assistant (a, w)) = Raise e ->
                fst (snd (initialize_assistant (a, w))) = a).
Proof.
  rewrite initialize_assistant_cases. cbv zeta.
  destruct (assistant a).
  - destruct (assistants_create _ _) as [[y | e] r2]; simpl;
      split; try discriminate; auto.
  - destruct (assistants_retrieve _ _) as [[x | e] r1]; simpl.
    + split; discriminate.
    + destruct (assistants_create _ _) as [[y | e'] r2]; simpl;
        split; try discriminate; auto.
Qed.

(** The outcome of [initialize] on a session whose flag is not set. *)
Lemma initialize_outcome (a : MonAIAgent) (w : World R) :
  isInitialized a = false ->
  let result := fst (initialize (a, w)) in
  let a' := fst (snd (initialize (a, w))) in
  result <> OutOfFuel
  /\ (isInitialized a' = true <-> result = Ret tt)
  /\ (result = Ret tt -> assistant a' <> None /\ thread a' <> None).
Proof.
  intros Hflag. cbv zeta.
  unfold initialize, bind, this. rewrite Hflag.
  pose proof (initialize_assistant_settles a w) as [Hfuel Hkeep].
  destruct (initialize_assistant (a, w)) as [[[] | e |] [a1 w1]] eqn:Hstep;
    simpl in Hfuel, Hkeep.
  - destruct (initialize_assistant_sets_assistant a a1 w w1 Hstep)
      as (Hassistant & Hflag1 & _).
    rewrite initialize_thread_cases. cbv zeta.
    thread_answer x e; simpl.
    + split; [discriminate |]. split; [split; auto |].
      intros _. split; [exact Hassistant | discriminate].
    + split; [discriminate |]. rewrite Hflag1, Hflag.
      split; [split; discriminate | discriminate].
  - simpl. rewrite (Hkeep e eq_refl), Hflag.
    split; [discriminate |]. split; [split; discriminate | discriminate].
  - congruence.
Qed.

(** X16. [initialize] sets the initialization flag exactly when it
    returns normally; it then holds an assistant and a thread.  A call
    that throws leaves the flag unset. *)
Theorem initialize_sets_the_flag_only_on_success (a : MonAIAgent) (w : World R) :
  isInitialized a = false ->
  let result := fst (initialize (a, w)) in
  let a' := fst (snd (initialize (a, w))) in
  result <> OutOfFuel
  /\ (isInitialized a' = true <-> result = Ret tt)
  /\ (result = Ret tt -> assistant a' <> None /\ thread a' <> None).
Proof.
  exact (initialize_outcome a w).
Qed.

(** X17. A session whose first [initialize] failed at the thread step
    holds the assistant of that attempt with the flag unset; the next
    [initialize] does not try to retrieve it and creates another
    assistant. *)
Theorem initialize_again_creates_another_assistant
    (a a1 a2 : MonAIAgent) (w w1 w2 : World R) (e : Thrown) :
  isInitialized a = false ->
  initialize_assistant (a, w) = (Ret tt, (a1, w1)) ->
  initialize_thread (a1, w1) = (Raise e, (a2, w2)) ->
  initialize (a, w) = (Raise e, (a2, w2))
  /\ isInitialized a2 = false
  /\ assistant a2 <> None
  /\ assistant_ops (events (snd (snd (initialize (a2, w2)))))
     = assistant_ops (events w2)
         ++ [AssistantsCreate (assistant_params a2 (toolRegistry w2))].
Proof.
  intros Hflag Hstep Hthread.
  destruct (initialize_assistant_sets_assistant a a1 w w1 Hstep) as (Hassistant & Hflag1 & _).
  assert (Hsame : a2 = a1).
  { rewrite initialize_thread_cases in Hthread. cbv zeta in Hthread.
    thread_answer x e'; [discriminate |]. injection Hthread as _ <- _. reflexivity. }
  subst a2. rewrite Hflag in Hflag1.
  split; [unfold initialize, bind, this; rewrite Hflag, Hstep, Hthread; reflexivity |].
  split; [exact Hflag1 |]. split; [exact Hassistant |].
  destruct (assistant a1) as [x |] eqn:Hheld; [| congruence].
  pose proof (initialize_assistant_cases a1 w2) as Hagain. cbv zeta in Hagain.
  rewrite Hheld in Hagain.
  destruct (assistants_create (assistant_params a1 (toolRegistry w2)) (remote w2))
    as [[y | e'] r2] eqn:Hcreate.
  - destruct (initialize_after_assistant a1 _ w2 _ Hflag1 Hagain) as (_ & _ & ->).
    simpl. rewrite assistant_ops_app. reflexivity.
  - unfold initialize, bind, this. rewrite Hflag1, Hagain. simpl.
    rewrite assistant_ops_app. reflexivity.
Qed.

(** ** The trace only grows *)

Lemma grows_ret {A} (x : A) : grows (@ret R A x).
Proof. intros a w. exists []. simpl. rewrite app_nil_r. reflexivity. Qed.

Lemma grows_raise {A} (e : Thrown) : grows (@raise R A e).
Proof. intros a w. exists []. simpl. rewrite app_nil_r. reflexivity. Qed.

Lemma grows_out_of_fuel {A} : grows (@out_of_fuel R A).
Proof. intros a w. exists []. simpl. rewrite app_nil_r. reflexivity. Qed.

Lemma grows_this : grows (@this R).
Proof. intros a w. exists []. simpl. rewrite app_nil_r. reflexivity. Qed.

Lemma grows_log (lvl : LogLevel) (msg : string) : grows (@log R lvl msg).
Proof. intros a w. eexists. reflexivity. Qed.

Lemma grows_sleep (ms : Z) : grows (@sleep R ms).
Proof. intros a w. eexists. reflexivity. Qed.

Lemma grows_await {A} (op : RemoteOp) (call : R -> Completion A * R) :
  grows (await op call).
Proof.
  intros a w. unfold await.
  destruct (call (remote w)) as [[x | e] r']; eexists; reflexivity.
Qed.

Lemma grows_bind {A B} (m : @M R A) (k : A -> @M R B) :
  grows m -> (forall x, grows (k x)) -> grows (bind m k).
Proof.
  intros Hm Hk a w. unfold bind.
  destruct (Hm a w) as [more Hmore].
  destruct (m (a, w)) as [[x | e |] [a1 w1]]; simpl in *; eauto.
  destruct (Hk x a1 w1) as [more' Hmore'].
  exists (more ++ more'). rewrite Hmore', Hmore, app_assoc. reflexivity.
Qed.

Lemma grows_handleRunToolCalls (run : Run.t) (thread : Thread.t) :
  grows (handleRunToolCalls run thread).
Proof.
  intros a w. unfold handleRunToolCalls.
  destruct (pending_tool_calls run) as [[| tool rest] |];
    try (exists []; simpl; rewrite app_nil_r; reflexivity).
  pose proof (dispatchRound_quiet a (tool :: rest) w) as (_ & _ & more & Hmore & _).
  destruct (dispatchRound a (tool :: rest) w) as [[| o os] w1]; simpl in Hmore.
  - exists (more ++ [EvLog (mkLog LvlInfo
                             ("No valid tool outputs to submit for run " ++ Run.id run))]).
    simpl. rewrite Hmore, app_assoc. reflexivity.
  - destruct (grows_await (RunsSubmitToolOutputsAndPoll (Thread.id thread) (Run.id run)
                             (o :: os))
                (runs_submitToolOutputsAndPoll (Thread.id thread) (Run.id run) (o :: os))
                a w1) as [more' Hmore'].
    exists (more ++ more'). rewrite Hmore', Hmore, app_assoc. reflexivity.
Qed.

Lemma grows_pollRun (fuel : nat) : forall run : Run.t, grows (pollRun fuel run).
Proof.
  induction fuel as [| fuel IH]; intro run; simpl;
    destruct (Run.status run);
    try apply grows_ret; try apply grows_out_of_fuel;
    (apply grows_bind; [apply grows_sleep | intros _];
     apply grows_bind; [apply grows_this | intro a];
     apply grows_bind; [apply grows_await | intro run']; apply IH).
Qed.

Lemma grows_createRun (fuel : nat) : grows (createRun fuel).
Proof.
  unfold createRun.
  apply grows_bind; [apply grows_this | intro a].
  apply grows_bind; [apply grows_log | intros _].
  apply grows_bind; [apply grows_await | intro run].
  apply grows_pollRun.
Qed.

Lemma grows_driveRun (thread : Thread.t) (fuel : nat) :
  forall run : Run.t, grows (driveRun fuel run thread).
Proof.
  induction fuel as [| fuel IH]; intro run; simpl;
    destruct (awaits_tool_outputs run);
    try apply grows_ret; try apply grows_out_of_fuel.
  apply grows_bind; [apply grows_handleRunToolCalls | intro next; apply IH].
Qed.

Lemma grows_performRun (fuel : nat) (run : Run.t) (thread : Thread.t) :
  grows (performRun fuel run thread).
Proof.
  unfold performRun.
  apply grows_bind; [apply grows_driveRun | intro currentRun].
  apply grows_bind; [apply grows_log | intros _].
  destruct (Run.status currentRun); try apply grows_ret.
  apply grows_bind; [apply grows_await | intro messages].
  destruct messages as [| lastMessage rest]; [apply grows_raise |].
  destruct (Message.role lastMessage); [apply grows_ret |].
  destruct (Message.content lastMessage) as [| block blocks]; [apply grows_raise |].
  destruct (String.eqb _ _); apply grows_ret.
Qed.

(** ** The session invariant *)

Lemma set_up_initialize : preserves set_up (@initialize R _).
Proof.
  intros a w Ha.
  destruct (isInitialized a) eqn:Hflag.
  - rewrite initialize_when_initialized by exact Hflag. exact Ha.
  - destruct (initialize_outcome a w Hflag) as (_ & Hiff & Hheld).
    intro Hafter. apply Hheld, Hiff, Hafter.
Qed.

(** X18. The flag never stands without an assistant and a thread: a
    constructed session has the flag unset and holds neither, and
    [initialize] and [sendMessage] keep "flag set implies assistant and
    thread held", however they end. *)
Theorem session_stays_set_up :
  (forall (config : Config.t) (a : MonAIAgent),
      constructor config = Normal a ->
      isInitialized a = false /\ assistant a = None /\ thread a = None /\ set_up a)
  /\ preserves set_up (@initialize R _)
  /\ (forall (fuel : nat) (message : string),
        preserves set_up (@sendMessage R _ _ fuel message)).
Proof.
  split; [| split].
  - intros config a. unfold constructor.
    destruct (match Config.walletClient config with
              | Some wc => Normal wc
              | None => createViemWalletClient
              end) as [wc | e]; [| discriminate].
    intro Heq. injection Heq as <-. repeat split; discriminate.
  - exact set_up_initialize.
  - intros fuel message. apply preserves_sendMessage, set_up_initialize.
Qed.

(** X19. On a session that is set up in that sense, the guard
    "MonAIAgent not initialized properly" never stops [sendMessage]:
    unless the lazy [initialize] itself fails, the user's message is
    appended to the thread the session holds. *)
Theorem sendMessage_appends_the_message
    (a : MonAIAgent) (w : World R) (fuel : nat) (message : string) :
  set_up a ->
  (isInitialized a = true \/ fst (initialize (a, w)) = Ret tt) ->
  let after := snd (sendMessage fuel message (a, w)) in
  exists th : Thread.t,
    thread (fst after) = Some th
    /\ In (EvRemote (MessagesCreate (Thread.id th) RoleUser message)) (events (snd after)).
Proof.
  intros Ha Hready. cbv zeta.
  assert (Hlazy : exists a1 w1 asst th,
             (if negb (isInitialized a) then initialize else ret tt) (a, w)
             = (Ret tt, (a1, w1))
             /\ assistant a1 = Some asst /\ thread a1 = Some th).
  { destruct (isInitialized a) eqn:Hflag; cbn [negb].
    - destruct (Ha Hflag) as [Hassistant Hthread].
      destruct (assistant a) as [asst |] eqn:Hasst; [| congruence].
      destruct (thread a) as [th |] eqn:Hth; [| congruence].
      exists a, w, asst, th. auto.
    - destruct Hready as [Habs | Hok]; [discriminate |].
      destruct (initialize_outcome a w Hflag) as (_ & _ & Hheld).
      destruct (Hheld Hok) as [Hassistant Hthread].
      destruct (initialize (a, w)) as [r [a1 w1]]. simpl in *. subst r.
      destruct (assistant a1) as [asst |] eqn:Hasst; [| congruence].
      destruct (thread a1) as [th |] eqn:Hth; [| congruence].
      exists a1, w1, asst, th. auto. }
  destruct Hlazy as (a1 & w1 & asst & th & Hstep & Hasst & Hth).
  exists th.
  pose (rest := fun run : Run.t =>
          bind (performRun fuel run th)
            (fun result : option ContentBlock =>
               match result with
               | Some (TextContentBlock value) => @ret R string value
               | Some _ =>
                   bind (log LvlInfo "[object Object]")
                     (fun _ => raise (Error "Unexpected response format"))
               | None =>
                   bind (log LvlInfo "null")
                     (fun _ => raise (Error "Unexpected response format"))
               end)).
  pose (w3 := fun r1 : R =>
          mkWorld r1 (toolRegistry w1) (tokenDecimalsCache w1)
            ((events w1
                ++ [EvLog (mkLog LvlInfo
                             ("Sending message: " ++ message ++ " for wallet "
                              ++ JS_String (accountAddress (Some (walletClient a1)))))])
               ++ [EvRemote (MessagesCreate (Thread.id th) RoleUser message)])).
  assert (Heq : sendMessage fuel message (a, w)
                = match messages_create (Thread.id th) RoleUser message (remote w1) with
                  | (Normal _, r1) => bind (createRun fuel) rest (a1, w3 r1)
                  | (Throw e, r1) => (Raise e, (a1, w3 r1))
                  end).
  { unfold sendMessage. unfold bind at 1. unfold this at 1. cbv beta iota.
    unfold bind at 1. rewrite Hstep. unfold bind at 1. unfold this at 1. cbv beta iota.
    rewrite Hasst, Hth.
    unfold bind at 1. unfold log at 1. cbv beta iota.
    unfold bind at 1. unfold await at 1. cbv beta iota.
    unfold log_to, emit. cbn [remote toolRegistry tokenDecimalsCache events].
    destruct (messages_create (Thread.id th) RoleUser message (remote w1))
      as [[[] | e] r1]; reflexivity. }
  rewrite Heq. clear Heq.
  assert (Hrest : forall run, preserves (fun x => thread x = Some th) (rest run)
                              /\ grows (rest run)).
  { intro run. unfold rest. split.
    - apply preserves_bind; [apply preserves_performRun | intro result].
      destruct result as [[value | f | u | rf] |];
        try apply preserves_ret;
        (apply preserves_bind; [apply preserves_log | intros _; apply preserves_raise]).
    - apply grows_bind; [apply grows_performRun | intro result].
      destruct result as [[value | f | u | rf] |];
        try apply grows_ret;
        (apply grows_bind; [apply grows_log | intros _; apply grows_raise]). }
  destruct (messages_create (Thread.id th) RoleUser message (remote w1)) as [[[] | e] r1].
  - split.
    + apply (preserves_bind (fun x => thread x = Some th));
        [apply preserves_createRun | intro run; apply Hrest | exact Hth].
    + destruct (grows_bind (createRun fuel) rest (grows_createRun fuel)
                  (fun run => proj2 (Hrest run)) a1 (w3 r1)) as [more Hmore].
      rewrite Hmore. simpl. apply in_or_app. left. apply in_or_app. right. left.
      reflexivity.
  - simpl. split; [exact Hth |]. apply in_or_app. right. left. reflexivity.
Qed.

(** ** Polling and the end of a run *)

Lemma pollRun_settled (fuel : nat) (run : Run.t) (s : MonAIAgent * World R) :
  transient run = false -> pollRun fuel run s = (Ret run, s).
Proof.
  unfold transient. intro Hstatus.
  destruct fuel; simpl; destruct (Run.status run); try discriminate; reflexivity.
Qed.

Lemma pollRun_polls (n : nat) (run final : Run.t) (r r' : R) (trace : list Event)
    (a : MonAIAgent) :
  polls (threadID a) n run r trace final r' ->
  forall (w : World R),
    remote w = r ->
    (forall fuel, n <= fuel ->
       pollRun fuel run (a, w)
       = (Ret final,
          (a, mkWorld r' (toolRegistry w) (tokenDecimalsCache w) (events w ++ trace))))
    /\ (forall fuel, fuel < n -> fst (pollRun fuel run (a, w)) = OutOfFuel).
Proof.
  induction 1 as [run r Hsettled | n run next final r r1 r' trace Hrun Hfetch Hrest IH];
    intros w Hr.
  - split.
    + intros fuel _. rewrite pollRun_settled by exact Hsettled.
      destruct w; simpl in *. subst. rewrite app_nil_r. reflexivity.
    + intros fuel Hlt. lia.
  - assert (Hstep : forall fuel,
               pollRun (S fuel) run (a, w)
               = pollRun fuel next
                   (a, mkWorld r1 (toolRegistry w) (tokenDecimalsCache w)
                         ((events w ++ [EvSleep 1000])
                            ++ [EvRemote (RunsRetrieve (threadID a) (Run.id run))]))).
    { intro fuel. cbn [pollRun]. unfold transient in Hrun.
      destruct (Run.status run); try discriminate;
        unfold bind, sleep, this, await, emit;
        cbn [remote toolRegistry tokenDecimalsCache events];
        rewrite Hr, Hfetch; reflexivity. }
    split.
    + intros [| fuel] Hle; [lia |].
      rewrite Hstep.
      destruct (IH (mkWorld r1 (toolRegistry w) (tokenDecimalsCache w)
                      ((events w ++ [EvSleep 1000])
                         ++ [EvRemote (RunsRetrieve (threadID a) (Run.id run))]))
                  eq_refl) as [Hdone _].
      rewrite Hdone by lia. cbn [remote toolRegistry tokenDecimalsCache events].
      rewrite <- !app_assoc. reflexivity.
    + intros [| fuel] Hlt.
      * cbn [pollRun]. unfold transient in Hrun.
        destruct (Run.status run); try discriminate; reflexivity.
      * rewrite Hstep.
        destruct (IH (mkWorld r1 (toolRegistry w) (tokenDecimalsCache w)
                        ((events w ++ [EvSleep 1000])
                           ++ [EvRemote (RunsRetrieve (threadID a) (Run.id run))]))
                    eq_refl) as [_ Hout].
        apply Hout. lia.
Qed.

Lemma polls_shape {threadId : string} {n : nat} {run final : Run.t} {r r' : R}
    {trace : list Event} :
  polls threadId n run r trace final r' ->
  transient final = false
  /\ length trace = 2 * n
  /\ length (remote_ops trace) = n.
Proof.
  induction 1 as [run r Hsettled | n run next final r r1 r' trace Hrun Hfetch Hrest IH].
  - auto.
  - destruct IH as (Hfinal & Hlen & Hops). simpl. repeat split; auto; lia.
Qed.

(** X20. [createRun] fetches the run once for each poll in which its
    status is still [queued] or [in_progress], waits one second before
    each fetch, and returns the first run whose status is neither: with
    fuel for those [n] polls it returns that run with exactly [n] fetches
    in the trace, and with less fuel it is still polling. *)
Theorem createRun_polls_until_settled
    (a : MonAIAgent) (w : World R) (n : nat) (run0 final : Run.t) (r r' : R)
    (trace : list Event) :
  runs_create (threadID a) (assistantId a) (remote w) = (Normal run0, r) ->
  polls (threadID a) n run0 r trace final r' ->
  let started :=
    [EvLog (mkLog LvlInfo
              ("Running for thread " ++ threadID a ++ " with assistant " ++ assistantId a));
     EvRemote (RunsCreate (threadID a) (assistantId a))] in
  (forall fuel, n <= fuel ->
     createRun fuel (a, w)
     = (Ret final,
        (a, mkWorld r' (toolRegistry w) (tokenDecimalsCache w)
              (events w ++ started ++ trace))))
  /\ (forall fuel, fuel < n -> fst (createRun fuel (a, w)) = OutOfFuel)
  /\ transient final = false
  /\ length (remote_ops trace) = n
  /\ length trace = 2 * n.
Proof.
  intros Hcreate Hpolls. cbv zeta.
  destruct (polls_shape Hpolls) as (Hfinal & Hlen & Hops).
  assert (Hstart : forall fuel,
             createRun fuel (a, w)
             = pollRun fuel run0
                 (a, mkWorld r (toolRegistry w) (tokenDecimalsCache w)
                       ((events w
                           ++ [EvLog (mkLog LvlInfo
                                        ("Running for thread " ++ threadID a
                                         ++ " with assistant " ++ assistantId a))])
                          ++ [EvRemote (RunsCreate (threadID a) (assistantId a))]))).
  { intro fuel. unfold createRun, bind, this, log, log_to, emit, await.
    cbn [remote toolRegistry tokenDecimalsCache events]. rewrite Hcreate. reflexivity. }
  destruct (pollRun_polls n run0 final r r' trace a Hpolls
              (mkWorld r (toolRegistry w) (tokenDecimalsCache w)
                 ((events w
                     ++ [EvLog (mkLog LvlInfo
                                  ("Running for thread " ++ threadID a
                                   ++ " with assistant " ++ assistantId a))])
                    ++ [EvRemote (RunsCreate (threadID a) (assistantId a))]))
              eq_refl) as [Hdone Hout].
  split; [| split; [| auto]].
  - intros fuel Hle. rewrite Hstart, Hdone by exact Hle.
    cbn [remote toolRegistry tokenDecimalsCache events].
    rewrite <- !app_assoc. reflexivity.
  - intros fuel Hlt. rewrite Hstart. apply Hout, Hlt.
Qed.

(** X21. A run that comes back from [createRun] neither completed nor
    asking for tool outputs (failed, cancelled, expired, ...) ends
    [sendMessage] with the error "Unexpected response format", whatever
    the fuel: the thread's messages are not listed and nothing is retried. *)
Theorem sendMessage_reports_an_unfinished_run
    (a : MonAIAgent) (w : World R) (message : string) (fuel : nat)
    (asst : Assistant.t) (th : Thread.t) (run0 : Run.t) (r1 r2 : R) :
  isInitialized a = true ->
  assistant a = Some asst ->
  thread a = Some th ->
  messages_create (Thread.id th) RoleUser message (remote w) = (Normal tt, r1) ->
  runs_create (threadID a) (assistantId a) r1 = (Normal run0, r2) ->
  transient run0 = false ->
  awaits_tool_outputs run0 = false ->
  Run.status run0 <> completed ->
  sendMessage fuel message (a, w)
  = (Raise (Error "Unexpected response format"),
     (a, mkWorld r2 (toolRegistry w) (tokenDecimalsCache w)
           (events w
              ++ [EvLog (mkLog LvlInfo
                           ("Sending message: " ++ message ++ " for wallet "
                            ++ JS_String (accountAddress (Some (walletClient a)))));
                  EvRemote (MessagesCreate (Thread.id th) RoleUser message);
                  EvLog (mkLog LvlInfo
                           ("Running for thread " ++ threadID a ++ " with assistant "
                            ++ assistantId a));
                  EvRemote (RunsCreate (threadID a) (assistantId a));
                  EvLog (mkLog LvlInfo (JSON_stringify run0));
                  EvLog (mkLog LvlInfo "null")]))).
Proof.
  intros Hflag Hasst Hthread Hmsg Hcreate Hsettled Hidle Hopen.
  assert (Hloop : forall s, driveRun fuel run0 th s = (Ret run0, s)).
  { intro s. destruct fuel; simpl; rewrite Hidle; reflexivity. }
  unfold sendMessage, bind, this. rewrite Hflag. cbn [negb]. unfold ret.
  rewrite Hasst, Hthread.
  unfold log, log_to, emit, await. cbn [remote toolRegistry tokenDecimalsCache events].
  rewrite Hmsg.
  unfold createRun, bind, this, log, log_to, emit, await.
  cbn [remote toolRegistry tokenDecimalsCache events].
  rewrite Hcreate, pollRun_settled by exact Hsettled.
  unfold performRun, bind. rewrite Hloop. unfold log, log_to, emit, ret.
  destruct (Run.status run0); try congruence;
    cbn [remote toolRegistry tokenDecimalsCache events];
    rewrite <- !app_assoc; reflexivity.
Qed.

(** ** More on the dispatch round *)

(** X22. A call to a registered tool whose arguments do not parse is
    answered with "Error: " followed by the message of the parse error;
    its handler is not run, so the call leaves the process as it found
    it, and the calls around it are answered as without it. *)
Theorem malformed_arguments_skip_the_handler
    (a : MonAIAgent) (w : World R) (before after : list ToolCall.t) (tool : ToolCall.t)
    (toolConfig : Tool.t) (error : Thrown) :
  assoc (ToolCall.name tool) (toolRegistry w) = Some toolConfig ->
  JSON_parse (ToolCall.arguments tool) = Throw error ->
  let w1 := snd (allSettled a (toolRegistry w) before w) in
  toolCallback a (toolRegistry w) tool w1
  = (Fulfilled (Some (ToolOutput.mk (ToolCall.id tool)
                        ("Error: " ++ errorMessage error)%string)), w1)
  /\ fst (dispatchRound a (before ++ tool :: after) w)
     = fst (dispatchRound a before w)
         ++ ToolOutput.mk (ToolCall.id tool) ("Error: " ++ errorMessage error)%string
         :: fst (dispatchRound a after w1).
Proof.
  intros Hfound Hparse. cbv zeta.
  assert (Hcb : forall w0 : World R,
             toolCallback a (toolRegistry w) tool w0
             = (Fulfilled (Some (ToolOutput.mk (ToolCall.id tool)
                                   ("Error: " ++ errorMessage error)%string)), w0)).
  { intro w0. unfold toolCallback.
    rewrite (Registry_get_own _ _ _ Hfound), Hparse. reflexivity. }
  split; [apply Hcb |].
  pose proof (allSettled_quiet a (toolRegistry w) before w) as (_ & Ht1 & _).
  rewrite !dispatchRound_values, allSettled_app. cbn [fst].
  rewrite fulfilled_values_app. f_equal.
  rewrite Ht1. cbn [allSettled]. rewrite Hcb.
  destruct (allSettled a (toolRegistry w) after _) as [results w3]. reflexivity.
Qed.

Lemma resolving_calls_distinct (tools : Registry) (toolCalls : list ToolCall.t) :
  NoDup (map ToolCall.id toolCalls) ->
  NoDup (map ToolCall.id (filter (resolves tools) toolCalls)).
Proof.
  induction toolCalls as [| tool rest IH]; simpl; intro Hnodup; [constructor |].
  inversion Hnodup as [| y ys Hnotin Hrest]; subst.
  destruct (resolves tools tool); simpl; [| auto].
  constructor; [| auto].
  intro Hin. apply Hnotin.
  apply in_map_iff in Hin. destruct Hin as (z & Hz & Hzin).
  apply filter_In in Hzin. apply in_map_iff. exists z. tauto.
Qed.

(** X23. When the pending calls have pairwise distinct identities, no
    identity occurs twice among the outputs of the round, and every output
    answers one of the pending calls, one whose tool name resolves. *)
Theorem outputs_answer_distinct_calls
    (a : MonAIAgent) (toolCalls : list ToolCall.t) (w : World R) :
  NoDup (map ToolCall.id toolCalls) ->
  let toolOutputs := fst (dispatchRound a toolCalls w) in
  NoDup (map ToolOutput.tool_call_id toolOutputs)
  /\ (forall output,
        In output toolOutputs ->
        exists tool, In tool toolCalls
                     /\ ToolCall.id tool = ToolOutput.tool_call_id output
                     /\ resolves (toolRegistry w) tool = true).
Proof.
  intros Hnodup. cbv zeta.
  pose proof (dispatchRound_ids a toolCalls w) as Hids.
  split.
  - rewrite Hids. apply resolving_calls_distinct, Hnodup.
  - intros output Hin.
    apply (in_map ToolOutput.tool_call_id) in Hin. rewrite Hids in Hin.
    apply in_map_iff in Hin. destruct Hin as (tool & Hid & Hin).
    apply filter_In in Hin. exists tool. tauto.
Qed.

(** X24. One tool round, end to end: when the created run asks for tool
    outputs, the round collects some, and the submission answers a
    completed run whose newest message is assistant text, [sendMessage]
    returns that text.  The remote runtime has then seen, in this order,
    the message, the run, one submission of exactly the collected outputs
    and one listing of the thread. *)
Theorem sendMessage_after_one_tool_round
    (a : MonAIAgent) (w : World R) (message : string) (fuel : nat)
    (asst : Assistant.t) (th : Thread.t) (run0 run1 : Run.t)
    (toolCalls : list ToolCall.t) (r1 r2 r3 r4 : R)
    (text : string) (blocks : list ContentBlock) (older : list Message.t) :
  isInitialized a = true ->
  assistant a = Some asst ->
  thread a = Some th ->
  messages_create (Thread.id th) RoleUser message (remote w) = (Normal tt, r1) ->
  runs_create (threadID a) (assistantId a) r1 = (Normal run0, r2) ->
  Run.status run0 = requires_action ->
  Run.required_action run0
  = Some (RequiredAction.mk "submit_tool_outputs" (Some toolCalls)) ->
  let w2 :=
    mkWorld r2 (toolRegistry w) (tokenDecimalsCache w)
      (events w
         ++ [EvLog (mkLog LvlInfo
                      ("Sending message: " ++ message ++ " for wallet "
                       ++ JS_String (accountAddress (Some (walletClient a)))));
             EvRemote (MessagesCreate (Thread.id th) RoleUser message);
             EvLog (mkLog LvlInfo
                      ("Running for thread " ++ threadID a ++ " with assistant "
                       ++ assistantId a));
             EvRemote (RunsCreate (threadID a) (assistantId a))]) in
  let toolOutputs := fst (dispatchRound a toolCalls w2) in
  toolOutputs <> [] ->
  runs_submitToolOutputsAndPoll (Thread.id th) (Run.id run0) toolOutputs r2
  = (Normal run1, r3) ->
  Run.status run1 = completed ->
  messages_list (Thread.id th) r3
  = (Normal (Message.mk RoleAssistant (TextContentBlock text :: blocks) :: older), r4) ->
  1 <= fuel ->
  fst (sendMessage fuel message (a, w)) = Ret text
  /\ fst (snd (sendMessage fuel message (a, w))) = a
  /\ remote (snd (snd (sendMessage fuel message (a, w)))) = r4
  /\ remote_ops (events (snd (snd (sendMessage fuel message (a, w)))))
     = remote_ops (events w)
         ++ [MessagesCreate (Thread.id th) RoleUser message;
             RunsCreate (threadID a) (assistantId a);
             RunsSubmitToolOutputsAndPoll (Thread.id th) (Run.id run0) toolOutputs;
             MessagesList (Thread.id th)].
Proof.
  intros Hflag Hasst Hthread Hmsg Hcreate Hstatus Haction w2 toolOutputs
    Hsome Hsubmit Hdone Hlist Hfuel.
  assert (Hpending : pending_tool_calls run0 = Some toolCalls).
  { unfold pending_tool_calls. rewrite Haction. reflexivity. }
  assert (Hwait : awaits_tool_outputs run0 = true).
  { unfold awaits_tool_outputs. rewrite Hstatus, Haction. reflexivity. }
  assert (Hsettled : transient run0 = false).
  { unfold transient. rewrite Hstatus. reflexivity. }
  pose proof (handleRunToolCalls_submits a w2 run0 th toolCalls Hpending Hsome) as Hround.
  cbv zeta in Hround. fold toolOutputs in Hround.
  change (remote w2) with r2 in Hround. rewrite Hsubmit in Hround. cbn [fst snd] in Hround.
  pose proof (dispatchRound_quiet a toolCalls w2) as Hquiet.
  set (w3 := snd (dispatchRound a toolCalls w2)) in *.
  assert (Hrun : sendMessage fuel message (a, w)
                 = bind (performRun fuel run0 th)
                     (fun result =>
                        match result with
                        | Some (TextContentBlock value) => ret value
                        | Some _ =>
                            bind (log LvlInfo "[object Object]")
                              (fun _ => raise (Error "Unexpected response format"))
                        | None =>
                            bind (log LvlInfo "null")
                              (fun _ => raise (Error "Unexpected response format"))
                        end) (a, w2)).
  { unfold sendMessage. unfold bind at 1. unfold this at 1. cbv beta iota.
    unfold bind at 1. rewrite Hflag. cbn [negb]. unfold ret at 1.
    unfold bind at 1. unfold this at 1. cbv beta iota. rewrite Hasst, Hthread.
    unfold bind at 1. unfold log at 1. cbv beta iota.
    unfold bind at 1. unfold await at 1. cbv beta iota.
    unfold log_to, emit. cbn [remote toolRegistry tokenDecimalsCache events].
    rewrite Hmsg.
    unfold bind at 1.
    unfold createRun, bind, this, log, log_to, emit, await.
    cbn [remote toolRegistry tokenDecimalsCache events].
    rewrite Hcreate, pollRun_settled by exact Hsettled.
    unfold w2. rewrite <- !app_assoc. reflexivity. }
  assert (Hloop : driveRun fuel run0 th (a, w2)
                  = (Ret run1,
                     (a, mkWorld r3 (toolRegistry w2) (tokenDecimalsCache w3)
                           (events w3
                              ++ [EvRemote (RunsSubmitToolOutputsAndPoll
                                              (Thread.id th) (Run.id run0) toolOutputs)])))).
  { destruct fuel as [| fuel]; [lia |].
    cbn [driveRun]. rewrite Hwait. unfold bind. rewrite Hround.
    destruct fuel; simpl; unfold awaits_tool_outputs; rewrite Hdone; reflexivity. }
  assert (Hperform : performRun fuel run0 th (a, w2)
                     = (Ret (Some (TextContentBlock text)),
                        (a, mkWorld r4 (toolRegistry w2) (tokenDecimalsCache w3)
                              ((events w3
                                  ++ [EvRemote (RunsSubmitToolOutputsAndPoll
                                                  (Thread.id th) (Run.id run0)
                                                  toolOutputs)])
                                 ++ [EvLog (mkLog LvlInfo (JSON_stringify run1));
                                     EvRemote (MessagesList (Thread.id th))])))).
  { unfold performRun. unfold bind at 1. rewrite Hloop. cbv beta iota.
    unfold bind at 1. unfold log at 1. cbv beta iota. rewrite Hdone.
    unfold bind, await, log_to, emit.
    cbn [remote toolRegistry tokenDecimalsCache events].
    rewrite Hlist. cbn [Message.role Message.content ContentBlock_type].
    rewrite <- !app_assoc. reflexivity. }
  assert (Hfinal : sendMessage fuel message (a, w)
                   = (Ret text,
                      (a, mkWorld r4 (toolRegistry w2) (tokenDecimalsCache w3)
                            ((events w3
                                ++ [EvRemote (RunsSubmitToolOutputsAndPoll
                                                (Thread.id th) (Run.id run0) toolOutputs)])
                               ++ [EvLog (mkLog LvlInfo (JSON_stringify run1));
                                   EvRemote (MessagesList (Thread.id th))])))).
  { rewrite Hrun. unfold bind at 1. rewrite Hperform. reflexivity. }
  rewrite Hfinal. cbn [fst snd remote events].
  repeat split.
  rewrite !remote_ops_app, (quiet_remote_ops _ _ Hquiet).
  unfold w2. cbn [events]. rewrite remote_ops_app. simpl.
  rewrite <- !app_assoc. reflexivity.
Qed.

(** ** Constructing a session *)

(** X25. Once the OpenAI client is built (that step is outside the
    model), the constructor does not tell an absent [threadId],
    [assistantId] or [prompts] from an empty one, takes the wallet client
    it is given without looking at the environment, and without one
    throws the error of [createViemWalletClient], which for an unset or
    empty [PRIVATE_KEY] is "PRIVATE_KEY environment variable is not set." *)
Theorem constructor_normalises_its_config
    (wallet : option WalletClient.t) (env : option ToolEnv)
    (text assistantIdentity threadIdentity : option string) :
  constructor (Config.mk wallet env text assistantIdentity threadIdentity)
  = constructor (Config.mk wallet env (Some (or_empty text))
                   (Some (or_empty assistantIdentity)) (Some (or_empty threadIdentity)))
  /\ (forall wc, wallet = Some wc ->
        exists a,
          constructor (Config.mk wallet env text assistantIdentity threadIdentity) = Normal a
          /\ walletClient a = wc
          /\ threadID a = or_empty threadIdentity
          /\ assistantId a = or_empty assistantIdentity)
  /\ (wallet = None ->
      forall e,
        constructor (Config.mk wallet env text assistantIdentity threadIdentity) = Throw e
        <-> createViemWalletClient = Throw e)
  /\ (PRIVATE_KEY = None \/ PRIVATE_KEY = Some EmptyString ->
      createViemWalletClient = Throw (Error "PRIVATE_KEY environment variable is not set.")).
Proof.
  split; [| split; [| split]].
  - unfold constructor. cbn [Config.walletClient Config.threadId Config.assistantId
                              Config.prompts Config.toolEnvConfigs or_empty].
    reflexivity.
  - intros wc ->. eexists. split; [reflexivity |]. repeat split.
  - intros -> e. unfold constructor. cbn [Config.walletClient].
    destruct createViemWalletClient as [wc | e']; split; intro Heq;
      try discriminate; congruence.
  - unfold createViemWalletClient. intros [-> | ->]; reflexivity.
Qed.

End MoreProperties.

(* ================================================================= *)
(** * The properties at work on the scripted runtime *)

#[local] Existing Instance Scripted.runtime.
#[local] Existing Instance Scripted.platform.

(** C1, at a session constructed without a thread identity: [initialize]
    succeeds, sets the flag, stores the created thread and the created
    assistant's identity, and leaves the thread identity string
    [threadID] empty. *)
Theorem initialize_leaves_threadID_empty :
  constructor Scripted.config = Normal Scripted.session
  /\ exists (a : MonAIAgent) (w : World Scripted.t),
      initialize (Scripted.session, Scripted.world Scripted.idle) = (Ret tt, (a, w))
      /\ isInitialized a = true
      /\ assistantId a = "asst_1"
      /\ thread a = Some (Thread.mk "thread_1")
      /\ threadID a = EmptyString
      /\ remote_ops (events (snd (snd (createRun 0 (a, w)))))
         = remote_ops (events w) ++ [RunsCreate EmptyString "asst_1"].
Proof.
  split; [reflexivity |].
  eexists. eexists. split; [reflexivity |].
  repeat split.
Qed.

(** C9, at a completed run whose thread lists no message: [sendMessage]
    ends with the [TypeError] of reading [role] of [undefined], which is
    not the format error (and likewise for a newest assistant message
    without content); a newest message by the user, or one that leads with
    an image, does end with the format error, and leading text is
    returned. *)
Theorem empty_message_list_is_not_a_format_error :
  let answer (thread_messages : list Message.t) :=
    fst (sendMessage 2 "hi"
           (Scripted.ready, Scripted.world (Scripted.answering thread_messages))) in
  answer [] = Raise (TypeError "Cannot read properties of undefined (reading 'role')")
  /\ answer [] <> Raise (Error "Unexpected response format")
  /\ answer [Message.mk RoleAssistant []]
     = Raise (TypeError "Cannot read properties of undefined (reading 'type')")
  /\ answer [Message.mk RoleUser [TextContentBlock "hi"]]
     = Raise (Error "Unexpected response format")
  /\ answer [Message.mk RoleAssistant [ImageFileContentBlock "file_1"]]
     = Raise (Error "Unexpected response format")
  /\ answer [Message.mk RoleAssistant [TextContentBlock "hello"]] = Ret "hello".
Proof.
  cbv zeta. repeat split; try reflexivity.
  vm_compute. discriminate.
Qed.

(** C3, at a round whose calls name [toString] and [swap], neither of
    them in the registry: the call of [toString] is not skipped.  The
    lookup finds the method every object inherits, so the call contributes
    the output "Error: toolConfig.handler is not a function" and no
    "not found" line; the round collects one output although no call
    names a registered tool.  The call of [swap] is skipped and logged. *)
Theorem inherited_name_is_answered_not_skipped :
  let toolCalls := [Scripted.inherited_name_call; Scripted.missing_tool_call] in
  let w := Scripted.world Scripted.idle in
  let round := dispatchRound Scripted.ready toolCalls w in
  Object_keys (toolRegistry w) = ["get_balance"; "get_token_balance"]
  /\ filter (registered (toolRegistry w)) toolCalls = []
  /\ fst round
     = [ToolOutput.mk "call_7" "Error: toolConfig.handler is not a function"]
  /\ length (fst round) <> length (filter (registered (toolRegistry w)) toolCalls)
  /\ ~ In (EvLog (mkLog LvlError "Tool toString not found")) (events (snd round))
  /\ In (EvLog (mkLog LvlError "Tool swap not found")) (events (snd round)).
Proof.
  cbv zeta. repeat split; try reflexivity.
  - vm_compute. discriminate.
  - vm_compute. intros [Heq | []]. discriminate.
  - vm_compute. left. reflexivity.
Qed.

(** C7: when the assistant step throws, [initialize] ends before the
    thread step.  With a thread identity supplied no thread is retrieved,
    and without one no thread is created. *)
Lemma initialize_without_assistant_reaches_no_thread :
  let w := Faulty.world (Faulty.mk false false true) in
  let ops (a : MonAIAgent) :=
    thread_ops (events (snd (snd (@initialize Faulty.t Faulty.runtime (a, w))))) in
  @constructor Faulty.platform Faulty.config = Normal Faulty.session
  /\ ops Faulty.session = []
  /\ ops Faulty.session <> [ThreadsRetrieve "thread_7"]
  /\ @constructor Faulty.platform Scripted.config = Normal Scripted.session
  /\ ops Scripted.session = []
  /\ ops Scripted.session <> [ThreadsCreate].
Proof.
  cbv zeta. repeat split; try reflexivity; vm_compute; discriminate.
Qed.

(** C2: the output of the round is not the bare not-found message.  With
    an account in the wallet it is that message behind the handler's
    prefix; without any address it is the missing-address message. *)
Lemma unknown_token_output_is_not_the_bare_message :
  let bare :=
    ("Error: Token " ++ dquote ++ "unknown" ++ dquote
     ++ " not found. Available tokens: WMON, MONAI")%string in
  let round (a : MonAIAgent) :=
    fst (dispatchRound a [Scripted.unknown_token_call] (Scripted.world Scripted.idle)) in
  round Scripted.ready
  = [ToolOutput.mk "call_1" ("Error: Failed to get token balance: " ++ bare)]
  /\ ~ In (ToolOutput.mk "call_1" bare) (round Scripted.ready)
  /\ round Scripted.ready_without_account
     = [ToolOutput.mk "call_1"
          "Error: Failed to get token balance: Error: No wallet address provided and no wallet client account available"].
Proof.
  cbv zeta. split; [reflexivity |]. split; [| reflexivity].
  vm_compute. intros [Heq | []]. discriminate.
Qed.

(** C2 at work: a round with the unknown-token call and a balance call. *)
Lemma unknown_token_witness :
  let run := Scripted.run_requiring [Scripted.unknown_token_call; Scripted.balance_call] in
  let w := Scripted.world Scripted.idle in
  let toolOutputs :=
    fst (dispatchRound Scripted.ready
           [Scripted.unknown_token_call; Scripted.balance_call] w) in
  In (ToolOutput.mk "call_1"
        ("Error: Failed to get token balance: Error: Token " ++ dquote ++ "unknown"
         ++ dquote ++ " not found. Available tokens: WMON, MONAI"))
     toolOutputs
  /\ exists result w',
      handleRunToolCalls run (Thread.mk "thread_1") (Scripted.ready, w)
      = (result, (Scripted.ready, w'))
      /\ result
         = match fst (runs_submitToolOutputsAndPoll "thread_1" "run_1" toolOutputs
                        (remote w)) with
           | Normal next => Ret next
           | Throw e => Raise e
           end
      /\ remote_ops (events w')
         = remote_ops (events w)
             ++ [RunsSubmitToolOutputsAndPoll "thread_1" "run_1" toolOutputs].
Proof.
  exact (unknown_token_output_is_the_wrapped_message
           Scripted.ready (Scripted.world Scripted.idle)
           (Scripted.run_requiring [Scripted.unknown_token_call; Scripted.balance_call])
           (Thread.mk "thread_1") [] [Scripted.balance_call] Scripted.unknown_token_call
           (JsObject [("tokenName", JsString "unknown")])
           eq_refl eq_refl eq_refl eq_refl eq_refl eq_refl).
Defined.

(** C4 at work: a run whose only call names the unregistered tool [swap]. *)
Lemma empty_round_witness :
  let run := Scripted.run_requiring [Scripted.missing_tool_call] in
  let thread := Thread.mk "thread_1" in
  let w := Scripted.world Scripted.idle in
  collected_outputs Scripted.ready run w = []
  /\ awaits_tool_outputs run = true
  /\ (exists w',
        handleRunToolCalls run thread (Scripted.ready, w) = (Ret run, (Scripted.ready, w'))
        /\ remote w' = remote w
        /\ remote_ops (events w') = remote_ops (events w))
  /\ (forall fuel : nat,
      exists w',
        performRun fuel run thread (Scripted.ready, w) = (OutOfFuel, (Scripted.ready, w'))
        /\ remote w' = remote w
        /\ remote_ops (events w') = remote_ops (events w)).
Proof.
  cbv zeta.
  destruct (empty_round_submits_nothing_and_stalls Scripted.ready
              (Scripted.world Scripted.idle)
              (Scripted.run_requiring [Scripted.missing_tool_call])
              (Thread.mk "thread_1") eq_refl)
    as [Hstep Hloop].
  split; [reflexivity |]. split; [reflexivity |]. split; [exact Hstep |].
  exact (Hloop eq_refl).
Defined.

(** C5 at work: a handler that throws [boom] between an echo, an
    unregistered tool and a balance call. *)
Lemma handler_outcome_witness :
  let toolCalls :=
    [Scripted.echo_call; Scripted.boom_call; Scripted.missing_tool_call;
     Scripted.balance_call] in
  let toolOutputs := fst (dispatchRound Scripted.ready toolCalls Scripted.extended_world) in
  pending_tool_calls (Scripted.run_requiring toolCalls) = Some toolCalls
  /\ assoc "boom" (toolRegistry Scripted.extended_world) = Some Scripted.boomTool
  /\ JSON_parse "{}" = Normal (JsObject [])
  /\ In (ToolOutput.mk "call_5" "Error: boom") toolOutputs
  /\ map ToolOutput.tool_call_id toolOutputs = ["call_4"; "call_5"; "call_3"].
Proof.
  cbv zeta.
  destruct (@handler_outcome_becomes_output Scripted.t Scripted.runtime Scripted.platform
              Scripted.ready Scripted.extended_world
              (Scripted.run_requiring
                 [Scripted.echo_call; Scripted.boom_call; Scripted.missing_tool_call;
                  Scripted.balance_call])
              (Thread.mk "thread_1")
              [Scripted.echo_call] [Scripted.missing_tool_call; Scripted.balance_call]
              Scripted.boom_call Scripted.boomTool (JsObject [])
              eq_refl eq_refl eq_refl)
    as (out & Hsplit & _ & Hboom & _ & Hids & _).
  split; [reflexivity |]. split; [reflexivity |]. split; [reflexivity |].
  split.
  - change (In (ToolOutput.mk "call_5" "Error: boom")
              (fst (dispatchRound Scripted.ready
                      ([Scripted.echo_call]
                         ++ Scripted.boom_call
                         :: [Scripted.missing_tool_call; Scripted.balance_call])
                      Scripted.extended_world))).
    rewrite Hsplit, (Hboom eq_refl).
    apply in_or_app. right. left. reflexivity.
  - exact Hids.
Defined.

(** C6 at work: a session that is set up, and a fresh one initialized twice. *)
Lemma initialize_idempotent_witness :
  isInitialized Scripted.ready = true
  /\ initialize (Scripted.ready, Scripted.world Scripted.idle)
     = (Ret tt,
        (Scripted.ready,
         mkWorld Scripted.idle toolRegistry0 []
                 [EvLog (mkLog LvlInfo "Agent already initialized")]))
  /\ (exists a1 w1 w2,
        initialize (Scripted.session, Scripted.world Scripted.idle) = (Ret tt, (a1, w1))
        /\ initialize (a1, w1) = (Ret tt, (a1, w2))
        /\ remote w2 = remote w1
        /\ remote_ops (events w2) = remote_ops (events w1)).
Proof.
  destruct (@initialize_is_idempotent Scripted.t _) as [Honce Htwice].
  split; [reflexivity |].
  split; [exact (Honce Scripted.ready (Scripted.world Scripted.idle) eq_refl) |].
  assert (Hfirst :
            initialize (Scripted.session, Scripted.world Scripted.idle)
            = (Ret tt,
               (fst (snd (initialize (Scripted.session, Scripted.world Scripted.idle))),
                snd (snd (initialize (Scripted.session, Scripted.world Scripted.idle))))))
    by (vm_compute; reflexivity).
  destruct (Htwice _ _ _ _ Hfirst) as (w2 & Hsecond & Hremote & Hops).
  eexists. eexists. exists w2.
  split; [exact Hfirst |]. split; [exact Hsecond |]. split; [exact Hremote | exact Hops].
Defined.

(** C7 at work: a session given [thread_9], and one given no thread. *)
Lemma initialize_thread_witness :
  constructor Scripted.config_with_thread = Normal Scripted.session_with_thread
  /\ constructor Scripted.config = Normal Scripted.session
  /\ thread_ops (events (snd (snd (initialize (Scripted.session_with_thread,
                                                Scripted.world Scripted.idle)))))
     = [ThreadsRetrieve "thread_9"]
  /\ thread_ops (events (snd (snd (initialize (Scripted.session,
                                                Scripted.world Scripted.idle)))))
     = [ThreadsCreate].
Proof.
  assert (Hstep : forall a : MonAIAgent,
             fst (initialize_assistant (a, Scripted.world Scripted.idle)) = Ret tt ->
             initialize_assistant (a, Scripted.world Scripted.idle)
             = (Ret tt,
                (fst (snd (initialize_assistant (a, Scripted.world Scripted.idle))),
                 snd (snd (initialize_assistant (a, Scripted.world Scripted.idle)))))).
  { intros a Hok.
    destruct (initialize_assistant (a, Scripted.world Scripted.idle)) as [r [a1 w1]].
    simpl in *. subst r. reflexivity. }
  split; [reflexivity |]. split; [reflexivity |]. split.
  - exact (initialize_retrieves_or_creates_one_thread
             Scripted.config_with_thread Scripted.session_with_thread _
             (Scripted.world Scripted.idle) _
             eq_refl (Hstep Scripted.session_with_thread eq_refl)).
  - exact (initialize_retrieves_or_creates_one_thread
             Scripted.config Scripted.session _
             (Scripted.world Scripted.idle) _
             eq_refl (Hstep Scripted.session eq_refl)).
Defined.

(** C8 at work: the run is polled twice and the answer is [hello]. *)
Lemma polling_witness :
  let script := Scripted.answering [Message.mk RoleAssistant [TextContentBlock "hello"]] in
  let outcome := sendMessage 2 "hi" (Scripted.ready, Scripted.world script) in
  fst outcome = Ret "hello"
  /\ remote_ops (events (snd (snd outcome)))
     = [MessagesCreate "thread_1" RoleUser "hi";
        RunsCreate "thread_1" "asst_1";
        RunsRetrieve "thread_1" "run_1";
        RunsRetrieve "thread_1" "run_1";
        MessagesList "thread_1"].
Proof.
  cbv zeta.
  destruct (@polling_stops_at_completed Scripted.t Scripted.runtime Scripted.platform
              Scripted.ready
              (Scripted.world
                 (Scripted.answering [Message.mk RoleAssistant [TextContentBlock "hello"]]))
              "hi" 2 (Assistant.mk "asst_1") (Thread.mk "thread_1")
              (Scripted.run_in queued) (Scripted.run_in in_progress)
              (Scripted.run_in completed)
              (Scripted.answering [Message.mk RoleAssistant [TextContentBlock "hello"]])
              (Scripted.mk [] [Scripted.run_in in_progress; Scripted.run_in completed]
                 [Message.mk RoleAssistant [TextContentBlock "hello"]])
              (Scripted.mk [] [Scripted.run_in completed]
                 [Message.mk RoleAssistant [TextContentBlock "hello"]])
              (Scripted.mk [] [] [Message.mk RoleAssistant [TextContentBlock "hello"]])
              eq_refl eq_refl eq_refl eq_refl eq_refl eq_refl eq_refl eq_refl eq_refl
              eq_refl (le_n 2))
    as [_ Hanswer].
  rewrite (Hanswer "hello" [] []
             (Scripted.mk [] [] [Message.mk RoleAssistant [TextContentBlock "hello"]])
             eq_refl).
  split; reflexivity.
Defined.

(** C10 at work: [wmon] resolves to [WMON]; [unknown] matches no key. *)
Lemma token_resolution_witness :
  assoc "WMON" TOKEN = Some "0x760AfE86e5de5fa0Ee542fc7B7B713e1c5425701"
  /\ same_ignoring_case "wmon" "WMON"
  /\ resolveToken (JsString "wmon")
     = Normal ("WMON", "0x760AfE86e5de5fa0Ee542fc7B7B713e1c5425701")
  /\ (forall key, In key (Object_keys TOKEN) -> ~ same_ignoring_case "unknown" key)
  /\ outcome (getTokenBalance_handler (JsObject [("tokenName", JsString "wmon")])
                 (Some Scripted.wallet) [] [])
     = Normal (JsString "2500000000000000000e-18").
Proof.
  destruct (@token_name_resolution_ignores_case Scripted.platform)
    as (Hresolve & Hnotfound & Hhandler).
  split; [reflexivity |]. split; [reflexivity |].
  split; [exact (Hresolve "WMON" _ "wmon" eq_refl eq_refl) |].
  split; [exact (proj1 (Hnotfound "unknown") eq_refl) |].
  rewrite (Hhandler "WMON" _ "wmon" (JsObject [("tokenName", JsString "wmon")])
             (Some Scripted.wallet) [] [] eq_refl eq_refl eq_refl eq_refl).
  reflexivity.
Defined.

(* ================================================================= *)
(** * The further properties at work *)

(** X1 at work: registering [echo] beside the built-in tools. *)
Lemma registerTool_witness :
  getTool (registerTool toolRegistry0 "echo" Scripted.echoTool) "echo"
  = Some Scripted.echoTool
  /\ getTool (registerTool toolRegistry0 "echo" Scripted.echoTool) "get_balance"
     = Some getBalanceTool
  /\ In "echo" (Object_keys (registerTool toolRegistry0 "echo" Scripted.echoTool)).
Proof.
  assert (Hname : "echo" <> "__proto__") by discriminate.
  destruct (registerTool_then_getTool toolRegistry0 "echo" Scripted.echoTool Hname)
    as (Hsame & Hother & Hkeys & _).
  split; [exact Hsame |].
  split; [rewrite Hother; [reflexivity | discriminate] |].
  apply Hkeys. left. reflexivity.
Defined.

(** X2 at work: the decimals of WMON, read into an empty cache. *)
Lemma fetchTokenDecimals_witness :
  native Faulty.WMON_address = false
  /\ exists d cache' lines',
      fetchTokenDecimals Faulty.WMON_address ([], []) = (Normal d, (cache', lines'))
      /\ assoc Faulty.WMON_address cache' = Some d.
Proof.
  split; [reflexivity |].
  destruct (fetchTokenDecimals_settles_and_caches (H1 := Scripted.platform)
              Faulty.WMON_address [] [])
    as (d & cache' & lines' & Heq & _ & _ & Hcached & _).
  exists d, cache', lines'. split; [exact Heq | exact (Hcached eq_refl)].
Defined.

(** X4 at work: the decimals read reverts. *)
Lemma fetchTokenDecimals_failure_witness :
  @readContract Faulty.platform Faulty.WMON_address erc20Abi "decimals" []
  = Throw (Error "execution reverted")
  /\ @fetchTokenDecimals Faulty.platform Faulty.WMON_address ([], [])
     = (Normal 18%Z,
        ([(Faulty.WMON_address, 18%Z)],
         [mkLog LvlError
            "[ERROR] Failed to fetch decimals for token 0x760AfE86e5de5fa0Ee542fc7B7B713e1c5425701: Error: execution reverted"])).
Proof.
  split; [reflexivity |].
  exact (proj1 (fetchTokenDecimals_failed_read_defaults_to_18 (H1 := Faulty.platform)
                  Faulty.WMON_address [] [] (Error "execution reverted")
                  eq_refl eq_refl eq_refl)).
Defined.

(** X5 at work: a wallet argument, with and without a session wallet. *)
Lemma getBalance_address_witness :
  let args := JsObject [("wallet", JsString Faulty.spender)] in
  ToBoolean (Get args "wallet") = true
  /\ getBalance_handler args None [] [] = getBalance_handler args (Some Scripted.wallet) [] []
  /\ getBalance_handler (JsObject []) (Some Scripted.wallet) [] []
     = getBalance_handler
         (JsObject [("wallet", JsString "0xABC0000000000000000000000000000000000001")])
         None [] []
  /\ outcome (getBalance_handler (JsObject []) (Some Scripted.wallet) [] [])
     = Normal (JsString "1500000000000000000 wei").
Proof.
  cbv zeta. split; [reflexivity |].
  split.
  - exact (proj1 (getBalance_address_resolution (H1 := Scripted.platform)
                    (JsObject [("wallet", JsString Faulty.spender)])
                    (Some Scripted.wallet) [] [])
             eq_refl None []).
  - destruct (getBalance_address_resolution (H1 := Scripted.platform)
                (JsObject []) (Some Scripted.wallet) [] [])
      as (_ & Hfallback & Hanswer).
    split; [exact (Hfallback eq_refl eq_refl) |].
    exact (Hanswer eq_refl eq_refl 1500000000000000000%Z eq_refl).
Defined.

(** X6 at work: no wallet argument and no account. *)
Lemma getBalance_shape_witness :
  ToBoolean (js_or (Get (JsObject []) "wallet") (accountAddress None)) = false
  /\ outcome (getBalance_handler (JsObject []) None [] [])
     = Throw (Error "Failed to get balance: Error: No wallet address provided and no wallet client account available")
  /\ cache_after (getBalance_handler (JsObject []) None [] [("0xfeed", 6%Z)])
     = [("0xfeed", 6%Z)].
Proof.
  split; [reflexivity |].
  split.
  - exact (proj2 (proj2 (getBalance_outcome_shape (H1 := Scripted.platform)
                           (JsObject []) None [] []))
             eq_refl eq_refl).
  - exact (proj1 (getBalance_outcome_shape (H1 := Scripted.platform)
                    (JsObject []) None [] [("0xfeed", 6%Z)])).
Defined.

(** X7 at work: a token name without an address, an address without a
    token name. *)
Lemma getTokenBalance_guards_witness :
  outcome (getTokenBalance_handler (JsObject [("tokenName", JsString "WMON")]) None [] [])
  = Throw (Error "Failed to get token balance: Error: No wallet address provided and no wallet client account available")
  /\ outcome (getTokenBalance_handler (JsObject []) (Some Scripted.wallet) [] [])
     = Throw (Error "Failed to get token balance: Error: Token name is required").
Proof.
  split.
  - exact (proj1 (proj1 (getTokenBalance_guards (H1 := Scripted.platform)
                           (JsObject [("tokenName", JsString "WMON")]) None [] [] eq_refl)
                    eq_refl)).
  - exact (proj1 (proj2 (getTokenBalance_guards (H1 := Scripted.platform)
                           (JsObject []) (Some Scripted.wallet) [] [] eq_refl)
                    eq_refl eq_refl)).
Defined.

(** X8 at work: the balance of [wmon], on a chain that answers and on one
    whose decimals read reverts. *)
Lemma getTokenBalance_format_witness :
  outcome (getTokenBalance_handler (JsObject [("tokenName", JsString "wmon")])
             (Some Scripted.wallet) [] [])
  = Normal (JsString "2500000000000000000e-18")
  /\ outcome (@getTokenBalance_handler Faulty.platform
                (JsObject [("tokenName", JsString "wmon")]) (Some Scripted.wallet) [] [])
     = Normal (JsString "2500000e-18").
Proof.
  split.
  - destruct (proj1 (getTokenBalance_formats_the_balance (H1 := Scripted.platform)
                       (JsObject [("tokenName", JsString "wmon")]) (Some Scripted.wallet)
                       [] [] "wmon" "WMON" Faulty.WMON_address
                       eq_refl eq_refl eq_refl eq_refl)
                2500000000000000000%Z eq_refl)
      as (d & Hanswer & _ & _ & Hread).
    rewrite Hanswer. rewrite (Hread eq_refl). reflexivity.
  - destruct (proj1 (getTokenBalance_formats_the_balance (H1 := Faulty.platform)
                       (JsObject [("tokenName", JsString "wmon")]) (Some Scripted.wallet)
                       [] [] "wmon" "WMON" Faulty.WMON_address
                       eq_refl eq_refl eq_refl eq_refl)
                2500000%Z eq_refl)
      as (d & Hanswer & _ & _ & Hread).
    rewrite Hanswer. rewrite (Hread eq_refl). reflexivity.
Defined.

(** X9 at work: the cache entry of an address outside [TOKEN] survives a
    token-balance call. *)
Lemma getTokenBalance_shape_witness :
  (forall key address, assoc key TOKEN = Some address -> Faulty.spender <> address)
  /\ assoc Faulty.spender
       (cache_after (getTokenBalance_handler (JsObject [("tokenName", JsString "wmon")])
                       (Some Scripted.wallet) [] [(Faulty.spender, 6%Z)]))
     = Some 6%Z.
Proof.
  assert (Houtside : forall key address,
             assoc key TOKEN = Some address -> Faulty.spender <> address).
  { intros key address Hentry.
    destruct (TOKEN_entries key address Hentry) as [[_ ->] | [_ ->]]; discriminate. }
  split; [exact Houtside |].
  rewrite (proj2 (getTokenBalance_outcome_shape (H1 := Scripted.platform)
                    (JsObject [("tokenName", JsString "wmon")]) (Some Scripted.wallet)
                    [] [(Faulty.spender, 6%Z)])
             Faulty.spender Houtside).
  reflexivity.
Defined.

(** X10 at work: an allowance that covers the amount. *)
Lemma allowance_sufficient_witness :
  let result :=
    checkAndApproveAllowance Faulty.writeContract Faulty.receipt_success
      Scripted.wallet Faulty.WMON_address Faulty.spender 1 in
  native Faulty.WMON_address = false
  /\ allowance_outcome result = Normal tt
  /\ allowance_writes result = [].
Proof.
  cbv zeta. split; [reflexivity |].
  destruct (checkAndApproveAllowance_writes_only_when_needed (H1 := Scripted.platform)
              Faulty.writeContract Faulty.receipt_success
              Scripted.wallet Faulty.WMON_address Faulty.spender 1)
    as (_ & _ & _ & Hcovered).
  apply (Hcovered eq_refl eq_refl 2500000000000000000%Z eq_refl). lia.
Defined.

(** X11 at work: an allowance below the amount, with a receipt that
    succeeds and one that reverts. *)
Lemma allowance_short_witness :
  let amount := 3000000000000000000%Z in
  let approval :=
    mkWrite Faulty.WMON_address erc20Abi "approve"
      [JsString Faulty.spender; JsBigInt amount] in
  let run (receipt : string -> Completion string) :=
    checkAndApproveAllowance Faulty.writeContract receipt
      Scripted.wallet Faulty.WMON_address Faulty.spender amount in
  allowance_writes (run Faulty.receipt_success) = [approval]
  /\ allowance_outcome (run Faulty.receipt_success) = Normal tt
  /\ allowance_outcome (run Faulty.receipt_reverted)
     = Throw (Error "Approval transaction failed").
Proof.
  cbv zeta.
  assert (Hshort : (2500000000000000000 < 3000000000000000000)%Z) by lia.
  destruct (checkAndApproveAllowance_approves_when_short (H1 := Scripted.platform)
              Faulty.writeContract Faulty.receipt_success
              Scripted.wallet Faulty.WMON_address Faulty.spender
              3000000000000000000 2500000000000000000 eq_refl eq_refl eq_refl Hshort)
    as [Hwrites Hok].
  destruct (checkAndApproveAllowance_approves_when_short (H1 := Scripted.platform)
              Faulty.writeContract Faulty.receipt_reverted
              Scripted.wallet Faulty.WMON_address Faulty.spender
              3000000000000000000 2500000000000000000 eq_refl eq_refl eq_refl Hshort)
    as [_ Hreverted].
  split; [exact Hwrites |]. split; [exact Hok | exact Hreverted].
Defined.

(** X13 at work: the runtime knows the configured assistant. *)
Lemma initialize_retrieval_witness :
  let after :=
    snd (@initialize Faulty.t Faulty.runtime
           (Faulty.session, Faulty.world (Faulty.mk true true true))) in
  assistant (fst after) = Some (Assistant.mk "asst_7")
  /\ assistantId (fst after) = "asst_7"
  /\ assistant_ops (events (snd after)) = [AssistantsRetrieve "asst_7"].
Proof.
  exact (@initialize_prefers_retrieval Faulty.t Faulty.runtime
           Faulty.session (Faulty.world (Faulty.mk true true true))
           (Assistant.mk "asst_7") (Faulty.mk true true true)
           eq_refl eq_refl eq_refl).
Defined.

(** X14 at work: the runtime does not know the configured assistant and
    creates one. *)
Lemma initialize_creation_witness :
  let w := Faulty.world (Faulty.mk false true true) in
  let after := snd (@initialize Faulty.t Faulty.runtime (Faulty.session, w)) in
  assistant (fst after) = Some (Assistant.mk "asst_2")
  /\ assistantId (fst after) = "asst_2"
  /\ assistant_ops (events (snd after))
     = [AssistantsRetrieve "asst_7";
        AssistantsCreate
          (AssistantCreateParams.mk "gpt-4" (QArith_base.Qmake 3 10) "MonAI Assistant"
             "Be brief"
             [Tool.definition (@getBalanceTool Faulty.platform);
              Tool.definition (@getTokenBalanceTool Faulty.platform)])].
Proof.
  exact (@initialize_falls_back_to_creation Faulty.t Faulty.runtime
           Faulty.session (Faulty.world (Faulty.mk false true true))
           (Error "404 No assistant found") (Assistant.mk "asst_2")
           (Faulty.mk false true true) (Faulty.mk false true true)
           eq_refl eq_refl eq_refl eq_refl).
Defined.

(** X15 at work: the runtime neither knows nor creates an assistant. *)
Lemma initialize_creation_error_witness :
  let w := Faulty.world (Faulty.mk false false true) in
  let result := @initialize Faulty.t Faulty.runtime (Faulty.session, w) in
  fst result = Raise (Error "500 The server had an error")
  /\ fst (snd result) = Faulty.session
  /\ thread_ops (events (snd (snd result))) = [].
Proof.
  cbv zeta.
  rewrite (@initialize_throws_the_creation_error Faulty.t Faulty.runtime
             Faulty.session (Faulty.world (Faulty.mk false false true))
             (Error "404 No assistant found") (Error "500 The server had an error")
             (Faulty.mk false false true) (Faulty.mk false false true)
             eq_refl eq_refl eq_refl eq_refl).
  repeat split.
Defined.

(** X16 at work: one [initialize] that succeeds and one that throws. *)
Lemma initialize_flag_witness :
  isInitialized
    (fst (snd (@initialize Faulty.t Faulty.runtime
                 (Faulty.session, Faulty.world (Faulty.mk true true true))))) = true
  /\ isInitialized
       (fst (snd (@initialize Faulty.t Faulty.runtime
                    (Faulty.session, Faulty.world (Faulty.mk true true false))))) = false.
Proof.
  split.
  - apply (proj1 (proj2 (@initialize_sets_the_flag_only_on_success Faulty.t Faulty.runtime
                           Faulty.session (Faulty.world (Faulty.mk true true true))
                           eq_refl))).
    reflexivity.
  - destruct (isInitialized
                (fst (snd (@initialize Faulty.t Faulty.runtime
                             (Faulty.session, Faulty.world (Faulty.mk true true false))))))
      eqn:Hflag; [| reflexivity].
    apply (proj1 (proj2 (@initialize_sets_the_flag_only_on_success Faulty.t Faulty.runtime
                           Faulty.session (Faulty.world (Faulty.mk true true false))
                           eq_refl))) in Hflag.
    discriminate Hflag.
Defined.

(** X17 at work: the thread of the session cannot be retrieved; the
    second [initialize] creates an assistant beside the retrieved one. *)
Lemma initialize_again_witness :
  let w := Faulty.world (Faulty.mk true true false) in
  let failed := @initialize Faulty.t Faulty.runtime (Faulty.session, w) in
  fst failed = Raise (Error "404 No thread found")
  /\ assistant (fst (snd failed)) = Some (Assistant.mk "asst_7")
  /\ assistant_ops (events (snd (snd (@initialize Faulty.t Faulty.runtime (snd failed)))))
     = [AssistantsRetrieve "asst_7";
        AssistantsCreate (assistant_params Faulty.session (@toolRegistry0 Faulty.platform))].
Proof.
  cbv zeta.
  pose (w := Faulty.world (Faulty.mk true true false)).
  pose (s1 := snd (@initialize_assistant Faulty.t Faulty.runtime (Faulty.session, w))).
  pose (s2 := snd (@initialize_thread Faulty.t Faulty.runtime s1)).
  destruct (@initialize_again_creates_another_assistant Faulty.t Faulty.runtime
              Faulty.session (fst s1) (fst s2) w (snd s1) (snd s2)
              (Error "404 No thread found") eq_refl eq_refl eq_refl)
    as (Hfailed & _ & _ & Hops).
  fold w. rewrite Hfailed. cbn [fst snd].
  split; [reflexivity |]. split; [reflexivity |].
  rewrite Hops. reflexivity.
Defined.

(** X18 at work: a constructed session, and the same after [initialize]
    and after [sendMessage]. *)
Lemma session_set_up_witness :
  constructor Scripted.config = Normal Scripted.session
  /\ set_up Scripted.session
  /\ set_up (fst (snd (initialize (Scripted.session, Scripted.world Scripted.idle))))
  /\ set_up (fst (snd (sendMessage 3 "gm"
                         (Scripted.session, Scripted.world (Scripted.answering []))))).
Proof.
  destruct (@session_stays_set_up Scripted.t Scripted.runtime Scripted.platform)
    as (Hnew & Hinitialize & HsendMessage).
  assert (Hconstructed : constructor Scripted.config = Normal Scripted.session)
    by reflexivity.
  destruct (Hnew Scripted.config Scripted.session Hconstructed) as (_ & _ & _ & Hset).
  split; [exact Hconstructed |]. split; [exact Hset |].
  split.
  - exact (Hinitialize Scripted.session (Scripted.world Scripted.idle) Hset).
  - exact (HsendMessage 3 "gm" Scripted.session
             (Scripted.world (Scripted.answering [])) Hset).
Defined.

(** X19 at work: a ready session sends "gm". *)
Lemma sendMessage_appends_witness :
  set_up Scripted.ready
  /\ In (EvRemote (MessagesCreate "thread_1" RoleUser "gm"))
       (events (snd (snd (sendMessage 2 "gm"
                            (Scripted.ready, Scripted.world (Scripted.answering [])))))).
Proof.
  assert (Hset : set_up Scripted.ready) by (intros _; split; discriminate).
  split; [exact Hset |].
  destruct (@sendMessage_appends_the_message Scripted.t Scripted.runtime Scripted.platform
              Scripted.ready (Scripted.world (Scripted.answering [])) 2 "gm"
              Hset (or_introl eq_refl))
    as (th & Hthread & Hsent).
  vm_compute in Hthread. injection Hthread as <-. exact Hsent.
Defined.

(** X20 at work: a run that is queued, then in progress, then completed. *)
Lemma createRun_polls_witness :
  let w := Scripted.world (Scripted.answering []) in
  fst (createRun 2 (Scripted.ready, w)) = Ret (Scripted.run_in completed)
  /\ remote_ops (events (snd (snd (createRun 2 (Scripted.ready, w)))))
     = [RunsCreate "thread_1" "asst_1";
        RunsRetrieve "thread_1" "run_1"; RunsRetrieve "thread_1" "run_1"]
  /\ fst (createRun 1 (Scripted.ready, w)) = OutOfFuel.
Proof.
  cbv zeta.
  assert (Hpolls : @polls Scripted.t Scripted.runtime "thread_1" 2
                     (Scripted.run_in queued)
                     (Scripted.mk [] [Scripted.run_in in_progress; Scripted.run_in completed] [])
                     [EvSleep 1000; EvRemote (RunsRetrieve "thread_1" "run_1");
                      EvSleep 1000; EvRemote (RunsRetrieve "thread_1" "run_1")]
                     (Scripted.run_in completed) (Scripted.mk [] [] [])).
  { apply (@polls_again Scripted.t Scripted.runtime "thread_1" 1
             (Scripted.run_in queued) (Scripted.run_in in_progress)
             (Scripted.run_in completed)
             (Scripted.mk [] [Scripted.run_in in_progress; Scripted.run_in completed] [])
             (Scripted.mk [] [Scripted.run_in completed] []) (Scripted.mk [] [] [])
             [EvSleep 1000; EvRemote (RunsRetrieve "thread_1" "run_1")]
             eq_refl eq_refl).
    apply (@polls_again Scripted.t Scripted.runtime "thread_1" 0
             (Scripted.run_in in_progress) (Scripted.run_in completed)
             (Scripted.run_in completed)
             (Scripted.mk [] [Scripted.run_in completed] [])
             (Scripted.mk [] [] []) (Scripted.mk [] [] []) [] eq_refl eq_refl).
    apply (@polls_done Scripted.t Scripted.runtime "thread_1"
             (Scripted.run_in completed) (Scripted.mk [] [] []) eq_refl). }
  destruct (@createRun_polls_until_settled Scripted.t Scripted.runtime
              Scripted.ready (Scripted.world (Scripted.answering [])) 2
              (Scripted.run_in queued) (Scripted.run_in completed)
              (Scripted.mk [] [Scripted.run_in in_progress; Scripted.run_in completed] [])
              (Scripted.mk [] [] [])
              [EvSleep 1000; EvRemote (RunsRetrieve "thread_1" "run_1");
               EvSleep 1000; EvRemote (RunsRetrieve "thread_1" "run_1")]
              eq_refl Hpolls)
    as (Henough & Hshort & _).
  rewrite (Henough 2 (le_n 2)).
  split; [reflexivity |]. split; [reflexivity |].
  exact (Hshort 1 (le_n 2)).
Defined.

(** X21 at work: the run comes back failed. *)
Lemma sendMessage_unfinished_witness :
  fst (@sendMessage Faulty.t Faulty.runtime Faulty.platform 5 "gm"
         (Scripted.ready, Faulty.world (Faulty.mk true true true)))
  = Raise (Error "Unexpected response format")
  /\ remote_ops
       (events (snd (snd (@sendMessage Faulty.t Faulty.runtime Faulty.platform 5 "gm"
                            (Scripted.ready, Faulty.world (Faulty.mk true true true))))))
     = [MessagesCreate "thread_1" RoleUser "gm"; RunsCreate "thread_1" "asst_1"].
Proof.
  assert (Hstatus : Run.status (Run.mk "run_2" failed None) <> completed) by discriminate.
  rewrite (@sendMessage_reports_an_unfinished_run Faulty.t Faulty.runtime Faulty.platform
             Scripted.ready (Faulty.world (Faulty.mk true true true)) "gm" 5
             (Assistant.mk "asst_1") (Thread.mk "thread_1") (Run.mk "run_2" failed None)
             (Faulty.mk true true true) (Faulty.mk true true true)
             eq_refl eq_refl eq_refl eq_refl eq_refl eq_refl eq_refl Hstatus).
  split; reflexivity.
Defined.

(** X22 at work: a malformed call between a balance call and a call to
    an unregistered tool. *)
Lemma malformed_arguments_witness :
  fst (dispatchRound Scripted.ready
         [Scripted.balance_call; Faulty.malformed_call; Scripted.missing_tool_call]
         (Scripted.world Scripted.idle))
  = [ToolOutput.mk "call_3" "1500000000000000000 wei";
     ToolOutput.mk "call_6" "Error: Unexpected end of JSON input"].
Proof.
  exact (proj2 (@malformed_arguments_skip_the_handler Scripted.t Scripted.platform
                  Scripted.ready (Scripted.world Scripted.idle)
                  [Scripted.balance_call] [Scripted.missing_tool_call]
                  Faulty.malformed_call getBalanceTool
                  (ErrorObject "SyntaxError" "Unexpected end of JSON input")
                  eq_refl eq_refl)).
Defined.

(** X23 at work: four calls with distinct identities, one of them to an
    unknown tool and one to a name every object inherits. *)
Lemma outputs_distinct_witness :
  let toolCalls :=
    [Scripted.unknown_token_call; Scripted.missing_tool_call;
     Scripted.inherited_name_call; Scripted.balance_call] in
  let toolOutputs :=
    fst (dispatchRound Scripted.ready toolCalls (Scripted.world Scripted.idle)) in
  NoDup (map ToolCall.id toolCalls)
  /\ NoDup (map ToolOutput.tool_call_id toolOutputs)
  /\ map ToolOutput.tool_call_id toolOutputs = ["call_1"; "call_7"; "call_3"].
Proof.
  cbv zeta.
  assert (Hdistinct : NoDup (map ToolCall.id
                               [Scripted.unknown_token_call; Scripted.missing_tool_call;
                                Scripted.inherited_name_call; Scripted.balance_call])).
  { repeat constructor; simpl; intuition discriminate. }
  split; [exact Hdistinct |].
  split; [| reflexivity].
  exact (proj1 (@outputs_answer_distinct_calls Scripted.t Scripted.platform
                  Scripted.ready
                  [Scripted.unknown_token_call; Scripted.missing_tool_call;
                   Scripted.inherited_name_call; Scripted.balance_call]
                  (Scripted.world Scripted.idle) Hdistinct)).
Defined.

(** X24 at work: the run asks for the balance, the submission completes
    it and the thread holds the answer. *)
Lemma sendMessage_tool_round_witness :
  let script :=
    Scripted.mk []
      [Scripted.run_requiring [Scripted.balance_call]; Scripted.run_in completed]
      [Message.mk RoleAssistant [TextContentBlock "You hold 1.5 MON"]] in
  let result := sendMessage 1 "balance?" (Scripted.ready, Scripted.world script) in
  fst result = Ret "You hold 1.5 MON"
  /\ remote_ops (events (snd (snd result)))
     = [MessagesCreate "thread_1" RoleUser "balance?";
        RunsCreate "thread_1" "asst_1";
        RunsSubmitToolOutputsAndPoll "thread_1" "run_1"
          [ToolOutput.mk "call_3" "1500000000000000000 wei"];
        MessagesList "thread_1"].
Proof.
  cbv zeta.
  pose (thread_messages := [Message.mk RoleAssistant [TextContentBlock "You hold 1.5 MON"]]).
  pose (r0 := Scripted.mk []
                [Scripted.run_requiring [Scripted.balance_call]; Scripted.run_in completed]
                thread_messages).
  pose (r2 := Scripted.mk [] [Scripted.run_in completed] thread_messages).
  pose (r3 := Scripted.mk [] [] thread_messages).
  assert (Hsome : forall outputs : list ToolOutput.t,
             outputs = [ToolOutput.mk "call_3" "1500000000000000000 wei"] -> outputs <> [])
    by (intros outputs ->; discriminate).
  destruct (@sendMessage_after_one_tool_round Scripted.t Scripted.runtime Scripted.platform
              Scripted.ready (Scripted.world r0) "balance?" 1
              (Assistant.mk "asst_1") (Thread.mk "thread_1")
              (Scripted.run_requiring [Scripted.balance_call]) (Scripted.run_in completed)
              [Scripted.balance_call] r0 r2 r3 r3
              "You hold 1.5 MON" [] []
              eq_refl eq_refl eq_refl eq_refl eq_refl eq_refl eq_refl
              (Hsome _ eq_refl) eq_refl eq_refl eq_refl (le_n 1))
    as (Hanswer & _ & _ & Hops).
  split; [exact Hanswer | exact Hops].
Defined.

(** X25 at work: a configuration without a wallet client under an empty
    [PRIVATE_KEY], and one with a wallet client. *)
Lemma constructor_witness :
  @constructor Faulty.platform (Config.mk None None None None None)
  = Throw (Error "PRIVATE_KEY environment variable is not set.")
  /\ @constructor Faulty.platform Scripted.config
     = Normal Scripted.session.
Proof.
  split.
  - destruct (@constructor_normalises_its_config Faulty.platform None None None None None)
      as (_ & _ & Hwithout & Hkey).
    apply (Hwithout eq_refl). exact (Hkey (or_intror eq_refl)).
  - destruct (@constructor_normalises_its_config Faulty.platform
                (Some Scripted.wallet) None None None None)
      as (_ & Hwith & _).
    destruct (Hwith Scripted.wallet eq_refl) as (a & Hconstructed & _).
    unfold Scripted.config. rewrite Hconstructed. vm_compute in Hconstructed.
    injection Hconstructed as <-. reflexivity.
Defined.
